(** * mstrio-py: [Report] and its paginated download ([report.py])

    A shallow embedding of [mstrio/project_objects/report.py]: the [Report]
    object, its constructor, [apply_filters], and [to_dataframe] with its
    sequential and parallel chunk loops, followed by the properties the
    specification states about them.

    Python integers are [Z]; [len(...)] is [N]; a method is a computation in
    the monad [M]: it reads and writes [self], may raise, and records every
    REST request it issues. *)

From Stdlib Require Import ZArith NArith List String Ascii Bool Lia.
Import ListNotations.
Open Scope Z_scope.

(** ** Python arithmetic and [range] *)

Module Py.

(** *** [int(a / b)] on ints

    [a / b] on two ints is the double nearest to the exact quotient, ties
    going to the even mantissa (CPython's [long_true_divide] rounds once,
    from the exact quotient), and [int()] truncates that double toward zero.
    A double is [m * 2 ** e] with a mantissa [m] of at most 53 bits and
    [e >= -1074]. *)

(** [a / (b * 2 ** e)] as a fraction of two integers. *)
Definition scale (a b e : Z) : Z * Z :=
  if 0 <=? e then (a, b * 2 ^ e) else (a * 2 ^ (- e), b).

(** The integer nearest to [n / d], the even one of two that are equally
    near. *)
Definition nearest (n d : Z) : Z :=
  let q := n / d in
  let r := n mod d in
  if ((d <? 2 * r) || ((d =? 2 * r) && Z.odd q))%bool then q + 1 else q.

(** The exponent of the double for [a / b], [0 < a] and [0 < b]: the one
    that leaves 53 bits before the point, and [-1074] for the subnormal
    numbers. *)
Definition exponent (a b : Z) : Z :=
  let e := Z.log2 a - Z.log2 b - 52 in
  let '(n, d) := scale a b e in
  Z.max (-1074) (if n / d <? 2 ^ 52 then e - 1 else e).

(** [int(a / b)] for [0 <= a] and [0 < b]. *)
Definition truediv_trunc (a b : Z) : Z :=
  let e := exponent a b in
  let '(n, d) := scale a b e in
  let m := nearest n d in
  if 0 <=? e then m * 2 ^ e else m / 2 ^ (- e).

(** [int(a / b)], [b] not zero: rounding is symmetric in the sign. A
    quotient of [2 ** 1024] or beyond has no double and [a / b] raises
    [OverflowError] there; that error is left out, and the quotient is
    rounded to 53 bits whatever its size. *)
Definition int_truediv (a b : Z) : Z :=
  Z.sgn a * Z.sgn b * truediv_trunc (Z.abs a) (Z.abs b).

(** [a % b]: the result has the sign of [b]. *)
Definition mod_ (a b : Z) : Z := Z.modulo a b.

(** A [bool] used as an [int] in [n + (cond)]. *)
Definition int_of_bool (b : bool) : Z := if b then 1 else 0.

(** [len(range(start, stop, step))], as CPython computes it; [step] is
    not zero. *)
Definition range_len (start stop step : Z) : Z :=
  if 0 <? step then
    if start <? stop then (stop - start - 1) / step + 1 else 0
  else
    if stop <? start then (start - stop - 1) / (- step) + 1 else 0.

(** The elements of [range(start, stop, step)] for [step <> 0]. *)
Definition range_elems (start stop step : Z) : list Z :=
  map (fun k => start + Z.of_nat k * step)
      (seq 0 (Z.to_nat (range_len start stop step))).

(** [s[:n]] and [s[n:]] on strings. *)
Definition slice_to (n : nat) (s : string) : string := substring 0 n s.
Definition slice_from (n : nat) (s : string) : string :=
  substring n (String.length s - n) s.

(** [needle in hay] on strings: substring containment. *)
Fixpoint str_in (needle hay : string) : bool :=
  if prefix needle hay then true
  else match hay with
       | EmptyString => false
       | String _ hay' => str_in needle hay'
       end.

(** [x in xs] on a list of strings. *)
Definition list_in (x : string) (xs : list string) : bool :=
  existsb (String.eqb x) xs.

(** [xs.remove(x)]: drops the first occurrence ([ValueError] when there is
    none is the caller's concern). *)
Fixpoint list_remove (x : string) (xs : list string) : list string :=
  match xs with
  | [] => []
  | y :: ys => if String.eqb x y then ys else y :: list_remove x ys
  end.

(** [d.setdefault(key, []).append(v)] on an insertion-ordered dict. *)
Fixpoint setdefault_append (key v : string) (d : list (string * list string))
  : list (string * list string) :=
  match d with
  | [] => [(key, [v])]
  | (k, vs) :: d' =>
      if String.eqb k key then (k, vs ++ [v]) :: d'
      else (k, vs) :: setdefault_append key v d'
  end.

End Py.

(** ** Data *)

(** A row of the result grid: one cell per column. *)
Definition Row := list string.

(** A pandas [DataFrame] with a default integer index. *)
Record DataFrame := mkDataFrame {
  columns : list string;
  rows : list Row
}.

(** What the code reads from a [requests.Response] of the instance
    endpoints: [ok], the size of [res.content] and, of [res.json()],
    [instanceId], [data.paging.total], [data.paging.current] and the grid
    itself. A [Response] carries what [res.json()] decoded, and a body that
    decodes is not empty: [to_dataframe] decodes the first page (line 305)
    before it measures it (line 318). The size is therefore [positive]. *)
Record Response := mkResponse {
  ok : bool;
  content_bytes : positive;
  instanceId : string;
  paging_total : Z;
  paging_current : Z;
  grid_header : list string;
  grid_rows : list Row
}.

(** [len(res.content)] *)
Definition content_len (r : Response) : N := Npos (content_bytes r).

(** An attribute or a metric as the report keeps it:
    [{'name': ..., 'id': ...}]. *)
Record Obj := mkObj { obj_name : string; obj_id : string }.

(** A unit of [definition.grid.rows] / [definition.grid.columns]. *)
Record GridUnit := mkGridUnit {
  unit_type : string;
  unit_name : string;
  unit_id : string;
  unit_elements : list Obj
}.

(** [GET /v2/reports/<id>]: the part of the body [_get_definition] reads. *)
Record DefinitionJson := mkDefinitionJson {
  def_ok : bool;
  def_name : string;
  def_crossTab : bool;
  def_subtotals : list (string * bool);
  def_rows : list GridUnit;
  def_columns : list GridUnit;
  def_metricsPosition : option (string * nat);
  def_customGroups : list string;
  def_consolidations : list string
}.

(** [mstrio.utils.filter.Filter]: the attributes [report.py] reads and
    assigns. *)
Record Filter := mkFilter {
  attr_selected : list string;
  metr_selected : list string;
  attr_elem_selected : list string;
  operator : string
}.

(** The dict [apply_filters] stores for a cross-tab report. *)
Record CrossTabFilter := mkCrossTabFilter {
  ctf_attributes : option (list string);
  ctf_metrics : option (list string);
  ctf_attr_elements : option (list string)
}.

(** The body of [POST /v2/reports/<id>/instances]. *)
Record Body := mkBody {
  body_filter : string;
  body_subtotals : option bool
}.

Record Connection := mkConnection {
  iserver_version : string;
  project_id : option string
}.

(** The REST requests a [Report] issues. *)
Inductive Request :=
| ReportDefinition (report_id : string)
| ReportInstance (report_id : string) (body : Body) (offset limit : Z)
| ReportInstanceId (report_id instance : string) (offset limit : Z)
| ReportInstanceIdAsync (report_id instance : string) (offset limit : Z)
| Other (what : string).

Inductive exn :=
| ValueError (msg : string)
| HTTPError (response : Response)
| DefinitionHTTPError
| ZeroDivisionError
| ImportError (msg : string)
| KeyError (key : string)
| IndexError
| OtherError (msg : string).

(** The [Report] object: the attributes [_init_variables] creates, with
    [_id], [name] and [_connection] of [Entity]. [None] for
    [_cross_tab_filter] is the empty dict: [apply_filters] is the only writer
    and always stores the three keys. *)
Record Report := mkReport {
  _connection : Connection;
  _id : string;
  name : string;
  instance_id : option string;
  _parallel : bool;
  _initial_limit : Z;
  _progress_bar : bool;
  _cross_tab : bool;
  _cross_tab_filter : option CrossTabFilter;
  _subtotals : list (string * bool);
  _dataframe : option DataFrame;
  _attr_elements : option (list (string * list string));
  _attributes : list Obj;
  _metrics : list Obj;
  _Report__definition_retrieved : bool;
  _Report__filter : option Filter
}.

(** ** The monad of methods *)

Inductive Res (A : Type) :=
| Raise (e : exn)
| Return (a : A).
Arguments Raise {A} e.
Arguments Return {A} a.

(** The outcome of running a computation: what it returned or raised, the
    state it left, and the requests it sent, oldest first. *)
Record Out (S A : Type) := mkOut {
  outcome : Res A;
  post : S;
  sent : list Request
}.
Arguments mkOut {S A}.
Arguments outcome {S A}.
Arguments post {S A}.
Arguments sent {S A}.

Definition M (S A : Type) : Type := S -> Out S A.

Definition ret {S A} (a : A) : M S A := fun s => mkOut (Return a) s [].

Definition raise {S A} (e : exn) : M S A := fun s => mkOut (Raise e) s [].

Definition bind {S A B} (m : M S A) (f : A -> M S B) : M S B :=
  fun s =>
    match m s with
    | mkOut (Raise e) s' t => mkOut (Raise e) s' t
    | mkOut (Return a) s' t =>
        match f a s' with
        | mkOut r s'' t' => mkOut r s'' (t ++ t')
        end
    end.

Definition get {S} : M S S := fun s => mkOut (Return s) s [].

Definition modify {S} (f : S -> S) : M S unit :=
  fun s => mkOut (Return tt) (f s) [].

Definition send {S} (r : Request) : M S unit :=
  fun s => mkOut (Return tt) s [r].

(** [try: m  except <handles>: h] *)
Definition try_except {S A} (m : M S A) (handles : exn -> bool) (h : M S A)
  : M S A :=
  fun s =>
    match m s with
    | mkOut (Return a) s' t => mkOut (Return a) s' t
    | mkOut (Raise e) s' t =>
        if handles e then
          match h s' with
          | mkOut r s'' t' => mkOut r s'' (t ++ t')
          end
        else mkOut (Raise e) s' t
    end.

Declare Scope py_scope.
Delimit Scope py_scope with py.
Notation "x <- m ;; k" := (bind m (fun x => k))
  (at level 100, m at next level, right associativity) : py_scope.
Notation "m ;;; k" := (bind m (fun _ => k))
  (at level 100, right associativity) : py_scope.
Open Scope py_scope.

(** The table a computation returned, if it returned one. *)
Definition returned {S A} (o : Out S A) : option A :=
  match outcome o with
  | Return a => Some a
  | Raise _ => None
  end.

Definition lift {S A} (r : Res A) : M S A :=
  match r with
  | Raise e => raise e
  | Return a => ret a
  end.

(** ** Field updates of [self] *)

Definition set_name (v : string) (r : Report) : Report :=
  mkReport (_connection r) (_id r) v (instance_id r) (_parallel r)
    (_initial_limit r) (_progress_bar r) (_cross_tab r) (_cross_tab_filter r)
    (_subtotals r) (_dataframe r) (_attr_elements r) (_attributes r)
    (_metrics r) (_Report__definition_retrieved r) (_Report__filter r).

Definition set_instance_id (v : option string) (r : Report) : Report :=
  mkReport (_connection r) (_id r) (name r) v (_parallel r)
    (_initial_limit r) (_progress_bar r) (_cross_tab r) (_cross_tab_filter r)
    (_subtotals r) (_dataframe r) (_attr_elements r) (_attributes r)
    (_metrics r) (_Report__definition_retrieved r) (_Report__filter r).

Definition set_parallel (v : bool) (r : Report) : Report :=
  mkReport (_connection r) (_id r) (name r) (instance_id r) v
    (_initial_limit r) (_progress_bar r) (_cross_tab r) (_cross_tab_filter r)
    (_subtotals r) (_dataframe r) (_attr_elements r) (_attributes r)
    (_metrics r) (_Report__definition_retrieved r) (_Report__filter r).

Definition set_initial_limit (v : Z) (r : Report) : Report :=
  mkReport (_connection r) (_id r) (name r) (instance_id r) (_parallel r)
    v (_progress_bar r) (_cross_tab r) (_cross_tab_filter r)
    (_subtotals r) (_dataframe r) (_attr_elements r) (_attributes r)
    (_metrics r) (_Report__definition_retrieved r) (_Report__filter r).

Definition set_cross_tab (v : bool) (r : Report) : Report :=
  mkReport (_connection r) (_id r) (name r) (instance_id r) (_parallel r)
    (_initial_limit r) (_progress_bar r) v (_cross_tab_filter r)
    (_subtotals r) (_dataframe r) (_attr_elements r) (_attributes r)
    (_metrics r) (_Report__definition_retrieved r) (_Report__filter r).

Definition set_cross_tab_filter (v : option CrossTabFilter) (r : Report)
  : Report :=
  mkReport (_connection r) (_id r) (name r) (instance_id r) (_parallel r)
    (_initial_limit r) (_progress_bar r) (_cross_tab r) v
    (_subtotals r) (_dataframe r) (_attr_elements r) (_attributes r)
    (_metrics r) (_Report__definition_retrieved r) (_Report__filter r).

Definition set_subtotals (v : list (string * bool)) (r : Report) : Report :=
  mkReport (_connection r) (_id r) (name r) (instance_id r) (_parallel r)
    (_initial_limit r) (_progress_bar r) (_cross_tab r) (_cross_tab_filter r)
    v (_dataframe r) (_attr_elements r) (_attributes r)
    (_metrics r) (_Report__definition_retrieved r) (_Report__filter r).

Definition set_dataframe (v : option DataFrame) (r : Report) : Report :=
  mkReport (_connection r) (_id r) (name r) (instance_id r) (_parallel r)
    (_initial_limit r) (_progress_bar r) (_cross_tab r) (_cross_tab_filter r)
    (_subtotals r) v (_attr_elements r) (_attributes r)
    (_metrics r) (_Report__definition_retrieved r) (_Report__filter r).

Definition set_attributes (v : list Obj) (r : Report) : Report :=
  mkReport (_connection r) (_id r) (name r) (instance_id r) (_parallel r)
    (_initial_limit r) (_progress_bar r) (_cross_tab r) (_cross_tab_filter r)
    (_subtotals r) (_dataframe r) (_attr_elements r) v
    (_metrics r) (_Report__definition_retrieved r) (_Report__filter r).

Definition set_metrics (v : list Obj) (r : Report) : Report :=
  mkReport (_connection r) (_id r) (name r) (instance_id r) (_parallel r)
    (_initial_limit r) (_progress_bar r) (_cross_tab r) (_cross_tab_filter r)
    (_subtotals r) (_dataframe r) (_attr_elements r) (_attributes r)
    v (_Report__definition_retrieved r) (_Report__filter r).

Definition set_definition_retrieved (v : bool) (r : Report) : Report :=
  mkReport (_connection r) (_id r) (name r) (instance_id r) (_parallel r)
    (_initial_limit r) (_progress_bar r) (_cross_tab r) (_cross_tab_filter r)
    (_subtotals r) (_dataframe r) (_attr_elements r) (_attributes r)
    (_metrics r) v (_Report__filter r).

Definition set_filter (v : option Filter) (r : Report) : Report :=
  mkReport (_connection r) (_id r) (name r) (instance_id r) (_parallel r)
    (_initial_limit r) (_progress_bar r) (_cross_tab r) (_cross_tab_filter r)
    (_subtotals r) (_dataframe r) (_attr_elements r) (_attributes r)
    (_metrics r) (_Report__definition_retrieved r) v.

Definition set_attr_selected (v : list string) (f : Filter) : Filter :=
  mkFilter v (metr_selected f) (attr_elem_selected f) (operator f).

Definition set_metr_selected (v : list string) (f : Filter) : Filter :=
  mkFilter (attr_selected f) v (attr_elem_selected f) (operator f).

Definition set_operator (v : string) (f : Filter) : Filter :=
  mkFilter (attr_selected f) (metr_selected f) (attr_elem_selected f) v.

(** [d[key] = v] on a dict kept as an association list. *)
Fixpoint dict_set (key : string) (v : bool) (d : list (string * bool))
  : list (string * bool) :=
  match d with
  | [] => [(key, v)]
  | (k, w) :: d' =>
      if String.eqb k key then (k, v) :: d' else (k, w) :: dict_set key v d'
  end.

(** ** The server and the library code around [report.py] *)

(** The Intelligence Server behind the three endpoints a report uses, as a
    function of the request: every request is answered, by a response that
    is [ok] or not. A connection that breaks and a body that does not decode
    are not modelled. *)
Record Server := mkServer {
  srv_definition : string -> DefinitionJson;
  srv_instance : string -> Body -> Z -> Z -> Response;
  srv_instance_id : string -> string -> Z -> Z -> Response
}.

(** Code that [report.py] calls and that lives in other modules:
    [packaging.version], [config], [Connection], [Entity] and [Filter]. *)
Record Library := mkLibrary {
  version_ge : string -> string -> bool;
  config_progress_bar : bool;
  validate_project_selected : Connection -> M unit unit;
  Entity_fetch : M Report unit;
  Filter_init :
    list Obj -> list Obj -> option (list (string * list string)) -> Filter;
  Filter_clear :
    option (list string) -> option (list string) -> option (list string) ->
    Filter -> Filter;
  Filter_select : list string -> Filter -> Res Filter;
  Filter_select_attr_el : list string -> Filter -> Res Filter;
  Filter_request_body : Filter -> string
}.

(** Modelled from the spec: [mstrio.utils.parser.Parser] is not among the
    sources. The specification has each page's rows appended to the table in
    the order the pages are merged, and the columns fixed by the first page;
    [parse] therefore appends the rows of a response and [dataframe] is the
    accumulated table. *)
Record Parser := mkParser {
  parser_columns : list string;
  parser_rows : list Row
}.

Definition Parser_init (response : Response) : Parser :=
  mkParser (grid_header response) [].

Definition Parser_parse (p : Parser) (response : Response) : Parser :=
  mkParser (parser_columns p) (parser_rows p ++ grid_rows response).

Definition Parser_dataframe (p : Parser) : DataFrame :=
  mkDataFrame (parser_columns p) (parser_rows p).

(** ** pandas operations used by [to_dataframe] *)

(** [df.drop(labels, axis=1)]: a label that is not a column raises
    [KeyError]. *)
Definition df_drop (labels : list string) (df : DataFrame) : Res DataFrame :=
  match find (fun l => negb (Py.list_in l (columns df))) labels with
  | Some l => Raise (KeyError l)
  | None =>
      let keep c := negb (Py.list_in c labels) in
      Return
        (mkDataFrame
           (filter keep (columns df))
           (map (fun row =>
                   map snd (filter (fun cv => keep (fst cv))
                                   (combine (columns df) row)))
                (rows df)))
  end.

Fixpoint position (c : string) (cols : list string) : option nat :=
  match cols with
  | [] => None
  | c' :: cols' =>
      if String.eqb c c' then Some O else option_map S (position c cols')
  end.

(** [df[label]]: the cells of one column. *)
Definition df_column (label : string) (df : DataFrame) : Res (list string) :=
  match position label (columns df) with
  | None => Raise (KeyError label)
  | Some i => Return (map (fun row => nth i row EmptyString) (rows df))
  end.

(** [series.isin(elements)] *)
Definition isin (elements : list string) (series : list string) : list bool :=
  map (fun v => Py.list_in v elements) series.

(** [a | b] on boolean series over the same index. *)
Definition series_or (a b : list bool) : list bool :=
  map (fun xy => fst xy || snd xy)%bool (combine a b).

(** [df[mask]] *)
Definition df_mask (mask : list bool) (df : DataFrame) : DataFrame :=
  mkDataFrame (columns df)
              (map snd (filter (fun mr => fst mr) (combine mask (rows df)))).

(** ** The methods of [Report] *)

Definition _SIZE_LIMIT : Z := 10000000.

(** [if limit:] on [int | None]. *)
Definition truthy (limit : option Z) : bool :=
  match limit with
  | Some z => negb (z =? 0)
  | None => false
  end.

Definition is_none {A} (x : option A) : bool :=
  match x with
  | None => true
  | Some _ => false
  end.

(** [max(1000, int((self._initial_limit * self._SIZE_LIMIT)
    / len(res.content)))], lines 316-319. Python's division raises on a
    divisor of 0; the size of a [Response] is never 0, so [to_dataframe]
    does not reach that branch. *)
Definition derived_limit (initial_limit : Z) (content_len : N) : Res Z :=
  if (content_len =? 0)%N then Raise ZeroDivisionError
  else Return (Z.max 1000
                 (Py.int_truediv (initial_limit * _SIZE_LIMIT)
                                 (Z.of_N content_len))).

(** The limit of the chunks after the first one, lines 315-319:
    [if not limit: limit = max(...)]. *)
Definition chunk_limit (limit : option Z) (initial_limit : Z)
           (content_len : N) : Res Z :=
  match limit with
  | Some l =>
      if negb (l =? 0) then Return l
      else derived_limit initial_limit content_len
  | None => derived_limit initial_limit content_len
  end.

(** [it_total], lines 321-323. *)
Definition it_total (total initial_limit limit : Z) : Z :=
  Py.int_truediv (total - initial_limit) limit
  + Py.int_of_bool (negb (Py.mod_ (total - initial_limit) limit =? 0)).

(** [range(start, stop, step)] *)
Definition range {S} (start stop step : Z) : M S (list Z) :=
  if step =? 0 then raise (ValueError "range() arg 3 must not be zero")
  else ret (Py.range_elems start stop step).

Section Methods.

Context (srv : Server) (lib : Library).

(** *** [mstrio.api.reports]: synchronous calls raise on an error response,
    the coroutine hands the response over as it is *)

Definition report_definition (report_id : string) : M Report DefinitionJson :=
  send (ReportDefinition report_id) ;;;
  let d := srv_definition srv report_id in
  if def_ok d then ret d else raise DefinitionHTTPError.

Definition report_instance (report_id : string) (body : Body)
           (offset limit : Z) : M Report Response :=
  send (ReportInstance report_id body offset limit) ;;;
  let r := srv_instance srv report_id body offset limit in
  if ok r then ret r else raise (HTTPError r).

Definition report_instance_id (report_id instance : string)
           (offset limit : Z) : M Report Response :=
  send (ReportInstanceId report_id instance offset limit) ;;;
  let r := srv_instance_id srv report_id instance offset limit in
  if ok r then ret r else raise (HTTPError r).

Definition report_instance_id_coroutine (report_id instance : string)
           (offset limit : Z) : M Report Response :=
  send (ReportInstanceIdAsync report_id instance offset limit) ;;;
  ret (srv_instance_id srv report_id instance offset limit).

(** [response_handler(response, msg)] of [mstrio.utils.helper], called on a
    response that is not [ok]: raises. *)
Definition response_handler {A} (response : Response) (msg : string)
  : M Report A :=
  raise (HTTPError response).

(** *** [_get_definition], lines 565-619 *)

Definition _get_definition : M Report unit :=
  self <- get ;;
  response <- report_definition (_id self) ;;
  (if version_ge lib (iserver_version (_connection self)) "11.2.0100"
   then modify (set_subtotals (def_subtotals response))
   else ret tt) ;;;
  modify (set_name (def_name response)) ;;;
  modify (set_cross_tab (def_crossTab response)) ;;;
  (match def_customGroups response with
   | _ :: _ => raise (ImportError "Reports with custom groups are not supported.")
   | [] => ret tt
   end) ;;;
  (match def_consolidations response with
   | _ :: _ => raise (ImportError "Reports with consolidations are not supported.")
   | [] => ret tt
   end) ;;;
  let is_attribute u := String.eqb (unit_type u) "attribute" in
  let full_attributes :=
    filter is_attribute (def_rows response)
    ++ filter is_attribute (def_columns response) in
  modify (set_attributes
            (map (fun a => mkObj (unit_name a) (unit_id a)) full_attributes)) ;;;
  (match def_metricsPosition response with
   | None => modify (set_metrics [])
   | Some (axis, index) =>
       units <- (if String.eqb axis "rows" then ret (def_rows response)
                 else if String.eqb axis "columns"
                      then ret (def_columns response)
                      else raise (KeyError axis)) ;;
       match nth_error units index with
       | None => raise IndexError
       | Some u =>
           modify (set_metrics
                     (map (fun m => mkObj (obj_name m) (obj_id m))
                          (unit_elements u)))
       end
   end) ;;;
  modify (set_definition_retrieved true).

(** *** The properties [attributes], [metrics] and [_filter] *)

Definition ensure_definition : M Report unit :=
  self <- get ;;
  if _Report__definition_retrieved self then ret tt else _get_definition.

Definition attributes : M Report (list Obj) :=
  ensure_definition ;;;
  self <- get ;;
  ret (_attributes self).

Definition metrics : M Report (list Obj) :=
  ensure_definition ;;;
  self <- get ;;
  ret (_metrics self).

Definition _filter : M Report Filter :=
  ensure_definition ;;;
  self <- get ;;
  match _Report__filter self with
  | Some f => ret f
  | None =>
      let f := Filter_init lib (_attributes self) (_metrics self)
                           (_attr_elements self) in
      modify (set_filter (Some f)) ;;;
      ret f
  end.

(** [self._filter.<method>(...)] and [self._filter.<attr> = ...]: the
    filter object is the one [self] holds. *)
Definition on_filter (method : Filter -> Res Filter) : M Report unit :=
  f <- _filter ;;
  f' <- lift (method f) ;;
  modify (set_filter (Some f')).

(** *** [apply_filters] and its helpers, lines 494-552 *)

Definition _select_attribute_filter_conditionally
           (attributes_filtered : option (list string)) : M Report unit :=
  match attributes_filtered with
  | Some ((_ :: _) as ids) => on_filter (Filter_select lib ids)
  | Some [] => on_filter (fun f => Return (set_attr_selected [] f))
  | None => ret tt
  end.

Definition _select_metric_filter_conditionally
           (metrics_filtered : option (list string)) : M Report unit :=
  match metrics_filtered with
  | Some ((_ :: _) as ids) => on_filter (Filter_select lib ids)
  | Some [] => on_filter (fun f => Return (set_metr_selected [] f))
  | None => ret tt
  end.

Definition _select_attr_el_filter_conditionally
           (attr_el_filtered : option (list string)) : M Report unit :=
  match attr_el_filtered with
  | Some ids => on_filter (Filter_select_attr_el lib ids)
  | None => ret tt
  end.

Definition apply_filters (attributes_ metrics_ attr_elements : option (list string))
           (operator_ : string) : M Report unit :=
  let filtering_is_requested :=
    negb (forallb is_none [attributes_; metrics_; attr_elements]) in
  self <- get ;;
  if _cross_tab self then
    modify (set_cross_tab_filter
              (Some (mkCrossTabFilter attributes_ metrics_ attr_elements)))
  else if filtering_is_requested then
    on_filter (fun f =>
                 Return (Filter_clear lib attributes_ metrics_ attr_elements f)) ;;;
    on_filter (fun f => Return (set_operator operator_ f)) ;;;
    _select_attribute_filter_conditionally attributes_ ;;;
    _select_metric_filter_conditionally metrics_ ;;;
    _select_attr_el_filter_conditionally attr_elements ;;;
    modify (set_instance_id None)
  else ret tt.

(** *** Fetching: [__get_chunk], [__initialize_report], the two loops *)

Definition __get_chunk (instance : string) (offset limit : Z)
  : M Report Response :=
  self <- get ;;
  report_instance_id (_id self) instance offset limit.

Definition __initialize_report (limit : Z) : M Report Response :=
  f <- _filter ;;
  let body := Filter_request_body lib f in
  self <- get ;;
  subtotals <-
    (if version_ge lib (iserver_version (_connection self)) "11.2.0100"
     then modify (set_subtotals (dict_set "visible" false (_subtotals self))) ;;;
          ret (Some false)
     else ret None) ;;
  self <- get ;;
  report_instance (_id self) (mkBody body subtotals) 0 (_initial_limit self).

(** The body of the [for _offset in range(...)] loop of [__fetch_chunks]. *)
Fixpoint fetch_each (instance : string) (limit : Z) (offsets : list Z)
         (parser : Parser) : M Report Parser :=
  match offsets with
  | [] => ret parser
  | _offset :: offsets' =>
      response <- __get_chunk instance _offset limit ;;
      fetch_each instance limit offsets' (Parser_parse parser response)
  end.

(** [__fetch_chunks], lines 438-453. The progress bar does not influence
    the result and is left out. *)
Definition __fetch_chunks (parser : Parser) (total it_total_ : Z)
           (instance : string) (limit : Z) : M Report Parser :=
  self <- get ;;
  offsets <- range (_initial_limit self) total limit ;;
  fetch_each instance limit offsets parser.

(** The list comprehension of [__fetch_chunks_future]: every request is
    submitted to the session before any result is read. *)
Fixpoint submit_each (report_id instance : string) (limit : Z)
         (offsets : list Z) : M Report (list Response) :=
  match offsets with
  | [] => ret []
  | _offset :: offsets' =>
      f <- report_instance_id_coroutine report_id instance _offset limit ;;
      fs <- submit_each report_id instance limit offsets' ;;
      ret (f :: fs)
  end.

(** [__fetch_chunks_future], lines 423-436. *)
Definition __fetch_chunks_future (total : Z) (instance : string) (limit : Z)
  : M Report (list Response) :=
  self <- get ;;
  offsets <- range (_initial_limit self) total limit ;;
  submit_each (_id self) instance limit offsets.

(** The loop [for i, f in enumerate(future, start=1)], lines 339-349: the
    futures are read in list order, whatever order they complete in. *)
Fixpoint result_each (future : list Response) (parser : Parser)
  : M Report Parser :=
  match future with
  | [] => ret parser
  | response :: future' =>
      (if ok response then ret tt
       else response_handler response "Error getting report contents.") ;;;
      result_each future' (Parser_parse parser response)
  end.

(** The parallel branch, lines 335-349: submit every chunk, then read the
    results in list order. *)
Definition fetch_parallel (total : Z) (instance : string) (limit : Z)
           (p : Parser) : M Report Parser :=
  future <- __fetch_chunks_future total instance limit ;;
  result_each future p.

(** *** The cross-tab filter applied to the table, lines 358-420 *)

Definition the_dataframe : M Report DataFrame :=
  self <- get ;;
  match _dataframe self with
  | Some df => ret df
  | None => raise (OtherError "AttributeError")
  end.

(** [for attribute in attr_dict: ...], lines 382-389. *)
Fixpoint or_each_attribute (attr_dict : list (string * list string))
         (indexes : list bool) : M Report (list bool) :=
  match attr_dict with
  | [] => ret indexes
  | (attribute, elements) :: attr_dict' =>
      attrs <- attributes ;;
      match filter (fun x => Py.str_in (obj_id x) attribute) attrs with
      | [] => raise IndexError
      | x :: _ =>
          df <- the_dataframe ;;
          column <- lift (df_column (obj_name x) df) ;;
          or_each_attribute attr_dict'
                            (series_or indexes (isin elements column))
      end
  end.

(** [for attr in attr_names: ...], lines 407-415. *)
Fixpoint attribute_forms (cols : list string) (attr_names : list string)
  : list string * list string :=
  match attr_names with
  | [] => ([], [])
  | attr :: attr_names' =>
      let forms := filter (prefix (attr ++ "@")%string) cols in
      let '(to_be_removed, to_be_added) := attribute_forms cols attr_names' in
      match forms with
      | [] => (to_be_removed, to_be_added)
      | _ :: _ => (attr :: to_be_removed, forms ++ to_be_added)
      end
  end.

Definition cross_tab_filtering (ctf : CrossTabFilter) : M Report unit :=
  (match ctf_metrics ctf with
   | None => ret tt
   | Some selected =>
       ms <- metrics ;;
       let metr_names :=
         map obj_name
             (filter (fun x => negb (Py.list_in (obj_id x) selected)) ms) in
       df <- the_dataframe ;;
       df' <- lift (df_drop metr_names df) ;;
       modify (set_dataframe (Some df'))
   end) ;;;
  (match ctf_attr_elements ctf with
   | None => ret tt
   | Some selected =>
       let attr_dict :=
         fold_left (fun d attribute =>
                      Py.setdefault_append (Py.slice_to 32 attribute)
                                           (Py.slice_from 33 attribute) d)
                   selected [] in
       df <- the_dataframe ;;
       indexes <- or_each_attribute attr_dict
                    (repeat false (List.length (rows df))) ;;
       df <- the_dataframe ;;
       modify (set_dataframe (Some (df_mask indexes df)))
   end) ;;;
  (match ctf_attributes ctf with
   | None => ret tt
   | Some selected =>
       attrs <- attributes ;;
       let attr_names :=
         map obj_name
             (filter (fun x => negb (Py.list_in (obj_id x) selected)) attrs) in
       df <- the_dataframe ;;
       let '(to_be_removed, to_be_added) :=
         attribute_forms (columns df) attr_names in
       let attr_names :=
         fold_left (fun names elem => Py.list_remove elem names)
                   to_be_removed attr_names
         ++ to_be_added in
       df' <- lift (df_drop attr_names df) ;;
       modify (set_dataframe (Some df'))
   end).

(** *** [to_dataframe], lines 275-421 *)

(** Lines 292-302: the first page, from the instance already initialised
    when there is one and it still answers, else from a new instance. *)
Definition first_page : M Report Response :=
  self <- get ;;
  match instance_id self with
  | None => __initialize_report (_initial_limit self)
  | Some instance =>
      try_except
        (__get_chunk instance 0 (_initial_limit self))
        (fun e => match e with HTTPError _ => true | _ => false end)
        (__initialize_report (_initial_limit self))
  end.

(** Lines 314-352: the chunks after the first page. [get_parallel_number]
    only sizes the thread pool and is left out with the progress bar. *)
Definition remaining_chunks (limit : option Z) (res : Response) (p : Parser)
  : M Report Parser :=
  if negb (paging_current res =? paging_total res) then
    self <- get ;;
    limit <-
      lift (chunk_limit limit (_initial_limit self) (content_len res)) ;;
    let it_total_ := it_total (paging_total res) (_initial_limit self) limit in
    if (_parallel self && (1 <? it_total_))%bool then
      fetch_parallel (paging_total res) (instanceId res) limit p
    else
      __fetch_chunks p (paging_total res) it_total_ (instanceId res) limit
  else ret p.

(** Lines 357-421: the cross-tab filter, when one is stored, and the
    return. *)
Definition filtered_dataframe : M Report DataFrame :=
  self <- get ;;
  (match _cross_tab_filter self with
   | None => ret tt
   | Some ctf => cross_tab_filtering ctf
   end) ;;;
  the_dataframe.

Definition to_dataframe (limit : option Z) : M Report DataFrame :=
  (match limit with
   | Some l => if negb (l =? 0) then modify (set_initial_limit l) else ret tt
   | None => ret tt
   end) ;;;
  res <- first_page ;;
  modify (set_instance_id (Some (instanceId res))) ;;;
  let p := Parser_parse (Parser_init res) res in
  p <- remaining_chunks limit res p ;;
  modify (set_dataframe (Some (Parser_dataframe p))) ;;;
  filtered_dataframe.

End Methods.

(** *** [__init__] and [_init_variables], lines 196-247 *)

Definition _init_variables (lib : Library) (connection : Connection)
           (id : string) (instance : option string)
           (parallel progress_bar : bool) : Report :=
  mkReport connection id EmptyString instance parallel 1000
           (progress_bar && config_progress_bar lib)%bool
           false None [] None None [] [] false None.

(** [Entity.__init__] sets the variables and fetches the object. *)
Definition Report___init__ (lib : Library) (connection : Connection)
           (id : string) (instance : option string)
           (parallel progress_bar : bool) : M unit Report :=
  (if String.eqb id EmptyString
   then raise (ValueError "Report ID cannot be an empty string.")
   else ret tt) ;;;
  validate_project_selected lib connection ;;;
  fun _ =>
    match Entity_fetch lib
            (_init_variables lib connection id instance parallel progress_bar)
    with
    | mkOut (Raise e) _ t => mkOut (Raise e) tt t
    | mkOut (Return _) self t => mkOut (Return self) tt t
    end.

(** * Properties *)

(** ** Arithmetic of the chunk plan *)

(** *** [int(a / b)] *)

Lemma nearest_cases (n d : Z) :
  0 < d ->
  Py.nearest n d = n / d
  \/ (Py.nearest n d = n / d + 1 /\ d <= 2 * (n mod d)).
Proof.
  intros Hd. unfold Py.nearest.
  destruct (Z.ltb_spec d (2 * (n mod d))); cbn [orb].
  - right. lia.
  - destruct (Z.eqb_spec d (2 * (n mod d))); cbn [andb]; [|now left].
    destruct (Z.odd (n / d)); [right; lia | now left].
Qed.

Lemma scale_positive (a b e : Z) :
  0 <= a -> 0 < b -> 0 <= fst (Py.scale a b e) /\ 0 < snd (Py.scale a b e).
Proof.
  intros Ha Hb. unfold Py.scale. destruct (Z.leb_spec 0 e); cbn.
  - assert (0 < 2 ^ e) by (apply Z.pow_pos_nonneg; lia). nia.
  - assert (0 < 2 ^ (- e)) by (apply Z.pow_pos_nonneg; lia). nia.
Qed.

Lemma truediv_trunc_nonneg (a b : Z) :
  0 <= a -> 0 < b -> 0 <= Py.truediv_trunc a b.
Proof.
  intros Ha Hb. unfold Py.truediv_trunc.
  pose proof (scale_positive a b (Py.exponent a b) Ha Hb) as [Hn Hd].
  destruct (Py.scale a b (Py.exponent a b)) as [n d]. cbn in Hn, Hd.
  assert (0 <= n / d) by (apply Z.div_pos; lia).
  assert (0 <= Py.nearest n d)
    by (destruct (nearest_cases n d Hd) as [-> | [-> _]]; lia).
  destruct (Z.leb_spec 0 (Py.exponent a b)).
  - assert (0 < 2 ^ Py.exponent a b) by (apply Z.pow_pos_nonneg; lia). nia.
  - apply Z.div_pos; [assumption|]. apply Z.pow_pos_nonneg; lia.
Qed.

(** Below the exponent of the subnormal numbers the mantissa has its 53
    bits. *)
Lemma exponent_normal (a b : Z) :
  0 < a -> 0 < b ->
  let e := Py.exponent a b in
  e = -1074 \/ 2 ^ 52 <= fst (Py.scale a b e) / snd (Py.scale a b e).
Proof.
  intros Ha Hb. unfold Py.exponent.
  set (e0 := Z.log2 a - Z.log2 b - 52).
  destruct (Py.scale a b e0) as [n0 d0] eqn:E0.
  destruct (Z.ltb_spec (n0 / d0) (2 ^ 52)) as [Hlt | Hge]; cbv zeta.
  - destruct (Z.max_spec (-1074) (e0 - 1)) as [[_ ->] | [_ ->]];
      [right | now left].
    pose proof (Z.log2_spec a Ha) as [Hla _].
    pose proof (Z.log2_spec b Hb) as [_ Hlb].
    pose proof (Z.log2_nonneg a). pose proof (Z.log2_nonneg b).
    unfold Py.scale. destruct (Z.leb_spec 0 (e0 - 1)) as [He | He]; cbn.
    + apply Z.div_le_lower_bound.
      { assert (0 < 2 ^ (e0 - 1)) by (apply Z.pow_pos_nonneg; lia). nia. }
      assert (E : 2 ^ Z.log2 a
                  = 2 ^ Z.succ (Z.log2 b) * 2 ^ (e0 - 1) * 2 ^ 52).
      { rewrite <- !Z.pow_add_r by lia. f_equal. unfold e0. lia. }
      assert (0 < 2 ^ (e0 - 1)) by (apply Z.pow_pos_nonneg; lia).
      assert (0 < 2 ^ 52) by (apply Z.pow_pos_nonneg; lia).
      nia.
    + apply Z.div_le_lower_bound; [lia|].
      assert (E : 2 ^ Z.log2 a * 2 ^ (- (e0 - 1))
                  = 2 ^ Z.succ (Z.log2 b) * 2 ^ 52).
      { rewrite <- !Z.pow_add_r by lia. f_equal. unfold e0. lia. }
      assert (0 < 2 ^ (- (e0 - 1))) by (apply Z.pow_pos_nonneg; lia).
      assert (0 < 2 ^ 52) by (apply Z.pow_pos_nonneg; lia).
      nia.
  - destruct (Z.max_spec (-1074) e0) as [[_ ->] | [_ ->]];
      [right | now left].
    rewrite E0. cbn. lia.
Qed.

(** A numerator below [2 ** 53] is divided exactly: [int(a / b) == a // b]. *)
Lemma truediv_trunc_exact (a b : Z) :
  0 < a < 2 ^ 53 -> 0 < b -> Py.truediv_trunc a b = a / b.
Proof.
  intros [Ha Ha53] Hb.
  pose proof (exponent_normal a b Ha Hb) as Hnorm. cbv zeta in Hnorm.
  unfold Py.truediv_trunc.
  set (e := Py.exponent a b) in *. clearbody e.
  unfold Py.scale in *.
  destruct (Z.leb_spec 0 e) as [He | He]; cbn [fst snd] in Hnorm.
  - (* the quotient has 53 bits before the point: b = 1 and e = 0 *)
    destruct Hnorm as [-> | Hq]; [lia|].
    assert (Hp : 0 < 2 ^ e) by (apply Z.pow_pos_nonneg; lia).
    assert (Hd : 2 ^ 52 * (b * 2 ^ e) <= a).
    { rewrite Z.mul_comm.
      etransitivity; [apply Z.mul_le_mono_nonneg_l; [nia | exact Hq]|].
      apply Z.mul_div_le. nia. }
    change (2 ^ 53) with (2 * 2 ^ 52) in Ha53.
    assert (0 < 2 ^ 52) by reflexivity.
    assert (b * 2 ^ e = 1) by nia.
    assert (b = 1 /\ 2 ^ e = 1) as [-> E] by nia.
    rewrite E. unfold Py.nearest. rewrite Z.mul_1_l, Z.div_1_r, Z.mod_1_r.
    cbn. lia.
  - set (P := 2 ^ (- e)) in *.
    assert (HP : 0 < P) by (apply Z.pow_pos_nonneg; lia).
    set (n := a * P) in *. set (q := n / b) in *.
    assert (Hab : a / b = q / P).
    { unfold q, n. rewrite Z.div_div by lia.
      now rewrite Z.div_mul_cancel_r by lia. }
    rewrite Hab.
    destruct (nearest_cases n b Hb) as [-> | [-> Hr]]; [reflexivity|].
    fold q.
    pose proof (Z.div_mod n b ltac:(lia)) as Hn. fold q in Hn.
    pose proof (Z.mod_pos_bound n b Hb) as Hrb.
    pose proof (Z.div_mod q P ltac:(lia)) as Hq.
    pose proof (Z.mod_pos_bound q P HP) as Hu.
    assert (Hq0 : 0 <= q) by (apply Z.div_pos; unfold n; nia).
    assert (Ht0 : 0 <= q / P) by (apply Z.div_pos; lia).
    destruct (Z_lt_le_dec (q mod P + 1) P) as [Hlt | Hge].
    + symmetry. apply (Z.div_unique _ _ _ (q mod P + 1)); lia.
    + exfalso.
      set (t := q / P) in *. set (r := n mod b) in *.
      assert (Hu' : q mod P = P - 1) by lia.
      assert (Hk : b - r = P * (b * (t + 1) - a)) by (unfold n in Hn; nia).
      assert (1 <= b * (t + 1) - a) by nia.
      assert (P <= b - r) by nia.
      assert (2 * P <= b) by lia.
      assert (2 * q <= a) by (unfold n in Hn; nia).
      change (2 ^ 53) with (2 * 2 ^ 52) in Ha53.
      destruct Hnorm as [E | Hq52]; [|lia].
      assert (2 ^ 52 < P).
      { unfold P. rewrite E. apply Z.pow_lt_mono_r; lia. }
      nia.
Qed.

Lemma int_truediv_floor (a b : Z) :
  0 <= a < 2 ^ 53 -> 0 < b -> Py.int_truediv a b = a / b.
Proof.
  intros [Ha Ha53] Hb. unfold Py.int_truediv.
  destruct (Z.eq_dec a 0) as [-> | Hnz]; [reflexivity|].
  rewrite (Z.sgn_pos a), (Z.sgn_pos b), (Z.abs_eq a), (Z.abs_eq b) by lia.
  rewrite truediv_trunc_exact; lia.
Qed.

Lemma int_truediv_nonpos (a b : Z) :
  a <= 0 -> 0 < b -> Py.int_truediv a b <= 0.
Proof.
  intros Ha Hb. unfold Py.int_truediv.
  pose proof (truediv_trunc_nonneg (Z.abs a) (Z.abs b)
                                   (Z.abs_nonneg a) ltac:(lia)).
  rewrite (Z.sgn_pos b) by lia.
  destruct (Z.eq_dec a 0) as [-> | Hnz]; [cbn; lia|].
  rewrite (Z.sgn_neg a) by lia. lia.
Qed.

Lemma max_1000_truediv (a b : Z) :
  a < 2 ^ 53 -> 0 < b ->
  Z.max 1000 (Py.int_truediv a b) = Z.max 1000 (a / b).
Proof.
  intros Ha53 Hb. destruct (Z_le_gt_dec 0 a) as [Ha | Ha].
  - now rewrite int_truediv_floor.
  - pose proof (int_truediv_nonpos a b ltac:(lia) Hb).
    assert (a / b <= 0) by (apply Z.div_le_upper_bound; lia).
    lia.
Qed.

(** *** [it_total] and [range] *)

(** [it_total] is the ceiling of [(total - initial_limit) / limit] when there
    are rows beyond the first page, fewer than [2 ** 53] of them. *)
Lemma it_total_bounds (total initial_limit limit : Z) :
  0 < limit -> initial_limit < total -> total - initial_limit < 2 ^ 53 ->
  limit * (it_total total initial_limit limit - 1) < total - initial_limit
  /\ total - initial_limit <= limit * it_total total initial_limit limit.
Proof.
  intros Hl Ht H53. unfold it_total, Py.mod_, Py.int_of_bool.
  rewrite int_truediv_floor by lia.
  set (d := total - initial_limit).
  pose proof (Z.div_mod d limit ltac:(lia)) as Hdm.
  pose proof (Z.mod_pos_bound d limit Hl) as Hb.
  destruct (d mod limit =? 0) eqn:E; cbn [negb].
  - apply Z.eqb_eq in E. nia.
  - apply Z.eqb_neq in E. nia.
Qed.

(** [range(start, stop, step)] for a positive step has as many elements as
    the ceiling of [(stop - start) / step], and none when [stop <= start]. *)
Lemma range_len_bounds (start stop step : Z) :
  0 < step -> start < stop ->
  step * (Py.range_len start stop step - 1) < stop - start
  /\ stop - start <= step * Py.range_len start stop step.
Proof.
  intros Hs Hlt. unfold Py.range_len.
  destruct (Z.ltb_spec 0 step); [|lia].
  destruct (Z.ltb_spec start stop); [|lia].
  set (d := stop - start - 1).
  pose proof (Z.div_mod d step ltac:(lia)) as Hdm.
  pose proof (Z.mod_pos_bound d step Hs) as Hb.
  assert (stop - start = d + 1) by (unfold d; lia). nia.
Qed.

Lemma range_len_empty (start stop step : Z) :
  0 < step -> stop <= start -> Py.range_len start stop step = 0.
Proof.
  intros Hs Hle. unfold Py.range_len.
  destruct (Z.ltb_spec 0 step); [|lia].
  destruct (Z.ltb_spec start stop); lia.
Qed.




(** ** The two chunk loops *)

Section Loops.

Context (srv : Server).

(** Merging responses in list order: what both loops compute. *)
Fixpoint merge (responses : list Response) (p : Parser) : Res Parser :=
  match responses with
  | [] => Return p
  | r :: rs =>
      if ok r then merge rs (Parser_parse p r) else Raise (HTTPError r)
  end.

(** The offsets a sequential loop requests: those up to and including the
    first one whose response is not [ok]. *)
Fixpoint attempted (fetch : Z -> Response) (offsets : list Z) : list Z :=
  match offsets with
  | [] => []
  | o :: os => if ok (fetch o) then o :: attempted fetch os else [o]
  end.

Lemma fetch_each_eq (instance : string) (limit : Z) (offsets : list Z) :
  forall (p : Parser) (s : Report),
    let fetch o := srv_instance_id srv (_id s) instance o limit in
    fetch_each srv instance limit offsets p s
    = mkOut (merge (map fetch offsets) p) s
            (map (fun o => ReportInstanceId (_id s) instance o limit)
                 (attempted fetch offsets)).
Proof.
  induction offsets as [|o os IH]; intros p s fetch; [reflexivity|].
  subst fetch. cbn [fetch_each map merge attempted].
  unfold bind, __get_chunk, report_instance_id, send, get, ret, raise.
  cbn.
  destruct (ok (srv_instance_id srv (_id s) instance o limit)) eqn:Hok;
    cbn; [|reflexivity].
  rewrite IH. reflexivity.
Qed.

Lemma submit_each_eq (instance : string) (limit : Z) (offsets : list Z) :
  forall (s : Report),
    submit_each srv (_id s) instance limit offsets s
    = mkOut (Return (map (fun o => srv_instance_id srv (_id s) instance o limit)
                         offsets))
            s
            (map (fun o => ReportInstanceIdAsync (_id s) instance o limit)
                 offsets).
Proof.
  induction offsets as [|o os IH]; intros s; [reflexivity|].
  cbn [submit_each map].
  unfold bind, report_instance_id_coroutine, send, ret. cbn.
  rewrite IH. cbn. now rewrite app_nil_r.
Qed.

Lemma result_each_eq (future : list Response) :
  forall (p : Parser) (s : Report),
    result_each future p s = mkOut (merge future p) s [].
Proof.
  induction future as [|r rs IH]; intros p s; [reflexivity|].
  cbn [result_each merge]. unfold bind, response_handler, ret, raise.
  destruct (ok r); cbn; [|reflexivity].
  now rewrite IH.
Qed.

Lemma fetch_chunks_eq (p : Parser) (total it : Z) (instance : string)
      (limit : Z) (s : Report) :
  limit <> 0 ->
  let fetch o := srv_instance_id srv (_id s) instance o limit in
  let offsets := Py.range_elems (_initial_limit s) total limit in
  __fetch_chunks srv p total it instance limit s
  = mkOut (merge (map fetch offsets) p) s
          (map (fun o => ReportInstanceId (_id s) instance o limit)
               (attempted fetch offsets)).
Proof.
  intros Hl fetch offsets.
  unfold __fetch_chunks, bind, get, range. cbn.
  destruct (Z.eqb_spec limit 0) as [|_]; [contradiction|].
  unfold ret. cbn. rewrite fetch_each_eq. reflexivity.
Qed.

Lemma fetch_parallel_eq (p : Parser) (total : Z) (instance : string)
      (limit : Z) (s : Report) :
  limit <> 0 ->
  let fetch o := srv_instance_id srv (_id s) instance o limit in
  let offsets := Py.range_elems (_initial_limit s) total limit in
  fetch_parallel srv total instance limit p s
  = mkOut (merge (map fetch offsets) p) s
          (map (fun o => ReportInstanceIdAsync (_id s) instance o limit)
               offsets).
Proof.
  intros Hl fetch offsets.
  unfold fetch_parallel, __fetch_chunks_future, bind, get, range. cbn.
  destruct (Z.eqb_spec limit 0) as [|_]; [contradiction|].
  unfold ret. cbn. rewrite submit_each_eq. cbn.
  rewrite result_each_eq. cbn. now rewrite app_nil_r.
Qed.

Lemma merge_app (rs1 rs2 : list Response) :
  forall p,
    merge (rs1 ++ rs2) p
    = match merge rs1 p with
      | Raise e => Raise e
      | Return p' => merge rs2 p'
      end.
Proof.
  induction rs1 as [|r rs IH]; intros p; [reflexivity|].
  cbn. destruct (ok r); [apply IH | reflexivity].
Qed.

Lemma merge_all_ok (rs : list Response) :
  Forall (fun r => ok r = true) rs ->
  forall p,
    merge rs p
    = Return (mkParser (parser_columns p)
                       (parser_rows p ++ List.concat (map grid_rows rs))).
Proof.
  induction 1 as [|r rs Hr _ IH]; intros p; cbn.
  - rewrite app_nil_r. now destruct p.
  - rewrite Hr, IH. cbn. now rewrite <- app_assoc.
Qed.

Lemma merge_returns (rs : list Response) :
  forall p p', merge rs p = Return p' -> Forall (fun r => ok r = true) rs.
Proof.
  induction rs as [|r rs IH]; intros p p' H; [constructor|].
  cbn in H. destruct (ok r) eqn:Hr; [|discriminate].
  constructor; [assumption | eauto].
Qed.


Lemma attempted_first_failure (fetch : Z -> Response)
      (before : list Z) (o : Z) (after : list Z) :
  Forall (fun x => ok (fetch x) = true) before ->
  ok (fetch o) = false ->
  attempted fetch (before ++ o :: after) = before ++ [o].
Proof.
  induction 1 as [|x xs Hx _ IH]; intros Ho; cbn.
  - now rewrite Ho.
  - now rewrite Hx, IH.
Qed.

Lemma merge_first_failure (before : list Response) (r : Response)
      (after : list Response) :
  Forall (fun x => ok x = true) before ->
  ok r = false ->
  forall p, merge (before ++ r :: after) p = Raise (HTTPError r).
Proof.
  induction 1 as [|x xs Hx _ IH]; intros Hr p; cbn.
  - now rewrite Hr.
  - rewrite Hx. now apply IH.
Qed.

End Loops.

(** ** The download stage of [to_dataframe] *)

Section Download.

Context (srv : Server) (lib : Library).

Lemma chunk_limit_nonzero (limit : option Z) (initial_limit : Z)
      (content_len : N) (l : Z) :
  chunk_limit limit initial_limit content_len = Return l -> l <> 0.
Proof.
  unfold chunk_limit, derived_limit.
  destruct limit as [z|]; [destruct (Z.eqb_spec z 0); cbn|];
    try destruct (content_len =? 0)%N; intros H; inversion H; subst; lia.
Qed.

(** What the chunks after the first page amount to, whichever loop runs:
    the responses for the offsets of the plan, merged in offset order. *)
Definition merged (limit : option Z) (res : Response) (p : Parser)
           (report_id : string) (initial_limit : Z) : Res Parser :=
  if negb (paging_current res =? paging_total res) then
    match chunk_limit limit initial_limit (content_len res) with
    | Raise e => Raise e
    | Return l =>
        merge (map (fun o => srv_instance_id srv report_id (instanceId res) o l)
                   (Py.range_elems initial_limit (paging_total res) l))
              p
    end
  else Return p.

(** The requests the chunks after the first page cost. *)
Definition chunk_requests (limit : option Z) (res : Response) (s : Report)
  : list Request :=
  if negb (paging_current res =? paging_total res) then
    match chunk_limit limit (_initial_limit s) (content_len res) with
    | Raise _ => []
    | Return l =>
        let fetch o := srv_instance_id srv (_id s) (instanceId res) o l in
        let offsets :=
          Py.range_elems (_initial_limit s) (paging_total res) l in
        if (_parallel s
            && (1 <? it_total (paging_total res) (_initial_limit s) l))%bool
        then map (fun o => ReportInstanceIdAsync (_id s) (instanceId res) o l)
                 offsets
        else map (fun o => ReportInstanceId (_id s) (instanceId res) o l)
                 (attempted fetch offsets)
    end
  else [].

Lemma remaining_chunks_eq (limit : option Z) (res : Response) (p : Parser)
      (s : Report) :
  remaining_chunks srv limit res p s
  = mkOut (merged limit res p (_id s) (_initial_limit s)) s
          (chunk_requests limit res s).
Proof.
  unfold remaining_chunks, merged, chunk_requests.
  destruct (negb (paging_current res =? paging_total res)); [|reflexivity].
  unfold bind at 1. cbn [get outcome post sent].
  unfold bind at 1.
  destruct (chunk_limit limit (_initial_limit s) (content_len res))
    as [e|l] eqn:Hl; cbn; [reflexivity|].
  pose proof (chunk_limit_nonzero _ _ _ _ Hl) as Hnz.
  destruct (_parallel s
            && (1 <? it_total (paging_total res) (_initial_limit s) l))%bool.
  - now rewrite fetch_parallel_eq.
  - now rewrite fetch_chunks_eq.
Qed.

(** Fields that only [to_dataframe] itself and [apply_filters] write. *)
Definition keeps (s s' : Report) : Prop :=
  _connection s' = _connection s
  /\ _id s' = _id s
  /\ instance_id s' = instance_id s
  /\ _parallel s' = _parallel s
  /\ _initial_limit s' = _initial_limit s
  /\ _cross_tab_filter s' = _cross_tab_filter s
  /\ _dataframe s' = _dataframe s.

Ltac break_match :=
  match goal with
  | |- context [match ?x with _ => _ end] =>
      lazymatch x with
      | context [match _ with _ => _ end] => fail
      | _ => destruct x eqn:?
      end
  end.

Ltac run_m :=
  unfold bind, get, modify, send, ret, raise, lift, try_except; cbn.

Lemma keeps_refl (s : Report) : keeps s s.
Proof. repeat split. Qed.

Lemma keeps_trans (s1 s2 s3 : Report) :
  keeps s1 s2 -> keeps s2 s3 -> keeps s1 s3.
Proof.
  unfold keeps. intros (?&?&?&?&?&?&?) (?&?&?&?&?&?&?).
  repeat split; congruence.
Qed.

(** A computation that leaves the fields of [keeps] alone. *)
Definition framed {A} (m : M Report A) : Prop :=
  forall s, keeps s (post (m s)).

Lemma framed_ret {A} (a : A) : framed (ret a).
Proof. intros s. apply keeps_refl. Qed.

Lemma framed_raise {A} (e : exn) : framed (@raise Report A e).
Proof. intros s. apply keeps_refl. Qed.

Lemma framed_get : framed get.
Proof. intros s. apply keeps_refl. Qed.

Lemma framed_send (r : Request) : framed (send r).
Proof. intros s. apply keeps_refl. Qed.

Lemma framed_lift {A} (r : Res A) : framed (lift r).
Proof. destruct r; intros s; apply keeps_refl. Qed.

Lemma framed_modify (f : Report -> Report) :
  (forall s, keeps s (f s)) -> framed (modify f).
Proof. intros H s. apply H. Qed.

Lemma framed_bind {A B} (m : M Report A) (f : A -> M Report B) :
  framed m -> (forall a, framed (f a)) -> framed (bind m f).
Proof.
  intros Hm Hf s. unfold bind. specialize (Hm s).
  destruct (m s) as [[e|a] s' t]; cbn in *; [assumption|].
  specialize (Hf a s'). destruct (f a s') as [r s'' t']. cbn in *.
  eapply keeps_trans; eassumption.
Qed.

Lemma framed_try_except {A} (m h : M Report A) (handles : exn -> bool) :
  framed m -> framed h -> framed (try_except m handles h).
Proof.
  intros Hm Hh s. unfold try_except. specialize (Hm s).
  destruct (m s) as [[e|a] s' t]; cbn in *; [|assumption].
  destruct (handles e); [|assumption].
  specialize (Hh s'). destruct (h s') as [r s'' t']. cbn in *.
  eapply keeps_trans; eassumption.
Qed.

Ltac framed_step :=
  cbv beta zeta;
  first
    [ assumption
    | apply framed_ret | apply framed_raise | apply framed_get
    | apply framed_send | apply framed_lift
    | apply framed_modify; intros; repeat split; reflexivity
    | apply framed_bind; [|intros ?]
    | apply framed_try_except
    | match goal with
      | |- framed (match ?x with _ => _ end) => destruct x
      end ].

Lemma _get_definition_framed : framed (_get_definition srv lib).
Proof. unfold _get_definition, report_definition. repeat framed_step. Qed.

Lemma ensure_definition_framed : framed (ensure_definition srv lib).
Proof.
  pose proof _get_definition_framed.
  unfold ensure_definition. repeat framed_step.
Qed.

Lemma attributes_framed : framed (attributes srv lib).
Proof.
  pose proof ensure_definition_framed.
  unfold attributes. repeat framed_step.
Qed.

Lemma metrics_framed : framed (metrics srv lib).
Proof.
  pose proof ensure_definition_framed.
  unfold metrics. repeat framed_step.
Qed.

Lemma _filter_framed : framed (_filter srv lib).
Proof.
  pose proof ensure_definition_framed.
  unfold _filter. repeat framed_step.
Qed.

Lemma __initialize_report_framed (limit : Z) :
  framed (__initialize_report srv lib limit).
Proof.
  pose proof _filter_framed.
  unfold __initialize_report, report_instance. repeat framed_step.
Qed.

Lemma first_page_framed : framed (first_page srv lib).
Proof.
  pose proof __initialize_report_framed.
  unfold first_page, __get_chunk, report_instance_id. repeat framed_step.
Qed.

(** The first page is an [ok] answer to a request at offset 0 for
    [_initial_limit] rows, from either endpoint. *)
Definition first_page_of (s : Report) (res : Response) : Prop :=
  ok res = true
  /\ ((exists body,
         res = srv_instance srv (_id s) body 0 (_initial_limit s))
      \/ (exists instance,
            instance_id s = Some instance
            /\ res = srv_instance_id srv (_id s) instance 0
                                     (_initial_limit s))).

Lemma __initialize_report_response (limit : Z) (s : Report) (res : Response)
      (s' : Report) (t : list Request) :
  __initialize_report srv lib limit s = mkOut (Return res) s' t ->
  ok res = true
  /\ exists body, res = srv_instance srv (_id s) body 0 (_initial_limit s).
Proof.
  unfold __initialize_report. unfold bind at 1.
  pose proof (_filter_framed s) as K.
  destruct (_filter srv lib s) as [[e|f] s1 t1]; [discriminate|].
  cbn in K. destruct K as (_ & Hid & _ & _ & Hil & _).
  unfold report_instance. run_m.
  repeat (break_match; run_m); intros H; inversion H; subst;
    rewrite <- ?Hid, <- ?Hil; split; eauto.
Qed.

Lemma first_page_response (s : Report) (res : Response) (s' : Report)
      (t : list Request) :
  first_page srv lib s = mkOut (Return res) s' t -> first_page_of s res.
Proof.
  unfold first_page, first_page_of. unfold bind at 1. cbn [get].
  destruct (instance_id s) as [instance|] eqn:Hi.
  - unfold try_except, __get_chunk, report_instance_id. run_m.
    destruct (ok (srv_instance_id srv (_id s) instance 0 (_initial_limit s)))
      eqn:Hok; cbn.
    + intros H; inversion H; subst. split; [assumption|]. right; eauto.
    + destruct (__initialize_report srv lib (_initial_limit s) s)
        as [r s1 t1] eqn:Hinit.
      intros H; inversion H; subst.
      destruct (__initialize_report_response _ _ _ _ _ Hinit) as [? [b ?]].
      split; [assumption|]. left; eauto.
  - destruct (__initialize_report srv lib (_initial_limit s) s)
      as [r s1 t1] eqn:Hinit.
    rewrite app_nil_l.
    intros H; inversion H; subst.
    destruct (__initialize_report_response _ _ _ _ _ Hinit) as [? [b ?]].
    split; [assumption|]. left; eauto.
Qed.

End Download.

Section Whole.

Context (srv : Server) (lib : Library).

(** [if limit: self._initial_limit = limit] as a function of [self]. *)
Definition with_limit (limit : option Z) (s : Report) : Report :=
  match limit with
  | Some l => if negb (l =? 0) then set_initial_limit l s else s
  | None => s
  end.

(** [to_dataframe] in three steps: the first page, the merged chunks, the
    cross-tab filter. *)
Lemma to_dataframe_eq (limit : option Z) (s : Report) :
  to_dataframe srv lib limit s
  = match first_page srv lib (with_limit limit s) with
    | mkOut (Raise e) s1 t1 => mkOut (Raise e) s1 t1
    | mkOut (Return res) s1 t1 =>
        let s1' := set_instance_id (Some (instanceId res)) s1 in
        match merged srv limit res (Parser_parse (Parser_init res) res)
                     (_id s1) (_initial_limit s1) with
        | Raise e =>
            mkOut (Raise e) s1' (t1 ++ chunk_requests srv limit res s1')
        | Return p =>
            match filtered_dataframe srv lib
                    (set_dataframe (Some (Parser_dataframe p)) s1') with
            | mkOut r s3 t3 =>
                mkOut r s3 (t1 ++ chunk_requests srv limit res s1' ++ t3)
            end
        end
    end.
Proof.
  unfold to_dataframe. unfold bind at 1.
  assert (E : (match limit with
               | Some l =>
                   if negb (l =? 0) then modify (set_initial_limit l)
                   else ret tt
               | None => ret tt
               end) s = mkOut (Return tt) (with_limit limit s) []).
  { unfold with_limit. destruct limit as [l|]; [|reflexivity].
    destruct (negb (l =? 0)); reflexivity. }
  rewrite E. clear E. unfold bind at 1.
  destruct (first_page srv lib (with_limit limit s)) as [[e|res] s1 t1];
    [reflexivity|].
  unfold bind at 1. cbn [modify]. unfold bind at 1.
  rewrite remaining_chunks_eq. cbn [_id _initial_limit set_instance_id].
  destruct (merged srv limit res (Parser_parse (Parser_init res) res)
                   (_id s1) (_initial_limit s1)) as [e|p]; cbv beta iota.
  - reflexivity.
  - unfold bind at 1. unfold modify at 1. cbv beta iota.
    match goal with
    | |- context [filtered_dataframe srv lib ?x] =>
        destruct (filtered_dataframe srv lib x) as [r s3 t3]
    end.
    reflexivity.
Qed.

(** *** The [_parallel] flag is read by the choice of the loop only *)

Definition with_parallel {A} (b : bool) (o : Out Report A) : Out Report A :=
  match o with
  | mkOut r s t => mkOut r (set_parallel b s) t
  end.

(** A computation that neither reads nor writes [_parallel]. *)
Definition blind {A} (m : M Report A) : Prop :=
  forall b s, m (set_parallel b s) = with_parallel b (m s).

Lemma blind_ret {A} (a : A) : blind (ret a).
Proof. intros b s. reflexivity. Qed.

Lemma blind_raise {A} (e : exn) : blind (@raise Report A e).
Proof. intros b s. reflexivity. Qed.

Lemma blind_send (r : Request) : blind (send r).
Proof. intros b s. reflexivity. Qed.

Lemma blind_lift {A} (r : Res A) : blind (lift r).
Proof. destruct r; intros b s; reflexivity. Qed.

Lemma blind_modify (f : Report -> Report) :
  (forall b s, f (set_parallel b s) = set_parallel b (f s)) ->
  blind (modify f).
Proof. intros H b s. unfold modify, with_parallel. now rewrite H. Qed.

Lemma blind_bind {A B} (m : M Report A) (f : A -> M Report B) :
  blind m -> (forall a, blind (f a)) -> blind (bind m f).
Proof.
  intros Hm Hf b s. unfold bind. rewrite Hm.
  destruct (m s) as [[e|a] s' t]; cbn; [reflexivity|].
  rewrite Hf. destruct (f a s') as [r s'' t']. reflexivity.
Qed.

Lemma blind_get_bind {B} (k : Report -> M Report B) :
  (forall self, blind (k self)) ->
  (forall b self, k (set_parallel b self) = k self) ->
  blind (bind get k).
Proof.
  intros Hk Hsame b s. unfold bind, get. rewrite Hsame, Hk.
  destruct (k s s) as [r s'' t']. reflexivity.
Qed.

Lemma blind_try_except {A} (m h : M Report A) (handles : exn -> bool) :
  blind m -> blind h -> blind (try_except m handles h).
Proof.
  intros Hm Hh b s. unfold try_except. rewrite Hm.
  destruct (m s) as [[e|a] s' t]; cbn; [|reflexivity].
  destruct (handles e); [|reflexivity].
  rewrite Hh. destruct (h s') as [r s'' t']. reflexivity.
Qed.

Ltac blind_step :=
  cbv beta zeta;
  first
    [ assumption
    | match goal with
      | H : context [blind] |- _ => apply H
      end
    | apply blind_ret | apply blind_raise
    | apply blind_send | apply blind_lift
    | apply blind_modify; intros; reflexivity
    | apply blind_get_bind; [intros ? | intros; reflexivity]
    | apply blind_bind; [|intros ?]
    | apply blind_try_except
    | match goal with
      | |- blind (match ?x with _ => _ end) => destruct x
      end ].

Lemma _get_definition_blind : blind (_get_definition srv lib).
Proof. unfold _get_definition, report_definition. repeat blind_step. Qed.

Lemma ensure_definition_blind : blind (ensure_definition srv lib).
Proof.
  pose proof _get_definition_blind.
  unfold ensure_definition. repeat blind_step.
Qed.

Lemma attributes_blind : blind (attributes srv lib).
Proof.
  pose proof ensure_definition_blind.
  unfold attributes. repeat blind_step.
Qed.

Lemma metrics_blind : blind (metrics srv lib).
Proof.
  pose proof ensure_definition_blind.
  unfold metrics. repeat blind_step.
Qed.

Lemma _filter_blind : blind (_filter srv lib).
Proof.
  pose proof ensure_definition_blind.
  unfold _filter. repeat blind_step.
Qed.

Lemma __initialize_report_blind (limit : Z) :
  blind (__initialize_report srv lib limit).
Proof.
  pose proof _filter_blind.
  unfold __initialize_report, report_instance. repeat blind_step.
Qed.

Lemma first_page_blind : blind (first_page srv lib).
Proof.
  pose proof __initialize_report_blind.
  unfold first_page, __get_chunk, report_instance_id. repeat blind_step.
Qed.

Lemma the_dataframe_blind : blind the_dataframe.
Proof. unfold the_dataframe. repeat blind_step. Qed.

Lemma or_each_attribute_blind (attr_dict : list (string * list string)) :
  forall indexes, blind (or_each_attribute srv lib attr_dict indexes).
Proof.
  pose proof attributes_blind. pose proof the_dataframe_blind.
  induction attr_dict as [|[attribute elements] d IH]; intros indexes;
    cbn [or_each_attribute]; repeat blind_step.
Qed.

Lemma cross_tab_filtering_blind (ctf : CrossTabFilter) :
  blind (cross_tab_filtering srv lib ctf).
Proof.
  pose proof attributes_blind. pose proof metrics_blind.
  pose proof the_dataframe_blind. pose proof or_each_attribute_blind.
  unfold cross_tab_filtering. repeat blind_step.
Qed.

Lemma filtered_dataframe_blind : blind (filtered_dataframe srv lib).
Proof.
  pose proof cross_tab_filtering_blind. pose proof the_dataframe_blind.
  unfold filtered_dataframe. repeat blind_step.
Qed.

End Whole.

(** ** The chunk plan *)

(** Against C4 as stated: the quotient is that of a float division. With an
    initial limit of 900719925475 rows and a first page of 1024 bytes the
    derived limit is 8796093022216797, one more than the floor. *)
Lemma chunk_limit_is_rounded :
  (0 < 1024)%N
  /\ chunk_limit None 900719925475 1024 = Return 8796093022216797
  /\ Z.max 1000 (900719925475 * 10000000 / Z.of_N 1024) = 8796093022216796
  /\ chunk_limit None 900719925475 1024
     <> Return (Z.max 1000 (900719925475 * 10000000 / Z.of_N 1024)).
Proof.
  split; [reflexivity|]. split; [vm_compute; reflexivity|].
  split; [vm_compute; reflexivity|]. vm_compute. discriminate.
Qed.

(** C4, amended. When no explicit limit is requested ([limit] is [None] or
    [0]), the first page has a positive byte size and
    [initial_limit * 10000000] is below [2 ** 53], the limit derived for the
    remaining chunks is
    [max(1000, floor(initial_limit * 10000000 / rawByteSize))]; with
    [initial_limit = 1000] and [rawByteSize = 2000000] it is [5000]. *)
Theorem derived_chunk_limit (limit : option Z) (initial_limit : Z)
        (content_len : N) :
  truthy limit = false ->
  (0 < content_len)%N ->
  initial_limit * 10000000 < 2 ^ 53 ->
  chunk_limit limit initial_limit content_len
  = Return (Z.max 1000 (initial_limit * 10000000 / Z.of_N content_len))
  /\ chunk_limit limit 1000 2000000 = Return 5000.
Proof.
  intros Hl Hc H53.
  assert (E : forall i c, (0 < c)%N -> i * 10000000 < 2 ^ 53 ->
                chunk_limit limit i c
                = Return (Z.max 1000 (i * 10000000 / Z.of_N c))).
  { intros i c Hpos Hi. unfold chunk_limit, derived_limit, _SIZE_LIMIT.
    assert ((c =? 0)%N = false) as -> by (apply N.eqb_neq; lia).
    rewrite max_1000_truediv by lia.
    destruct limit as [l|]; [|reflexivity].
    cbn in Hl. now rewrite Hl. }
  split; [now apply E|].
  rewrite E by reflexivity. reflexivity.
Qed.

Lemma derived_chunk_limit_example :
  truthy None = false
  /\ (0 < 2000000)%N
  /\ 1000 * 10000000 < 2 ^ 53
  /\ chunk_limit None 1000 2000000 = Return 5000.
Proof.
  split; [reflexivity|]. split; [reflexivity|]. split; [reflexivity|].
  exact (proj2 (derived_chunk_limit None 1000 2000000
                                    eq_refl eq_refl eq_refl)).
Defined.


Section Iterations.

Context (srv : Server).


End Iterations.

(** ** The constructor and [apply_filters] *)

(** C9. [Report(connection, id="")] raises [ValueError] and no request has
    been sent by then, whatever the connection and the other arguments. *)
Theorem init_rejects_empty_id (lib : Library) (connection : Connection)
        (instance : option string) (parallel progress_bar : bool) :
  Report___init__ lib connection EmptyString instance parallel progress_bar tt
  = mkOut (Raise (ValueError "Report ID cannot be an empty string.")) tt [].
Proof. reflexivity. Qed.

(** C10. On a report that is not cross-tab, [apply_filters()] with
    [attributes], [metrics] and [attr_elements] all [None] returns with
    [self] unchanged, so the filter selections and [instance_id] are what they
    were, and sends nothing. *)
Theorem apply_filters_none_is_noop (srv : Server) (lib : Library)
        (operator_ : string) (s : Report) :
  _cross_tab s = false ->
  apply_filters srv lib None None None operator_ s = mkOut (Return tt) s [].
Proof.
  intros H. unfold apply_filters, bind, get. cbn. now rewrite H.
Qed.

(** ** A source that answers every page from one result set *)

(** Rows [offset, offset + limit) of the result set. *)
Definition page (data : list Row) (offset limit : Z) : list Row :=
  firstn (Z.to_nat limit) (skipn (Z.to_nat offset) data).

(** An [ok] response to [(offset, limit)] carries that page of [data], the
    size of [data] as [paging.total] and the size of the page as
    [paging.current]. *)
Definition serves (header : list string) (data : list Row) (r : Response)
           (offset limit : Z) : Prop :=
  ok r = true ->
  grid_header r = header
  /\ grid_rows r = page data offset limit
  /\ paging_total r = Z.of_nat (List.length data)
  /\ paging_current r = Z.of_nat (List.length (grid_rows r)).

Definition faithful (srv : Server) (header : list string) (data : list Row)
  : Prop :=
  (forall id body offset limit,
      serves header data (srv_instance srv id body offset limit) offset limit)
  /\ (forall id instance offset limit,
         serves header data (srv_instance_id srv id instance offset limit)
                offset limit).

Section Tiling.

Context {A : Type}.

(** Consecutive windows of [width] elements cover a list once. *)
Lemma windows_cover (width : nat) :
  (0 < width)%nat ->
  forall (count : nat) (d : list A),
    (List.length d <= count * width)%nat ->
    List.concat
      (map (fun k => firstn width (skipn (k * width) d)) (seq 0 count))
    = d.
Proof.
  intros Hw. induction count as [|count IH]; intros d Hd.
  - destruct d; [reflexivity | cbn in Hd; lia].
  - cbn [seq map List.concat]. rewrite <- seq_shift, map_map.
    cbn [Nat.mul skipn].
    transitivity (firstn width d ++ skipn width d);
      [|apply firstn_skipn].
    f_equal.
    transitivity
      (List.concat
         (map (fun k => firstn width (skipn (k * width) (skipn width d)))
              (seq 0 count))).
    + f_equal. apply map_ext. intros k.
      rewrite skipn_skipn. do 2 f_equal. lia.
    + apply IH. rewrite length_skipn. cbn in Hd. lia.
Qed.

End Tiling.

(** The first page followed by the pages at the offsets of the plan is the
    result set. *)
Lemma pages_cover (data : list Row) (initial_limit limit : Z) :
  0 < initial_limit -> 0 < limit ->
  page data 0 initial_limit
  ++ List.concat
       (map (fun o => page data o limit)
            (Py.range_elems initial_limit (Z.of_nat (List.length data)) limit))
  = data.
Proof.
  intros Hi Hl. unfold page, Py.range_elems. cbn [Z.to_nat skipn].
  rewrite map_map.
  transitivity (firstn (Z.to_nat initial_limit) data
                ++ skipn (Z.to_nat initial_limit) data);
    [|apply firstn_skipn].
  f_equal.
  set (n := Z.of_nat (List.length data)).
  set (count := Z.to_nat (Py.range_len initial_limit n limit)).
  transitivity
    (List.concat
       (map (fun k => firstn (Z.to_nat limit)
                             (skipn (k * Z.to_nat limit)
                                    (skipn (Z.to_nat initial_limit) data)))
            (seq 0 count))).
  - f_equal. apply map_ext. intros k. rewrite skipn_skipn. do 2 f_equal. nia.
  - apply windows_cover; [lia|]. rewrite length_skipn. subst count.
    destruct (Z_lt_le_dec initial_limit n) as [Hlt | Hle].
    + pose proof (range_len_bounds initial_limit n limit Hl Hlt). nia.
    + lia.
Qed.

Section Materialization.

Context (srv : Server) (lib : Library).

Lemma filtered_dataframe_none (s : Report) (df : DataFrame) :
  _cross_tab_filter s = None ->
  _dataframe s = Some df ->
  filtered_dataframe srv lib s = mkOut (Return df) s [].
Proof.
  intros Hf Hd. unfold filtered_dataframe, the_dataframe, bind, get, ret.
  cbn. rewrite Hf. cbn. now rewrite Hd.
Qed.

Lemma with_limit_keeps (limit : option Z) (s : Report) :
  _connection (with_limit limit s) = _connection s
  /\ _id (with_limit limit s) = _id s
  /\ instance_id (with_limit limit s) = instance_id s
  /\ _parallel (with_limit limit s) = _parallel s
  /\ _cross_tab_filter (with_limit limit s) = _cross_tab_filter s
  /\ _dataframe (with_limit limit s) = _dataframe s.
Proof.
  unfold with_limit. destruct limit as [l|]; [destruct (negb (l =? 0))|];
    repeat split.
Qed.

Lemma with_limit_positive (limit : option Z) (s : Report) :
  0 < _initial_limit s ->
  (forall l, limit = Some l -> 0 <= l) ->
  0 < _initial_limit (with_limit limit s).
Proof.
  intros Hs Hl. unfold with_limit. destruct limit as [l|]; [|assumption].
  destruct (Z.eqb_spec l 0); cbn; [assumption|].
  specialize (Hl l eq_refl). lia.
Qed.

Lemma chunk_limit_positive (limit : option Z) (initial_limit : Z)
      (content_len : N) (l : Z) :
  (forall l', limit = Some l' -> 0 <= l') ->
  chunk_limit limit initial_limit content_len = Return l -> 0 < l.
Proof.
  intros Hl. unfold chunk_limit, derived_limit.
  destruct limit as [z|].
  - specialize (Hl z eq_refl). destruct (Z.eqb_spec z 0); cbn.
    + destruct (content_len =? 0)%N; intros H; inversion H; lia.
    + intros H; inversion H; lia.
  - destruct (content_len =? 0)%N; intros H; inversion H; lia.
Qed.

Lemma first_page_served (header : list string) (data : list Row)
      (s : Report) (res : Response) :
  faithful srv header data ->
  first_page_of srv s res ->
  serves header data res 0 (_initial_limit s).
Proof.
  intros [Hpost Hget] [_ [[body ->] | [instance [_ ->]]]];
    [apply Hpost | apply Hget].
Qed.

Lemma page_all (data : list Row) (limit : Z) :
  List.length (page data 0 limit) = List.length data ->
  page data 0 limit = data.
Proof.
  unfold page. cbn [Z.to_nat skipn]. rewrite length_firstn. intros H.
  apply firstn_all2. lia.
Qed.

(** With a faithful source and a positive plan, the merged chunks complete
    the first page to the whole result set. *)
Lemma merged_is_result_set (header : list string) (data : list Row)
      (limit : option Z) (res : Response) (report_id : string)
      (initial_limit : Z) (p : Parser) :
  faithful srv header data ->
  0 < initial_limit ->
  (forall l, limit = Some l -> 0 <= l) ->
  ok res = true ->
  serves header data res 0 initial_limit ->
  merged srv limit res (Parser_parse (Parser_init res) res) report_id
         initial_limit = Return p ->
  parser_columns p = header /\ parser_rows p = data.
Proof.
  intros [_ Hget] Hi Hl Hok Hres. destruct (Hres Hok) as (Hh & Hr & Ht & Hc).
  unfold merged. destruct (Z.eqb_spec (paging_current res) (paging_total res))
    as [Heq | Hne]; cbn [negb].
  - intros H; inversion H; subst p. cbn. split; [assumption|].
    rewrite Hr. apply page_all. rewrite <- Hr. lia.
  - destruct (chunk_limit limit initial_limit (content_len res)) as [e|l]
      eqn:Hcl; [discriminate|].
    pose proof (chunk_limit_positive _ _ _ _ Hl Hcl) as Hpos.
    intros Hm. pose proof (merge_returns _ _ _ Hm) as Hall.
    rewrite (merge_all_ok _ Hall) in Hm. inversion Hm; subst p. cbn.
    split; [assumption|].
    rewrite Forall_map, Forall_forall in Hall.
    rewrite Hr, map_map.
    transitivity
      (page data 0 initial_limit
       ++ List.concat
            (map (fun o => page data o l)
                 (Py.range_elems initial_limit (paging_total res) l)));
      [|rewrite Ht; now apply pages_cover].
    do 2 f_equal. apply map_ext_in. intros o Ho.
    now destruct (Hget report_id (instanceId res) o l (Hall o Ho))
      as (_ & -> & _).
Qed.

(** C1, amended. With a source that answers every page from one result
    set, a positive initial limit, a requested limit that is not negative and
    no cross-tab filter stored on the report, a [to_dataframe] that returns
    has returned the result set: as many rows as [paging.total] says, row [i]
    the row at source offset [i], none twice and none left out, and the
    columns of the first page. [_parallel] is arbitrary, so this holds for
    either loop. *)
Theorem to_dataframe_is_result_set (header : list string) (data : list Row)
        (limit : option Z) (s : Report) (df : DataFrame) :
  faithful srv header data ->
  0 < _initial_limit s ->
  (forall l, limit = Some l -> 0 <= l) ->
  _cross_tab_filter s = None ->
  returned (to_dataframe srv lib limit s) = Some df ->
  rows df = data
  /\ List.length (rows df) = List.length data
  /\ (forall i, nth_error (rows df) i = nth_error data i)
  /\ columns df = header.
Proof.
  intros Hsrv Hi Hl Hf. unfold returned. rewrite to_dataframe_eq.
  pose proof (with_limit_positive limit s Hi Hl) as Hi0.
  destruct (with_limit_keeps limit s) as (_ & _ & _ & _ & Hf0 & _).
  rewrite Hf in Hf0.
  pose proof (first_page_framed srv lib (with_limit limit s)) as K.
  destruct (first_page srv lib (with_limit limit s)) as [[e|res] s1 t1]
    eqn:H1; cbv beta iota zeta; [discriminate|].
  cbn in K. destruct K as (_ & _ & _ & _ & Hil & Hctf & _).
  pose proof (first_page_response srv lib _ _ _ _ H1) as Hres.
  pose proof (first_page_served _ _ _ _ Hsrv Hres) as Hserved.
  destruct Hres as [Hok _].
  destruct (merged srv limit res (Parser_parse (Parser_init res) res)
                   (_id s1) (_initial_limit s1)) as [e|p] eqn:Hm;
    cbv beta iota zeta; [discriminate|].
  rewrite Hil in Hm.
  destruct (merged_is_result_set header data limit res (_id s1) _ p
                                 Hsrv Hi0 Hl Hok Hserved Hm) as [Hc Hr].
  rewrite (filtered_dataframe_none _ (Parser_dataframe p));
    [| cbn; congruence | reflexivity].
  cbn. intros H; inversion H; subst df. cbn.
  rewrite Hr, Hc. auto.
Qed.

End Materialization.

(** ** Worked examples *)

(** Library code with the simplest behaviour that fits its role. *)
Definition demo_lib : Library :=
  mkLibrary
    (fun _ _ => true)
    true
    (fun _ => ret tt)
    (ret tt)
    (fun _ _ _ => mkFilter [] [] [] "In")
    (fun _ _ _ f => mkFilter [] [] [] (operator f))
    (fun ids f => Return (mkFilter (attr_selected f ++ ids) (metr_selected f)
                                   (attr_elem_selected f) (operator f)))
    (fun ids f => Return (mkFilter (attr_selected f) (metr_selected f)
                                   (attr_elem_selected f ++ ids) (operator f)))
    (fun _ => "{}"%string).

Definition demo_connection : Connection :=
  mkConnection "11.3.0100" (Some "B7CA92F04B9FAE8D941C3E9B7E0CD754"%string).

Definition demo_header : list string := ["Region"; "Revenue"]%string.

Definition demo_data : list Row :=
  [ ["East"; "10"]; ["West"; "20"]; ["North"; "30"]; ["South"; "40"];
    ["Centre"; "50"] ]%string.

Definition region_id : string := "0123456789ABCDEF0123456789ABCDEF".

Definition demo_definition (cross_tab : bool) : DefinitionJson :=
  mkDefinitionJson true "Sales" cross_tab [("visible"%string, true)]
                   [mkGridUnit "attribute" "Region" region_id []]
                   [mkGridUnit "templateMetrics" "Metrics" "00000000000000000000000000000000"
                               [mkObj "Revenue" "FEDCBA9876543210FEDCBA9876543210"]]
                   (Some ("columns"%string, O)) [] [].

(** An answer with the page of [data] at [(offset, limit)]. *)
Definition respond (ok_ : bool) (data : list Row) (offset limit : Z)
  : Response :=
  mkResponse ok_ 2000 "4E3A" (Z.of_nat (List.length data))
             (Z.of_nat (List.length (page data offset limit)))
             demo_header (page data offset limit).

(** A server holding [data] for every report. *)
Definition serving (cross_tab : bool) (data : list Row) : Server :=
  mkServer (fun _ => demo_definition cross_tab)
           (fun _ _ offset limit => respond true data offset limit)
           (fun _ _ offset limit => respond true data offset limit).

Definition demo_report : Report :=
  _init_variables demo_lib demo_connection "9DD6D8E411E8A3C5D9B10080EF15E4B2"
                  None true true.

Lemma serving_faithful (cross_tab : bool) (data : list Row) :
  faithful (serving cross_tab data) demo_header data.
Proof. split; intros; intros _; repeat split. Qed.

Example demo_parallel :
  to_dataframe (serving false demo_data) demo_lib (Some 2) demo_report
  = mkOut (Return (mkDataFrame demo_header demo_data))
          (post (to_dataframe (serving false demo_data) demo_lib (Some 2)
                              demo_report))
          [ ReportDefinition (_id demo_report);
            ReportInstance (_id demo_report) (mkBody "{}" (Some false)) 0 2;
            ReportInstanceIdAsync (_id demo_report) "4E3A" 2 2;
            ReportInstanceIdAsync (_id demo_report) "4E3A" 4 2 ].
Proof. vm_compute. reflexivity. Qed.

Example demo_sequential :
  to_dataframe (serving false demo_data) demo_lib (Some 2)
               (set_parallel false demo_report)
  = mkOut (Return (mkDataFrame demo_header demo_data))
          (post (to_dataframe (serving false demo_data) demo_lib (Some 2)
                              (set_parallel false demo_report)))
          [ ReportDefinition (_id demo_report);
            ReportInstance (_id demo_report) (mkBody "{}" (Some false)) 0 2;
            ReportInstanceId (_id demo_report) "4E3A" 2 2;
            ReportInstanceId (_id demo_report) "4E3A" 4 2 ].
Proof. vm_compute. reflexivity. Qed.

Lemma to_dataframe_is_result_set_example :
  rows (mkDataFrame demo_header demo_data) = demo_data
  /\ columns (mkDataFrame demo_header demo_data) = demo_header.
Proof.
  assert (H : returned (to_dataframe (serving false demo_data) demo_lib
                                     (Some 2) demo_report)
              = Some (mkDataFrame demo_header demo_data))
    by (vm_compute; reflexivity).
  destruct (to_dataframe_is_result_set
              (serving false demo_data) demo_lib demo_header demo_data
              (Some 2) demo_report (mkDataFrame demo_header demo_data)
              (serving_faithful false demo_data)
              ltac:(cbn; lia)
              ltac:(intros l E; inversion E; lia)
              eq_refl H) as (Hr & _ & _ & Hc).
  split; assumption.
Defined.

(** The report after [report.attributes] has been read and
    [apply_filters(attr_elements=[element])] has been called. *)
Definition after_apply_filters (srv : Server) (element : string) : Report :=
  post ((attributes srv demo_lib ;;;
         apply_filters srv demo_lib None None (Some [element]) "In")
          demo_report).

(** Against C1 as stated: on a cross-tab report the element filter is
    applied to the downloaded table; two rows at the source, one row
    returned. *)
Lemma cross_tab_filter_drops_rows :
  let srv := serving true (firstn 2 demo_data) in
  let s := after_apply_filters srv (region_id ++ ":East") in
  faithful srv demo_header (firstn 2 demo_data)
  /\ 0 < _initial_limit s
  /\ exists df,
      returned (to_dataframe srv demo_lib None s) = Some df
      /\ rows df = [["East"; "10"]%string]
      /\ List.length (rows df) <> List.length (firstn 2 demo_data).
Proof.
  cbv zeta. split; [apply serving_faithful|].
  split; [cbn; lia|].
  exists (mkDataFrame demo_header [["East"; "10"]%string]).
  split; [vm_compute; reflexivity|]. split; [reflexivity|].
  cbn. lia.
Qed.

(** ** The requests of the cross-tab stage *)

Definition is_definition_request (rq : Request) : bool :=
  match rq with
  | ReportDefinition _ => true
  | _ => false
  end.

(** A computation whose only requests are for the report definition. *)
Definition asks_definition_only {A} (m : M Report A) : Prop :=
  forall s, Forall (fun rq => is_definition_request rq = true) (sent (m s)).

Lemma asks_ret {A} (a : A) : asks_definition_only (ret a).
Proof. intros s. constructor. Qed.

Lemma asks_raise {A} (e : exn) : asks_definition_only (@raise Report A e).
Proof. intros s. constructor. Qed.

Lemma asks_get : asks_definition_only get.
Proof. intros s. constructor. Qed.

Lemma asks_lift {A} (r : Res A) : asks_definition_only (lift r).
Proof. destruct r; intros s; constructor. Qed.

Lemma asks_modify (f : Report -> Report) : asks_definition_only (modify f).
Proof. intros s. constructor. Qed.

Lemma asks_send (report_id : string) :
  asks_definition_only (send (ReportDefinition report_id)).
Proof. intros s. repeat constructor. Qed.

Lemma asks_bind {A B} (m : M Report A) (f : A -> M Report B) :
  asks_definition_only m -> (forall a, asks_definition_only (f a)) ->
  asks_definition_only (bind m f).
Proof.
  intros Hm Hf s. unfold bind. specialize (Hm s).
  destruct (m s) as [[e|a] s' t]; cbn in *; [assumption|].
  specialize (Hf a s'). destruct (f a s') as [r s'' t']. cbn in *.
  apply Forall_app. now split.
Qed.

Ltac asks_step :=
  cbv beta zeta;
  first
    [ assumption
    | match goal with
      | H : context [asks_definition_only] |- _ => apply H
      end
    | apply asks_ret | apply asks_raise | apply asks_get
    | apply asks_send | apply asks_lift | apply asks_modify
    | apply asks_bind; [|intros ?]
    | match goal with
      | |- asks_definition_only (match ?x with _ => _ end) => destruct x
      | |- asks_definition_only (let '(_, _) := ?x in _) => destruct x
      end ].

Section CrossTabRequests.

Context (srv : Server) (lib : Library).

Lemma _get_definition_asks : asks_definition_only (_get_definition srv lib).
Proof. unfold _get_definition, report_definition. repeat asks_step. Qed.

Lemma ensure_definition_asks :
  asks_definition_only (ensure_definition srv lib).
Proof.
  pose proof _get_definition_asks.
  unfold ensure_definition. repeat asks_step.
Qed.

Lemma attributes_asks : asks_definition_only (attributes srv lib).
Proof.
  pose proof ensure_definition_asks.
  unfold attributes. repeat asks_step.
Qed.

Lemma metrics_asks : asks_definition_only (metrics srv lib).
Proof.
  pose proof ensure_definition_asks.
  unfold metrics. repeat asks_step.
Qed.

Lemma the_dataframe_asks : asks_definition_only the_dataframe.
Proof. unfold the_dataframe. repeat asks_step. Qed.

Lemma or_each_attribute_asks (attr_dict : list (string * list string)) :
  forall indexes,
    asks_definition_only (or_each_attribute srv lib attr_dict indexes).
Proof.
  pose proof attributes_asks. pose proof the_dataframe_asks.
  induction attr_dict as [|[attribute elements] attr_dict IH];
    intros indexes; cbn [or_each_attribute]; repeat asks_step.
Qed.

Lemma cross_tab_filtering_asks (ctf : CrossTabFilter) :
  asks_definition_only (cross_tab_filtering srv lib ctf).
Proof.
  pose proof attributes_asks. pose proof metrics_asks.
  pose proof the_dataframe_asks. pose proof or_each_attribute_asks.
  unfold cross_tab_filtering. repeat asks_step.
Qed.

(** The cross-tab stage of [to_dataframe] requests nothing but the report
    definition: no page of the instance. *)
Lemma filtered_dataframe_asks :
  asks_definition_only (filtered_dataframe srv lib).
Proof.
  pose proof cross_tab_filtering_asks. pose proof the_dataframe_asks.
  unfold filtered_dataframe. repeat asks_step.
Qed.

End CrossTabRequests.

(** ** One page, a failing chunk, a malformed first page *)

Section Outcomes.

Context (srv : Server) (lib : Library).

Lemma merged_single_page (limit : option Z) (res : Response) (p : Parser)
      (report_id : string) (initial_limit : Z) :
  paging_current res = paging_total res ->
  merged srv limit res p report_id initial_limit = Return p.
Proof.
  intros H. unfold merged. now rewrite H, Z.eqb_refl.
Qed.

Lemma chunk_requests_single_page (limit : option Z) (res : Response)
      (s : Report) :
  paging_current res = paging_total res ->
  chunk_requests srv limit res s = [].
Proof.
  intros H. unfold chunk_requests. now rewrite H, Z.eqb_refl.
Qed.

(** C7, amended. When [paging.total] of the first page equals the number of
    rows it holds ([paging.current]), [to_dataframe] sends no chunk request:
    after the requests that obtained the first page come only those of the
    cross-tab stage, and these ask for the report definition, never for a
    page of the instance. When the report stores no cross-tab filter it
    returns at once, and the table is exactly the first page. *)
Theorem single_page_short_circuit (limit : option Z) (s : Report)
        (res : Response) (s1 : Report) (t1 : list Request) :
  first_page srv lib (with_limit limit s) = mkOut (Return res) s1 t1 ->
  paging_current res = Z.of_nat (List.length (grid_rows res)) ->
  paging_total res = Z.of_nat (List.length (grid_rows res)) ->
  let table := mkDataFrame (grid_header res) (grid_rows res) in
  let s2 := set_dataframe (Some table)
                          (set_instance_id (Some (instanceId res)) s1) in
  sent (to_dataframe srv lib limit s)
  = t1 ++ sent (filtered_dataframe srv lib s2)
  /\ Forall (fun rq => is_definition_request rq = true)
            (sent (filtered_dataframe srv lib s2))
  /\ (_cross_tab_filter s = None ->
      to_dataframe srv lib limit s = mkOut (Return table) s2 t1).
Proof.
  intros H1 Hc Ht table s2. rewrite to_dataframe_eq, H1. cbv beta iota zeta.
  assert (Heq : paging_current res = paging_total res) by congruence.
  rewrite merged_single_page, chunk_requests_single_page by assumption.
  change (set_dataframe _ _) with s2.
  split; [|split].
  - destruct (filtered_dataframe srv lib s2) as [r s3 t3]. reflexivity.
  - apply filtered_dataframe_asks.
  - intros Hf.
    pose proof (first_page_framed srv lib (with_limit limit s)) as K.
    rewrite H1 in K. cbn in K. destruct K as (_ & _ & _ & _ & _ & Hctf & _).
    destruct (with_limit_keeps limit s) as (_ & _ & _ & _ & Hf0 & _).
    rewrite (filtered_dataframe_none srv lib s2 table);
      [| cbn; congruence | reflexivity].
    now rewrite app_nil_r.
Qed.

(** C5. After a first page that announces further rows, let the chunk at
    offset [o] be the first whose response is not [ok]. Then [to_dataframe]
    raises the [HTTPError] of that response, returns no table and leaves
    [_dataframe] as it was. In the sequential loop the requests stop at [o];
    in the parallel loop every chunk had been submitted before the first
    result was read. *)
Theorem failed_chunk_aborts (limit : option Z) (s : Report) (res : Response)
        (s1 : Report) (t1 : list Request) (l : Z)
        (before : list Z) (o : Z) (after : list Z) :
  first_page srv lib (with_limit limit s) = mkOut (Return res) s1 t1 ->
  paging_current res <> paging_total res ->
  chunk_limit limit (_initial_limit s1) (content_len res) = Return l ->
  Py.range_elems (_initial_limit s1) (paging_total res) l
  = before ++ o :: after ->
  let fetch x := srv_instance_id srv (_id s1) (instanceId res) x l in
  Forall (fun x => ok (fetch x) = true) before ->
  ok (fetch o) = false ->
  let out := to_dataframe srv lib limit s in
  outcome out = Raise (HTTPError (fetch o))
  /\ returned out = None
  /\ _dataframe (post out) = _dataframe s
  /\ sent out
     = t1 ++
       if (_parallel s1
           && (1 <? it_total (paging_total res) (_initial_limit s1) l))%bool
       then map (fun x => ReportInstanceIdAsync (_id s1) (instanceId res) x l)
                (before ++ o :: after)
       else map (fun x => ReportInstanceId (_id s1) (instanceId res) x l)
                (before ++ [o]).
Proof.
  intros H1 Hne Hl Hr fetch Hb Ho out. subst out.
  unfold returned. rewrite to_dataframe_eq, H1. cbv beta iota zeta.
  assert (Hm : merged srv limit res (Parser_parse (Parser_init res) res)
                      (_id s1) (_initial_limit s1)
               = Raise (HTTPError (fetch o))).
  { unfold merged. apply Z.eqb_neq in Hne. rewrite Hne, Hl, Hr. cbn [negb].
    rewrite map_app. cbn [map]. apply merge_first_failure; [|assumption].
    now rewrite Forall_map. }
  rewrite Hm. cbn [outcome post sent].
  split; [reflexivity|]. split; [reflexivity|]. split.
  - pose proof (first_page_framed srv lib (with_limit limit s)) as K.
    rewrite H1 in K. cbn in K. destruct K as (_ & _ & _ & _ & _ & _ & Hd).
    destruct (with_limit_keeps limit s) as (_ & _ & _ & _ & _ & Hd0).
    cbn. congruence.
  - f_equal. unfold chunk_requests. apply Z.eqb_neq in Hne.
    rewrite Hne. cbn [negb _initial_limit _id _parallel set_instance_id].
    rewrite Hl, Hr. fold fetch.
    now rewrite (attempted_first_failure fetch before o after Hb Ho).
Qed.


End Outcomes.

(** ** Totals reported by later pages *)

(** The server that answers as [srv] does, except that an [ok] response to
    a request at an offset other than 0 reports [f r] as [paging.total]. *)
Definition retotal (f : Response -> Z) (srv : Server) : Server :=
  mkServer
    (srv_definition srv)
    (srv_instance srv)
    (fun id instance offset limit =>
       let r := srv_instance_id srv id instance offset limit in
       if ((offset =? 0) || negb (ok r))%bool then r
       else mkResponse (ok r) (content_bytes r) (instanceId r) (f r)
                       (paging_current r) (grid_header r) (grid_rows r)).

Section LaterTotals.

Context (f : Response -> Z) (srv : Server) (lib : Library).

Lemma retotal_ok (id instance : string) (offset limit : Z) :
  ok (srv_instance_id (retotal f srv) id instance offset limit)
  = ok (srv_instance_id srv id instance offset limit).
Proof.
  cbn. destruct (offset =? 0); cbn; [reflexivity|].
  destruct (ok (srv_instance_id srv id instance offset limit)) eqn:E;
    cbn; [reflexivity | assumption].
Qed.

Lemma retotal_merge (id instance : string) (limit : Z) (offsets : list Z) :
  forall p,
    merge (map (fun o => srv_instance_id (retotal f srv) id instance o limit)
               offsets) p
    = merge (map (fun o => srv_instance_id srv id instance o limit) offsets) p.
Proof.
  induction offsets as [|o os IH]; intros p; [reflexivity|].
  cbn [map merge]. rewrite retotal_ok.
  destruct (ok (srv_instance_id srv id instance o limit)) eqn:Hok.
  - rewrite <- IH. f_equal. cbn. rewrite Hok.
    now destruct (o =? 0).
  - cbn. rewrite Hok. now rewrite orb_true_r.
Qed.

Lemma retotal_attempted (id instance : string) (limit : Z)
      (offsets : list Z) :
  attempted (fun o => srv_instance_id (retotal f srv) id instance o limit)
            offsets
  = attempted (fun o => srv_instance_id srv id instance o limit) offsets.
Proof.
  induction offsets as [|o os IH]; [reflexivity|].
  cbn [attempted]. now rewrite retotal_ok, IH.
Qed.

Lemma retotal_merged (limit : option Z) (res : Response) (p : Parser)
      (report_id : string) (initial_limit : Z) :
  merged (retotal f srv) limit res p report_id initial_limit
  = merged srv limit res p report_id initial_limit.
Proof.
  unfold merged. destruct (negb _); [|reflexivity].
  destruct (chunk_limit _ _ _); [reflexivity|]. apply retotal_merge.
Qed.

Lemma retotal_chunk_requests (limit : option Z) (res : Response)
      (s : Report) :
  chunk_requests (retotal f srv) limit res s = chunk_requests srv limit res s.
Proof.
  unfold chunk_requests. destruct (negb _); [|reflexivity].
  destruct (chunk_limit _ _ _); [reflexivity|].
  cbv zeta. now rewrite retotal_attempted.
Qed.

Lemma retotal_first_page :
  first_page (retotal f srv) lib = first_page srv lib.
Proof. reflexivity. Qed.

Lemma retotal_filtered_dataframe :
  filtered_dataframe (retotal f srv) lib = filtered_dataframe srv lib.
Proof. reflexivity. Qed.

(** C3, amended. [to_dataframe] never looks at the [paging.total] of a
    page after the first: whatever totals the later pages report, it sends
    the same requests, ends in the same state and returns the same table or
    raises the same error, planned from the first page's total alone. *)
Theorem later_totals_are_ignored (limit : option Z) (s : Report) :
  to_dataframe (retotal f srv) lib limit s = to_dataframe srv lib limit s.
Proof.
  rewrite !to_dataframe_eq, retotal_first_page.
  destruct (first_page srv lib (with_limit limit s)) as [[e|res] s1 t1];
    [reflexivity|].
  cbv zeta. rewrite retotal_merged, retotal_chunk_requests.
  now rewrite retotal_filtered_dataframe.
Qed.

End LaterTotals.

(** ** The two loops *)

Section TwoLoops.

Context (srv : Server) (lib : Library).

Lemma with_limit_parallel (limit : option Z) (b : bool) (s : Report) :
  with_limit limit (set_parallel b s) = set_parallel b (with_limit limit s).
Proof.
  unfold with_limit. destruct limit as [l|]; [|reflexivity].
  now destruct (negb (l =? 0)).
Qed.

Lemma to_dataframe_parallel (limit : option Z) (b : bool) (s : Report) :
  outcome (to_dataframe srv lib limit (set_parallel b s))
  = outcome (to_dataframe srv lib limit s)
  /\ post (to_dataframe srv lib limit (set_parallel b s))
     = set_parallel b (post (to_dataframe srv lib limit s)).
Proof.
  rewrite !to_dataframe_eq, with_limit_parallel, first_page_blind.
  destruct (first_page srv lib (with_limit limit s)) as [[e|res] s1 t1];
    cbv beta iota zeta delta [with_parallel]; [split; reflexivity|].
  cbn [_id _initial_limit set_parallel].
  destruct (merged srv limit res (Parser_parse (Parser_init res) res)
                   (_id s1) (_initial_limit s1)) as [e|p];
    [split; reflexivity|].
  change (set_dataframe (Some (Parser_dataframe p))
            (set_instance_id (Some (instanceId res)) (set_parallel b s1)))
    with (set_parallel b
            (set_dataframe (Some (Parser_dataframe p))
               (set_instance_id (Some (instanceId res)) s1))).
  rewrite filtered_dataframe_blind.
  match goal with
  | |- context [filtered_dataframe srv lib ?x] =>
      destruct (filtered_dataframe srv lib x) as [r s3 t3]
  end.
  split; reflexivity.
Qed.

(** C2. For every report, requested limit and server, [to_dataframe] with
    [_parallel = True] and with [_parallel = False] return the same table (or
    both return none); and for every plan the sequential loop
    [__fetch_chunks] and the parallel loop hand the same rows to the
    parser. *)
Theorem sequential_parallel_same_table (limit : option Z) (s : Report) :
  returned (to_dataframe srv lib limit (set_parallel true s))
  = returned (to_dataframe srv lib limit (set_parallel false s))
  /\ forall (p : Parser) (total it : Z) (instance : string) (l : Z),
      outcome (__fetch_chunks srv p total it instance l s)
      = outcome (fetch_parallel srv total instance l p s).
Proof.
  split.
  - unfold returned.
    destruct (to_dataframe_parallel limit true s) as [-> _].
    destruct (to_dataframe_parallel limit false s) as [-> _].
    reflexivity.
  - intros p total it instance l. destruct (Z.eq_dec l 0) as [-> | Hl].
    + reflexivity.
    + now rewrite fetch_chunks_eq, fetch_parallel_eq.
Qed.

End TwoLoops.

(** ** Further worked examples *)

(** A server whose chunk at offset [bad] fails. *)
Definition failing_at (bad : Z) (data : list Row) : Server :=
  mkServer (fun _ => demo_definition false)
           (fun _ _ offset limit => respond true data offset limit)
           (fun _ _ offset limit =>
              respond (negb (offset =? bad)) data offset limit).

(** A server that announces [total] rows on the first page and
    [later_total] on every other page of [data]. *)
Definition announcing (total later_total : Z) (content : positive)
           (data : list Row) : Server :=
  let answer offset limit :=
    mkResponse true content "4E3A"
               (if offset =? 0 then total else later_total)
               (Z.of_nat (List.length (page data offset limit)))
               demo_header (page data offset limit) in
  mkServer (fun _ => demo_definition false)
           (fun _ _ offset limit => answer offset limit)
           (fun _ _ offset limit => answer offset limit).

Definition hundred_rows : list Row :=
  map (fun k => [String (ascii_of_nat (65 + k / 10))
                        (String (ascii_of_nat (48 + k mod 10)) EmptyString);
                 "1"%string])
      (seq 0 100).

(** Against C3 as stated: a source that reports 100 rows on the first page
    and 150 on the second is downloaded without any error, as 100 rows. *)
Lemma inconsistent_total_is_accepted :
  let srv := announcing 100 150 2000 hundred_rows in
  paging_total (srv_instance srv (_id demo_report) (mkBody "{}" (Some false))
                             0 60) = 100
  /\ paging_total (srv_instance_id srv (_id demo_report) "4E3A" 60 60) = 150
  /\ returned (to_dataframe srv demo_lib (Some 60) demo_report)
     = Some (mkDataFrame demo_header hundred_rows)
  /\ sent (to_dataframe srv demo_lib (Some 60) demo_report)
     = [ ReportDefinition (_id demo_report);
         ReportInstance (_id demo_report) (mkBody "{}" (Some false)) 0 60;
         ReportInstanceId (_id demo_report) "4E3A" 60 60 ].
Proof. cbv zeta. repeat split; vm_compute; reflexivity. Qed.


Lemma single_page_short_circuit_example :
  let srv := serving false demo_data in
  to_dataframe srv demo_lib None demo_report
  = mkOut (Return (mkDataFrame demo_header demo_data))
          (post (to_dataframe srv demo_lib None demo_report))
          [ ReportDefinition (_id demo_report);
            ReportInstance (_id demo_report) (mkBody "{}" (Some false))
                           0 1000 ].
Proof.
  cbv zeta.
  set (srv := serving false demo_data).
  set (o1 := first_page srv demo_lib (with_limit None demo_report)).
  destruct (single_page_short_circuit
              srv demo_lib None demo_report
              (respond true demo_data 0 1000) (post o1) (sent o1)
              ltac:(vm_compute; reflexivity)
              ltac:(vm_compute; reflexivity)
              ltac:(vm_compute; reflexivity)) as (_ & _ & H).
  rewrite (H eq_refl). vm_compute. reflexivity.
Defined.

(** Against C7 as stated: on a cross-tab report with an element filter the
    first page holds all the rows, and the returned table does not begin with
    them. *)
Lemma cross_tab_filter_replaces_first_page :
  let srv := serving true (firstn 2 demo_data) in
  let s := after_apply_filters srv (region_id ++ ":West") in
  exists res s1 t1 df,
    first_page srv demo_lib (with_limit None s) = mkOut (Return res) s1 t1
    /\ paging_total res = Z.of_nat (List.length (grid_rows res))
    /\ grid_rows res = [["East"; "10"]; ["West"; "20"]]%string
    /\ returned (to_dataframe srv demo_lib None s) = Some df
    /\ rows df = [["West"; "20"]%string]
    /\ firstn (List.length (grid_rows res)) (rows df) <> grid_rows res.
Proof.
  cbv zeta.
  set (srv := serving true (firstn 2 demo_data)).
  set (s := after_apply_filters srv (region_id ++ ":West")).
  exists (respond true (firstn 2 demo_data) 0 1000).
  exists (post (first_page srv demo_lib (with_limit None s))).
  exists (sent (first_page srv demo_lib (with_limit None s))).
  exists (mkDataFrame demo_header [["West"; "20"]%string]).
  split; [vm_compute; reflexivity|].
  split; [vm_compute; reflexivity|].
  split; [vm_compute; reflexivity|].
  split; [vm_compute; reflexivity|].
  split; [reflexivity|].
  vm_compute. discriminate.
Qed.

Lemma failed_chunk_aborts_example :
  let srv := failing_at 3 demo_data in
  let s := set_parallel false demo_report in
  outcome (to_dataframe srv demo_lib (Some 1) s)
  = Raise (HTTPError (respond false demo_data 3 1))
  /\ _dataframe (post (to_dataframe srv demo_lib (Some 1) s)) = None
  /\ sent (to_dataframe srv demo_lib (Some 1) s)
     = [ ReportDefinition (_id demo_report);
         ReportInstance (_id demo_report) (mkBody "{}" (Some false)) 0 1;
         ReportInstanceId (_id demo_report) "4E3A" 1 1;
         ReportInstanceId (_id demo_report) "4E3A" 2 1;
         ReportInstanceId (_id demo_report) "4E3A" 3 1 ].
Proof.
  cbv zeta.
  set (srv := failing_at 3 demo_data).
  set (s := set_parallel false demo_report).
  set (o1 := first_page srv demo_lib (with_limit (Some 1) s)).
  destruct (failed_chunk_aborts
              srv demo_lib (Some 1) s (respond true demo_data 0 1)
              (post o1) (sent o1) 1 [1; 2] 3 [4]
              ltac:(vm_compute; reflexivity)
              ltac:(vm_compute; discriminate)
              ltac:(vm_compute; reflexivity)
              ltac:(vm_compute; reflexivity)
              ltac:(repeat constructor)
              ltac:(vm_compute; reflexivity)) as (H1 & _ & H2 & H3).
  split; [exact H1|]. split; [exact H2|].
  rewrite H3. vm_compute. reflexivity.
Defined.

(** The same failure with [_parallel = True]: all four chunks had been
    submitted. *)
Example failed_chunk_parallel :
  let srv := failing_at 3 demo_data in
  to_dataframe srv demo_lib (Some 1) demo_report
  = mkOut (Raise (HTTPError (respond false demo_data 3 1)))
          (post (to_dataframe srv demo_lib (Some 1) demo_report))
          [ ReportDefinition (_id demo_report);
            ReportInstance (_id demo_report) (mkBody "{}" (Some false)) 0 1;
            ReportInstanceIdAsync (_id demo_report) "4E3A" 1 1;
            ReportInstanceIdAsync (_id demo_report) "4E3A" 2 1;
            ReportInstanceIdAsync (_id demo_report) "4E3A" 3 1;
            ReportInstanceIdAsync (_id demo_report) "4E3A" 4 1 ].
Proof. vm_compute. reflexivity. Qed.



Lemma apply_filters_none_is_noop_example :
  _cross_tab demo_report = false
  /\ apply_filters (serving false demo_data) demo_lib None None None "In"
                   demo_report
     = mkOut (Return tt) demo_report [].
Proof.
  split; [reflexivity|].
  exact (apply_filters_none_is_noop (serving false demo_data) demo_lib "In"
                                    demo_report eq_refl).
Defined.

(** With a filter requested, the same call selects the attribute and
    clears the instance. *)
Example apply_filters_selects :
  let o := (_ <- to_dataframe (serving false demo_data) demo_lib None ;;
            apply_filters (serving false demo_data) demo_lib
                          (Some [region_id]) None None "In") demo_report in
  outcome o = Return tt
  /\ instance_id (post o) = None
  /\ option_map attr_selected (_Report__filter (post o)) = Some [region_id].
Proof. vm_compute. repeat split. Qed.

(** The plan on a few inputs. *)
Example it_total_values :
  it_total 3500 1000 1000 = 3
  /\ it_total 3000 1000 1000 = 2
  /\ it_total 1001 1000 5000 = 1
  /\ it_total 1000 1000 1000 = 0
  /\ it_total 995 1000 1000 = 1
  /\ it_total 0 1000 1000 = -1.
Proof. repeat split. Qed.

Example range_values :
  Py.range_elems 1000 3500 1000 = [1000; 2000; 3000]
  /\ Py.range_elems 1000 3000 1000 = [1000; 2000]
  /\ Py.range_elems 1000 995 1000 = []
  /\ Py.range_elems 5 0 (-2) = [5; 3; 1].
Proof. repeat split. Qed.

Example chunk_limit_values :
  chunk_limit (Some 50000) 50000 123 = Return 50000
  /\ chunk_limit None 1000 2000000 = Return 5000
  /\ chunk_limit (Some 0) 1000 40000000 = Return 1000.
Proof. repeat split. Qed.

(** [int(a / b)] beside [a // b]: equal for a numerator below [2 ** 53],
    rounded beyond. *)
Example int_truediv_values :
  Py.int_truediv 10000000000 2000000 = 5000
  /\ Py.int_truediv 7 2 = 3
  /\ Py.int_truediv (-7) 2 = -3
  /\ Py.int_truediv (2 ^ 53 - 1) 2 = 2 ^ 52 - 1
  /\ Py.int_truediv (2 ^ 53 + 1) 1 = 2 ^ 53
  /\ Py.int_truediv (2 ^ 55 - 1) (2 ^ 55) = 1
  /\ it_total (1000 + 2 ^ 55 - 1) 1000 (2 ^ 55) = 2
  /\ Py.range_len 1000 (1000 + 2 ^ 55 - 1) (2 ^ 55) = 1.
Proof. repeat split. Qed.

(** A second download reuses the instance; when the instance no longer
    answers, a new one is initialised. *)
Example second_download_reuses_instance :
  sent ((_ <- to_dataframe (serving false demo_data) demo_lib None ;;
         to_dataframe (serving false demo_data) demo_lib None) demo_report)
  = [ ReportDefinition (_id demo_report);
      ReportInstance (_id demo_report) (mkBody "{}" (Some false)) 0 1000;
      ReportInstanceId (_id demo_report) "4E3A" 0 1000 ].
Proof. vm_compute. reflexivity. Qed.

Example expired_instance_is_replaced :
  let o := to_dataframe (failing_at 0 demo_data) demo_lib None
                        (set_instance_id (Some "0F0F"%string) demo_report) in
  returned o = Some (mkDataFrame demo_header demo_data)
  /\ sent o
     = [ ReportInstanceId (_id demo_report) "0F0F" 0 1000;
         ReportDefinition (_id demo_report);
         ReportInstance (_id demo_report) (mkBody "{}" (Some false)) 0 1000 ].
Proof. vm_compute. split; reflexivity. Qed.

(** * Further properties of [report.py] *)

(** ** Fields a computation leaves alone *)

(** [m] never changes the field [proj] of [self], whether it returns or
    raises. *)
Definition preserves {A B} (proj : Report -> B) (m : M Report A) : Prop :=
  forall s, proj (post (m s)) = proj s.

Section Preserves.

Context {B : Type} (proj : Report -> B).

Lemma preserves_ret {A} (a : A) : preserves proj (ret a).
Proof. intros s. reflexivity. Qed.

Lemma preserves_raise {A} (e : exn) : preserves proj (@raise Report A e).
Proof. intros s. reflexivity. Qed.

Lemma preserves_get : preserves proj get.
Proof. intros s. reflexivity. Qed.

Lemma preserves_send (r : Request) : preserves proj (send r).
Proof. intros s. reflexivity. Qed.

Lemma preserves_lift {A} (r : Res A) : preserves proj (lift r).
Proof. destruct r; intros s; reflexivity. Qed.

Lemma preserves_modify (f : Report -> Report) :
  (forall s, proj (f s) = proj s) -> preserves proj (modify f).
Proof. intros H s. apply H. Qed.

Lemma preserves_bind {A C} (m : M Report A) (f : A -> M Report C) :
  preserves proj m -> (forall a, preserves proj (f a)) ->
  preserves proj (bind m f).
Proof.
  intros Hm Hf s. unfold bind. specialize (Hm s).
  destruct (m s) as [[e|a] s' t]; cbn in *; [assumption|].
  specialize (Hf a s'). destruct (f a s') as [r s'' t']. cbn in *.
  congruence.
Qed.

Lemma preserves_try_except {A} (m h : M Report A) (handles : exn -> bool) :
  preserves proj m -> preserves proj h ->
  preserves proj (try_except m handles h).
Proof.
  intros Hm Hh s. unfold try_except. specialize (Hm s).
  destruct (m s) as [[e|a] s' t]; cbn in *; [|assumption].
  destruct (handles e); [|assumption].
  specialize (Hh s'). destruct (h s') as [r s'' t']. cbn in *.
  congruence.
Qed.

End Preserves.

Ltac preserves_step :=
  cbv beta zeta;
  first
    [ assumption
    | match goal with
      | H : context [preserves] |- _ => apply H
      end
    | apply preserves_ret | apply preserves_raise | apply preserves_get
    | apply preserves_send | apply preserves_lift
    | apply preserves_modify; intros; reflexivity
    | apply preserves_bind; [|intros ?]
    | apply preserves_try_except
    | match goal with
      | |- preserves _ (match ?x with _ => _ end) => destruct x
      end ].

Section Frames.

Context (srv : Server) (lib : Library).

Lemma remaining_chunks_post (limit : option Z) (res : Response) (p : Parser)
      (s : Report) :
  post (remaining_chunks srv limit res p s) = s.
Proof. now rewrite remaining_chunks_eq. Qed.

(** The cross-tab stage writes [_dataframe] and what [_get_definition]
    writes, nothing else. *)
Lemma the_dataframe_preserves {B} (proj : Report -> B) :
  preserves proj the_dataframe.
Proof. unfold the_dataframe. repeat preserves_step. Qed.

Section DefinitionFrame.

Context {B : Type} (proj : Report -> B).

(** [proj] is none of the fields [_get_definition] assigns. *)
Hypothesis proj_subtotals : forall v s, proj (set_subtotals v s) = proj s.
Hypothesis proj_name : forall v s, proj (set_name v s) = proj s.
Hypothesis proj_cross_tab : forall v s, proj (set_cross_tab v s) = proj s.
Hypothesis proj_attributes : forall v s, proj (set_attributes v s) = proj s.
Hypothesis proj_metrics : forall v s, proj (set_metrics v s) = proj s.
Hypothesis proj_retrieved :
  forall v s, proj (set_definition_retrieved v s) = proj s.
Hypothesis proj_dataframe : forall v s, proj (set_dataframe v s) = proj s.

Ltac definition_step :=
  cbv beta zeta;
  first
    [ assumption
    | match goal with
      | H : context [preserves] |- _ => apply H
      end
    | apply preserves_ret | apply preserves_raise | apply preserves_get
    | apply preserves_send | apply preserves_lift
    | apply preserves_modify; intros;
      first [ apply proj_subtotals | apply proj_name | apply proj_cross_tab
            | apply proj_attributes | apply proj_metrics
            | apply proj_retrieved | apply proj_dataframe ]
    | apply preserves_bind; [|intros ?]
    | match goal with
      | |- preserves _ (match ?x with _ => _ end) => destruct x
      end ].

Lemma _get_definition_preserves : preserves proj (_get_definition srv lib).
Proof. unfold _get_definition, report_definition. repeat definition_step. Qed.

Lemma ensure_definition_preserves :
  preserves proj (ensure_definition srv lib).
Proof.
  pose proof _get_definition_preserves.
  unfold ensure_definition. repeat definition_step.
Qed.

Lemma attributes_preserves : preserves proj (attributes srv lib).
Proof.
  pose proof ensure_definition_preserves.
  unfold attributes. repeat definition_step.
Qed.

Lemma metrics_preserves : preserves proj (metrics srv lib).
Proof.
  pose proof ensure_definition_preserves.
  unfold metrics. repeat definition_step.
Qed.

Lemma or_each_attribute_preserves (attr_dict : list (string * list string)) :
  forall indexes,
    preserves proj (or_each_attribute srv lib attr_dict indexes).
Proof.
  pose proof attributes_preserves.
  pose proof (the_dataframe_preserves proj).
  induction attr_dict as [|[attribute elements] d IH]; intros indexes;
    cbn [or_each_attribute]; repeat definition_step.
Qed.

Lemma cross_tab_filtering_preserves (ctf : CrossTabFilter) :
  preserves proj (cross_tab_filtering srv lib ctf).
Proof.
  pose proof attributes_preserves. pose proof metrics_preserves.
  pose proof (the_dataframe_preserves proj).
  pose proof or_each_attribute_preserves.
  unfold cross_tab_filtering. repeat definition_step.
Qed.

Lemma filtered_dataframe_preserves :
  preserves proj (filtered_dataframe srv lib).
Proof.
  pose proof cross_tab_filtering_preserves.
  pose proof (the_dataframe_preserves proj).
  unfold filtered_dataframe. repeat definition_step.
Qed.

End DefinitionFrame.

(** What [filtered_dataframe] returns is what it leaves in [_dataframe]. *)
Lemma filtered_dataframe_returns_stored (s : Report) (df : DataFrame) :
  outcome (filtered_dataframe srv lib s) = Return df ->
  _dataframe (post (filtered_dataframe srv lib s)) = Some df.
Proof.
  unfold filtered_dataframe, the_dataframe, bind, get.
  destruct ((match _cross_tab_filter s with
             | Some ctf => cross_tab_filtering srv lib ctf
             | None => ret tt
             end) s) as [[e|u] s' t]; cbn; [discriminate|].
  destruct (_dataframe s') as [df'|] eqn:E; cbn; [|discriminate].
  intros H; inversion H; subst. assumption.
Qed.

(** X1. Whatever the outcome of [to_dataframe(limit)], afterwards
    [_initial_limit] is [limit] when a non-zero limit was given, and what it
    was otherwise: an explicit limit stays in force for later calls. *)
Theorem explicit_limit_persists (limit : option Z) (s : Report) :
  _initial_limit (post (to_dataframe srv lib limit s))
  = match limit with
    | Some l => if l =? 0 then _initial_limit s else l
    | None => _initial_limit s
    end.
Proof.
  assert (E : _initial_limit (with_limit limit s)
              = match limit with
                | Some l => if l =? 0 then _initial_limit s else l
                | None => _initial_limit s
                end).
  { unfold with_limit. destruct limit as [l|]; [|reflexivity].
    now destruct (l =? 0). }
  rewrite <- E, to_dataframe_eq.
  pose proof (first_page_framed srv lib (with_limit limit s)) as K.
  destruct (first_page srv lib (with_limit limit s)) as [[e|res] s1 t1];
    cbn in K; destruct K as (_ & _ & _ & _ & Hil & _); [exact Hil|].
  cbv zeta.
  destruct (merged srv limit res (Parser_parse (Parser_init res) res)
                   (_id s1) (_initial_limit s1)) as [e|p]; [exact Hil|].
  match goal with
  | |- context [filtered_dataframe srv lib ?x] =>
      pose proof (filtered_dataframe_preserves _initial_limit
                    ltac:(reflexivity) ltac:(reflexivity) ltac:(reflexivity)
                    ltac:(reflexivity) ltac:(reflexivity) ltac:(reflexivity)
                    ltac:(reflexivity) x) as F;
      destruct (filtered_dataframe srv lib x) as [r s3 t3]
  end.
  cbn in *. congruence.
Qed.

(** X2. When [to_dataframe] returns a table, that table is what it leaves
    in [_dataframe], and [instance_id] is the instance of the first page. *)
Theorem to_dataframe_stores_result (limit : option Z) (s : Report)
        (df : DataFrame) :
  returned (to_dataframe srv lib limit s) = Some df ->
  _dataframe (post (to_dataframe srv lib limit s)) = Some df
  /\ exists res,
      first_page_of srv (with_limit limit s) res
      /\ instance_id (post (to_dataframe srv lib limit s))
         = Some (instanceId res).
Proof.
  unfold returned. rewrite to_dataframe_eq.
  destruct (first_page srv lib (with_limit limit s)) as [[e|res] s1 t1]
    eqn:H1; [discriminate|].
  pose proof (first_page_response srv lib _ _ _ _ H1) as Hres.
  cbv zeta.
  destruct (merged srv limit res (Parser_parse (Parser_init res) res)
                   (_id s1) (_initial_limit s1)) as [e|p]; [discriminate|].
  match goal with
  | |- context [filtered_dataframe srv lib ?x] =>
      pose proof (filtered_dataframe_preserves instance_id
                    ltac:(reflexivity) ltac:(reflexivity) ltac:(reflexivity)
                    ltac:(reflexivity) ltac:(reflexivity) ltac:(reflexivity)
                    ltac:(reflexivity) x) as F;
      pose proof (filtered_dataframe_returns_stored x) as G;
      destruct (filtered_dataframe srv lib x) as [r s3 t3]
  end.
  cbn in *. destruct r as [e|df']; [discriminate|].
  intros H; inversion H; subst df'. split; [now apply G|].
  exists res. split; assumption.
Qed.

End Frames.

(** ** The chunk stage: what it requests *)

Lemma range_elems_in (start stop step o : Z) :
  0 < step ->
  In o (Py.range_elems start stop step) ->
  start <= o < stop /\ (o - start) mod step = 0.
Proof.
  intros Hs Hin. unfold Py.range_elems in Hin.
  apply in_map_iff in Hin. destruct Hin as (k & <- & Hk).
  apply in_seq in Hk.
  destruct (Z_lt_le_dec start stop) as [Hlt | Hle].
  - pose proof (range_len_bounds start stop step Hs Hlt) as [Hlo _].
    split; [nia|].
    replace (start + Z.of_nat k * step - start) with (Z.of_nat k * step)
      by lia.
    apply Z.mod_mul. lia.
  - rewrite range_len_empty in Hk by lia. cbn in Hk. lia.
Qed.

Lemma attempted_incl (fetch : Z -> Response) (offsets : list Z) (o : Z) :
  In o (attempted fetch offsets) -> In o offsets.
Proof.
  induction offsets as [|x xs IH]; cbn; [tauto|].
  destruct (ok (fetch x)); cbn; intuition.
Qed.

Lemma it_total_above_one (total initial_limit limit : Z) :
  0 < limit -> total - initial_limit < 2 ^ 53 ->
  (1 <? it_total total initial_limit limit)
  = (limit <? total - initial_limit).
Proof.
  intros Hl H53. destruct (Z_lt_le_dec initial_limit total) as [Hlt | Hle].
  - pose proof (it_total_bounds total initial_limit limit Hl Hlt H53).
    destruct (Z.ltb_spec 1 (it_total total initial_limit limit));
      destruct (Z.ltb_spec limit (total - initial_limit)); try reflexivity;
      nia.
  - assert (it_total total initial_limit limit <= 1).
    { unfold it_total, Py.int_of_bool.
      pose proof (int_truediv_nonpos (total - initial_limit) limit
                                     ltac:(lia) Hl).
      destruct (negb _); lia. }
    destruct (Z.ltb_spec 1 (it_total total initial_limit limit));
      destruct (Z.ltb_spec limit (total - initial_limit)); try reflexivity;
      lia.
Qed.

(** A request of the parallel loop. *)
Definition is_async (rq : Request) : bool :=
  match rq with
  | ReportInstanceIdAsync _ _ _ _ => true
  | _ => false
  end.

Section ChunkStage.

Context (srv : Server).

(** X4. With a limit that is not negative, every chunk request carries the
    instance of the first page and the chunk limit, at an offset [o] with
    [_initial_limit <= o < paging.total] that is a whole number of chunks
    past the initial limit: nothing is requested at or beyond the announced
    total. *)
Theorem chunk_requests_within_total (limit : option Z) (res : Response)
        (p : Parser) (s : Report) (rq : Request) :
  (forall l', limit = Some l' -> 0 <= l') ->
  In rq (sent (remaining_chunks srv limit res p s)) ->
  exists l o,
    chunk_limit limit (_initial_limit s) (content_len res) = Return l
    /\ (rq = ReportInstanceId (_id s) (instanceId res) o l
        \/ rq = ReportInstanceIdAsync (_id s) (instanceId res) o l)
    /\ _initial_limit s <= o < paging_total res
    /\ (o - _initial_limit s) mod l = 0.
Proof.
  intros Hl. rewrite remaining_chunks_eq. cbn [sent]. unfold chunk_requests.
  destruct (negb _); [|contradiction].
  destruct (chunk_limit limit (_initial_limit s) (content_len res))
    as [e|l] eqn:Hcl; [contradiction|].
  pose proof (chunk_limit_positive _ _ _ _ Hl Hcl) as Hpos.
  cbv zeta. destruct (_ && _)%bool; intros Hin;
    apply in_map_iff in Hin; destruct Hin as (o & <- & Hin);
    [|apply attempted_incl in Hin];
    exists l, o; destruct (range_elems_in _ _ _ _ Hpos Hin); auto.
Qed.

(** X5. For a positive chunk limit and fewer than [2 ** 53] rows beyond the
    initial limit, the parallel loop runs exactly when [_parallel] is set and
    more rows remain than one chunk holds; a single remaining chunk is always
    fetched synchronously. *)
Theorem parallel_needs_two_chunks (limit : option Z) (res : Response)
        (p : Parser) (s : Report) (l : Z) :
  chunk_limit limit (_initial_limit s) (content_len res) = Return l ->
  0 < l ->
  paging_total res - _initial_limit s < 2 ^ 53 ->
  Forall (fun rq =>
            is_async rq
            = (_parallel s
               && (l <? paging_total res - _initial_limit s))%bool)
         (sent (remaining_chunks srv limit res p s)).
Proof.
  intros Hcl Hpos H53. rewrite remaining_chunks_eq. cbn [sent].
  unfold chunk_requests. destruct (negb _); [|constructor].
  rewrite Hcl. cbv zeta. rewrite it_total_above_one by assumption.
  destruct (_ && _)%bool; apply Forall_forall; intros rq Hin;
    apply in_map_iff in Hin; destruct Hin as (o & <- & _); reflexivity.
Qed.

End ChunkStage.

(** ** The report definition: fetched lazily, once, and checked *)

Ltac case_innermost :=
  match goal with
  | |- context [match ?x with _ => _ end] =>
      lazymatch x with
      | context [match _ with _ => _ end] => fail
      | _ => destruct x eqn:?
      end
  end.

Ltac run_monad :=
  unfold bind, get, modify, send, ret, raise, lift, try_except; cbn.

Lemma bind_raises {S A B} (m : M S A) (f : A -> M S B) (s s' : S) (e : exn)
      (t : list Request) :
  m s = mkOut (Raise e) s' t -> bind m f s = mkOut (Raise e) s' t.
Proof. intros H. unfold bind. now rewrite H. Qed.

Lemma bind_returns {S A B} (m : M S A) (f : A -> M S B) (s s' : S) (a : A)
      (t : list Request) :
  m s = mkOut (Return a) s' t ->
  bind m f s
  = mkOut (outcome (f a s')) (post (f a s')) (t ++ sent (f a s')).
Proof. intros H. unfold bind. rewrite H. now destruct (f a s'). Qed.

Section Definition_.

Context (srv : Server) (lib : Library).

Lemma _get_definition_returns (s s' : Report) (t : list Request) :
  _get_definition srv lib s = mkOut (Return tt) s' t ->
  _Report__definition_retrieved s' = true
  /\ t = [ReportDefinition (_id s)].
Proof.
  unfold _get_definition, report_definition. run_monad.
  repeat (case_innermost; run_monad);
    intros H; inversion H; subst; split; reflexivity.
Qed.

Lemma ensure_definition_returns (s s' : Report) (t : list Request) :
  ensure_definition srv lib s = mkOut (Return tt) s' t ->
  _Report__definition_retrieved s' = true.
Proof.
  unfold ensure_definition, bind, get.
  destruct (_Report__definition_retrieved s) eqn:E.
  - cbn. intros H; inversion H; subst. assumption.
  - destruct (_get_definition srv lib s) as [[e|[]] s1 t1] eqn:G;
      intros H; inversion H; subst.
    now destruct (_get_definition_returns _ _ _ G).
Qed.

Lemma ensure_definition_retrieved (s : Report) :
  _Report__definition_retrieved s = true ->
  ensure_definition srv lib s = mkOut (Return tt) s [].
Proof. intros H. unfold ensure_definition, bind, get. now rewrite H. Qed.

(** X6. The definition is fetched at most once: when [report.attributes]
    has returned, reading [attributes] again returns the same list without a
    request, and neither [metrics] nor [_filter] sends one. *)
Theorem definition_is_fetched_once (s s' : Report) (attrs : list Obj)
        (t : list Request) :
  attributes srv lib s = mkOut (Return attrs) s' t ->
  attributes srv lib s' = mkOut (Return attrs) s' []
  /\ metrics srv lib s' = mkOut (Return (_metrics s')) s' []
  /\ sent (_filter srv lib s') = []
  /\ (t = [] \/ t = [ReportDefinition (_id s)]).
Proof.
  unfold attributes at 1. unfold bind at 1.
  destruct (ensure_definition srv lib s) as [[e|[]] s1 t1] eqn:E;
    [discriminate|].
  pose proof (ensure_definition_returns _ _ _ E) as Hr.
  unfold bind, get, ret. cbn. intros H; inversion H; subst.
  pose proof (ensure_definition_retrieved _ Hr) as E'.
  repeat split.
  - unfold attributes. erewrite bind_returns by exact E'. reflexivity.
  - unfold metrics. erewrite bind_returns by exact E'. reflexivity.
  - unfold _filter. erewrite bind_returns by exact E'. cbn.
    unfold bind, get. cbn. now destruct (_Report__filter s').
  - rewrite !app_nil_r. revert E. unfold ensure_definition, bind, get.
    destruct (_Report__definition_retrieved s).
    + cbn. intros H'; inversion H'. now left.
    + destruct (_get_definition srv lib s) as [[e|[]] s2 t2] eqn:G;
        intros H'; inversion H'; subst.
      right. now destruct (_get_definition_returns _ _ _ G).
Qed.

(** A definition with custom groups or consolidations is refused after
    [name] and [_cross_tab] have been assigned and before
    [__definition_retrieved] is. *)
Lemma _get_definition_unsupported (s : Report) :
  let d := srv_definition srv (_id s) in
  def_ok d = true ->
  def_customGroups d <> [] \/ def_consolidations d <> [] ->
  exists msg s',
    _get_definition srv lib s
    = mkOut (Raise (ImportError msg)) s' [ReportDefinition (_id s)]
    /\ _Report__definition_retrieved s' = _Report__definition_retrieved s
    /\ instance_id s' = instance_id s
    /\ _dataframe s' = _dataframe s
    /\ _cross_tab s' = def_crossTab d.
Proof.
  intros d Hok Hun. subst d.
  unfold _get_definition, report_definition. run_monad. rewrite Hok.
  run_monad.
  destruct (version_ge lib (iserver_version (_connection s)) "11.2.0100");
    run_monad;
    (destruct (def_customGroups (srv_definition srv (_id s))) eqn:Hg;
     [ destruct (def_consolidations (srv_definition srv (_id s))) eqn:Hc;
       [ destruct Hun; congruence | ]
     | ]);
    run_monad; eexists; eexists; repeat split.
Qed.

(** X7. A report whose definition has custom groups or consolidations is
    refused before anything is downloaded: [to_dataframe] on a report without
    an instance and without a retrieved definition raises [ImportError] after
    the single definition request, creates no instance and leaves
    [__definition_retrieved] unset, so the next call fails the same way. *)
Theorem unsupported_report_is_refused (limit : option Z) (s : Report) :
  let d := srv_definition srv (_id s) in
  instance_id s = None ->
  _Report__definition_retrieved s = false ->
  def_ok d = true ->
  def_customGroups d <> [] \/ def_consolidations d <> [] ->
  exists msg,
    outcome (to_dataframe srv lib limit s) = Raise (ImportError msg)
    /\ sent (to_dataframe srv lib limit s) = [ReportDefinition (_id s)]
    /\ instance_id (post (to_dataframe srv lib limit s)) = None
    /\ _Report__definition_retrieved (post (to_dataframe srv lib limit s))
       = false.
Proof.
  intros d Hi Hr Hok Hun. subst d.
  set (s0 := with_limit limit s).
  assert (Hs0 : _id s0 = _id s /\ instance_id s0 = None
                /\ _Report__definition_retrieved s0 = false).
  { subst s0. unfold with_limit.
    destruct limit as [l|]; [destruct (negb (l =? 0))|]; cbn; auto. }
  destruct Hs0 as (Hid & Hi0 & Hr0).
  destruct (_get_definition_unsupported s0) as (msg & s' & G & Gr & Gi & _);
    [rewrite Hid; exact Hok | rewrite Hid; exact Hun |].
  exists msg.
  assert (F : first_page srv lib s0
              = mkOut (Raise (ImportError msg)) s' [ReportDefinition (_id s)]).
  { unfold first_page. unfold bind at 1. cbn [get]. rewrite Hi0.
    unfold __initialize_report.
    erewrite (bind_raises (_filter srv lib));
      [rewrite <- Hid; reflexivity|].
    unfold _filter. apply bind_raises.
    unfold ensure_definition. unfold bind at 1. cbn [get]. rewrite Hr0.
    rewrite G. reflexivity. }
  rewrite to_dataframe_eq. fold s0. rewrite F. cbn.
  repeat split; congruence.
Qed.

(** X8. A report that holds an instance which still answers, and no
    cross-tab filter, is downloaded with instance requests only: the
    definition is never requested (so its custom-group check does not run)
    and no new instance is created. *)
Theorem reused_instance_skips_definition (limit : option Z) (s : Report)
        (instance : string) :
  instance_id s = Some instance ->
  _cross_tab_filter s = None ->
  ok (srv_instance_id srv (_id s) instance 0
                      (_initial_limit (with_limit limit s))) = true ->
  Forall (fun rq =>
            match rq with
            | ReportInstanceId _ _ _ _ | ReportInstanceIdAsync _ _ _ _ => True
            | _ => False
            end)
         (sent (to_dataframe srv lib limit s))
  /\ _Report__definition_retrieved (post (to_dataframe srv lib limit s))
     = _Report__definition_retrieved s.
Proof.
  intros Hi Hf Hok.
  set (s0 := with_limit limit s) in *.
  assert (Hs0 : _id s0 = _id s /\ instance_id s0 = Some instance
                /\ _cross_tab_filter s0 = None
                /\ _Report__definition_retrieved s0
                   = _Report__definition_retrieved s).
  { subst s0. unfold with_limit.
    destruct limit as [l|]; [destruct (negb (l =? 0))|]; cbn; auto. }
  destruct Hs0 as (Hid & Hi0 & Hf0 & Hr0).
  assert (F : first_page srv lib s0
              = mkOut (Return (srv_instance_id srv (_id s) instance 0
                                               (_initial_limit s0)))
                      s0
                      [ReportInstanceId (_id s) instance 0
                                        (_initial_limit s0)]).
  { unfold first_page. unfold bind at 1. cbn [get]. rewrite Hi0.
    unfold try_except, __get_chunk, report_instance_id. run_monad.
    rewrite Hid, Hok. reflexivity. }
  rewrite to_dataframe_eq. fold s0. rewrite F. cbv beta iota zeta.
  set (res := srv_instance_id srv (_id s) instance 0 (_initial_limit s0)).
  assert (Hreq : Forall (fun rq =>
                           match rq with
                           | ReportInstanceId _ _ _ _
                           | ReportInstanceIdAsync _ _ _ _ => True
                           | _ => False
                           end)
                        (chunk_requests srv limit res
                           (set_instance_id (Some (instanceId res)) s0))).
  { unfold chunk_requests. destruct (negb _); [|constructor].
    destruct (chunk_limit _ _ _); [constructor|].
    cbv zeta. destruct (_ && _)%bool; apply Forall_forall; intros rq Hin;
      apply in_map_iff in Hin; destruct Hin as (o & <- & _); exact I. }
  destruct (merged srv limit res (Parser_parse (Parser_init res) res)
                   (_id s0) (_initial_limit s0)) as [e|p];
    cbv beta iota zeta.
  - cbn [sent post]. split; [|exact Hr0].
    constructor; [exact I | exact Hreq].
  - rewrite (filtered_dataframe_none srv lib _ (Parser_dataframe p));
      [| cbn; assumption | reflexivity].
    cbn [sent post]. rewrite app_nil_r. split; [|exact Hr0].
    constructor; [exact I | exact Hreq].
Qed.

End Definition_.

(** ** The cross-tab filter works on the downloaded table *)

(** [xs] is [ys] with some elements left out, order kept. *)
Inductive subseq {A : Type} : list A -> list A -> Prop :=
| subseq_nil : subseq [] []
| subseq_skip : forall x xs ys, subseq xs ys -> subseq xs (x :: ys)
| subseq_take : forall x xs ys, subseq xs ys -> subseq (x :: xs) (x :: ys).

Lemma subseq_refl {A} (xs : list A) : subseq xs xs.
Proof. induction xs; constructor; assumption. Qed.

Lemma subseq_length {A} (xs ys : list A) :
  subseq xs ys -> (List.length xs <= List.length ys)%nat.
Proof. induction 1; cbn; lia. Qed.

Lemma subseq_nil_l {A} (ys : list A) : subseq [] ys.
Proof. induction ys; constructor; assumption. Qed.

Lemma df_mask_subseq (mask : list bool) (df : DataFrame) :
  columns (df_mask mask df) = columns df
  /\ subseq (rows (df_mask mask df)) (rows df).
Proof.
  split; [reflexivity|]. unfold df_mask. cbn [rows].
  generalize (rows df). clear df. intros l. revert mask.
  induction l as [|r l IH]; intros [|b mask]; cbn;
    try apply subseq_nil_l.
  destruct b; cbn; constructor; apply IH.
Qed.

Lemma df_mask_all_false (n : nat) (df : DataFrame) :
  rows (df_mask (repeat false n) df) = [].
Proof.
  unfold df_mask. cbn [rows]. generalize (rows df). intros l. revert l.
  induction n as [|n IH]; intros [|r l]; cbn; auto.
Qed.

Section CrossTabField.

Context (srv : Server) (lib : Library) (v : option CrossTabFilter).

Definition with_cross_tab_filter {A} (o : Out Report A) : Out Report A :=
  match o with
  | mkOut r s t => mkOut r (set_cross_tab_filter v s) t
  end.

(** A computation that neither reads nor writes [_cross_tab_filter]. *)
Definition unfiltered {A} (m : M Report A) : Prop :=
  forall s, m (set_cross_tab_filter v s) = with_cross_tab_filter (m s).

Lemma unfiltered_ret {A} (a : A) : unfiltered (ret a).
Proof. intros s. reflexivity. Qed.

Lemma unfiltered_raise {A} (e : exn) : unfiltered (@raise Report A e).
Proof. intros s. reflexivity. Qed.

Lemma unfiltered_send (r : Request) : unfiltered (send r).
Proof. intros s. reflexivity. Qed.

Lemma unfiltered_lift {A} (r : Res A) : unfiltered (lift r).
Proof. destruct r; intros s; reflexivity. Qed.

Lemma unfiltered_modify (f : Report -> Report) :
  (forall s, f (set_cross_tab_filter v s) = set_cross_tab_filter v (f s)) ->
  unfiltered (modify f).
Proof. intros H s. unfold modify, with_cross_tab_filter. now rewrite H. Qed.

Lemma unfiltered_bind {A B} (m : M Report A) (f : A -> M Report B) :
  unfiltered m -> (forall a, unfiltered (f a)) -> unfiltered (bind m f).
Proof.
  intros Hm Hf s. unfold bind. rewrite Hm.
  destruct (m s) as [[e|a] s' t]; cbn; [reflexivity|].
  rewrite Hf. destruct (f a s') as [r s'' t']. reflexivity.
Qed.

Lemma unfiltered_get_bind {B} (k : Report -> M Report B) :
  (forall self, unfiltered (k self)) ->
  (forall self, k (set_cross_tab_filter v self) = k self) ->
  unfiltered (bind get k).
Proof.
  intros Hk Hsame s. unfold bind, get. rewrite Hsame, Hk.
  destruct (k s s) as [r s'' t']. reflexivity.
Qed.

Lemma unfiltered_try_except {A} (m h : M Report A) (handles : exn -> bool) :
  unfiltered m -> unfiltered h -> unfiltered (try_except m handles h).
Proof.
  intros Hm Hh s. unfold try_except. rewrite Hm.
  destruct (m s) as [[e|a] s' t]; cbn; [|reflexivity].
  destruct (handles e); [|reflexivity].
  rewrite Hh. destruct (h s') as [r s'' t']. reflexivity.
Qed.

Ltac unfiltered_step :=
  cbv beta zeta;
  first
    [ assumption
    | match goal with
      | H : context [unfiltered] |- _ => apply H
      end
    | apply unfiltered_ret | apply unfiltered_raise
    | apply unfiltered_send | apply unfiltered_lift
    | apply unfiltered_modify; intros; reflexivity
    | apply unfiltered_get_bind; [intros ? | intros; reflexivity]
    | apply unfiltered_bind; [|intros ?]
    | apply unfiltered_try_except
    | match goal with
      | |- unfiltered (match ?x with _ => _ end) => destruct x
      end ].

Lemma _get_definition_unfiltered : unfiltered (_get_definition srv lib).
Proof.
  unfold _get_definition, report_definition. repeat unfiltered_step.
Qed.

Lemma ensure_definition_unfiltered : unfiltered (ensure_definition srv lib).
Proof.
  pose proof _get_definition_unfiltered.
  unfold ensure_definition. repeat unfiltered_step.
Qed.

Lemma _filter_unfiltered : unfiltered (_filter srv lib).
Proof.
  pose proof ensure_definition_unfiltered.
  unfold _filter. repeat unfiltered_step.
Qed.

Lemma __initialize_report_unfiltered (limit : Z) :
  unfiltered (__initialize_report srv lib limit).
Proof.
  pose proof _filter_unfiltered.
  unfold __initialize_report, report_instance. repeat unfiltered_step.
Qed.

Lemma first_page_unfiltered : unfiltered (first_page srv lib).
Proof.
  pose proof __initialize_report_unfiltered.
  unfold first_page, __get_chunk, report_instance_id.
  repeat unfiltered_step.
Qed.

End CrossTabField.

Section CrossTabStage.

Context (srv : Server) (lib : Library).

Lemma with_limit_cross_tab_filter (limit : option Z)
      (v : option CrossTabFilter) (s : Report) :
  with_limit limit (set_cross_tab_filter v s)
  = set_cross_tab_filter v (with_limit limit s).
Proof.
  unfold with_limit. destruct limit as [l|]; [|reflexivity].
  now destruct (negb (l =? 0)).
Qed.

(** The download does not depend on the stored cross-tab filter: the same
    requests, the same merged pages; the filter only enters afterwards. *)
Lemma to_dataframe_filter_last (v : option CrossTabFilter)
      (limit : option Z) (s : Report) :
  to_dataframe srv lib limit (set_cross_tab_filter v s)
  = match first_page srv lib (with_limit limit s) with
    | mkOut (Raise e) s1 t1 => mkOut (Raise e) (set_cross_tab_filter v s1) t1
    | mkOut (Return res) s1 t1 =>
        let s1' := set_instance_id (Some (instanceId res)) s1 in
        match merged srv limit res (Parser_parse (Parser_init res) res)
                     (_id s1) (_initial_limit s1) with
        | Raise e =>
            mkOut (Raise e) (set_cross_tab_filter v s1')
                  (t1 ++ chunk_requests srv limit res s1')
        | Return p =>
            match filtered_dataframe srv lib
                    (set_cross_tab_filter v
                       (set_dataframe (Some (Parser_dataframe p)) s1')) with
            | mkOut r s3 t3 =>
                mkOut r s3 (t1 ++ chunk_requests srv limit res s1' ++ t3)
            end
        end
    end.
Proof.
  rewrite to_dataframe_eq, with_limit_cross_tab_filter,
    first_page_unfiltered.
  destruct (first_page srv lib (with_limit limit s)) as [[e|res] s1 t1];
    cbv beta iota zeta delta [with_cross_tab_filter]; [reflexivity|].
  cbn [_id _initial_limit set_cross_tab_filter].
  destruct (merged srv limit res (Parser_parse (Parser_init res) res)
                   (_id s1) (_initial_limit s1)) as [e|p]; reflexivity.
Qed.

(** The stage with a filter on attribute elements only: the table is
    masked, row by row. *)
Lemma element_filter_stage (elements : list string) (s : Report)
      (table df' : DataFrame) :
  _cross_tab_filter s = Some (mkCrossTabFilter None None (Some elements)) ->
  _dataframe s = Some table ->
  outcome (filtered_dataframe srv lib s) = Return df' ->
  exists mask, df' = df_mask mask table.
Proof.
  intros Hf Hd.
  unfold filtered_dataframe. unfold bind at 1. cbn [get]. rewrite Hf.
  unfold cross_tab_filtering. cbn [ctf_metrics ctf_attr_elements ctf_attributes].
  set (attr_dict := fold_left _ elements []).
  unfold bind, the_dataframe, get, ret, modify. cbn. rewrite Hd. cbn.
  pose proof (or_each_attribute_preserves srv lib _dataframe
                ltac:(reflexivity) ltac:(reflexivity) ltac:(reflexivity)
                ltac:(reflexivity) ltac:(reflexivity) ltac:(reflexivity)
                attr_dict (repeat false (List.length (rows table))) s) as P.
  destruct (or_each_attribute srv lib attr_dict _ s) as [[e|mask] s4 t4];
    cbn; [discriminate|].
  cbn in P. rewrite P, Hd. cbn.
  intros H; inversion H. now exists mask.
Qed.

(** X9. A cross-tab filter on attribute elements only removes rows:
    whenever the filtered download returns a table, the download without the
    filter returns one too, with the same columns, and the filtered rows are
    rows of it in the same order. *)
Theorem element_filter_only_removes_rows (limit : option Z) (s : Report)
        (elements : list string) (df' : DataFrame) :
  returned (to_dataframe srv lib limit
              (set_cross_tab_filter
                 (Some (mkCrossTabFilter None None (Some elements))) s))
  = Some df' ->
  exists df,
    returned (to_dataframe srv lib limit (set_cross_tab_filter None s))
    = Some df
    /\ columns df' = columns df
    /\ subseq (rows df') (rows df).
Proof.
  unfold returned. rewrite !to_dataframe_filter_last.
  destruct (first_page srv lib (with_limit limit s)) as [[e|res] s1 t1];
    [discriminate|].
  cbv zeta.
  destruct (merged srv limit res (Parser_parse (Parser_init res) res)
                   (_id s1) (_initial_limit s1)) as [e|p]; [discriminate|].
  rewrite (filtered_dataframe_none srv lib
             (set_cross_tab_filter None
                (set_dataframe (Some (Parser_dataframe p))
                   (set_instance_id (Some (instanceId res)) s1)))
             (Parser_dataframe p));
    [| reflexivity | reflexivity].
  match goal with
  | |- context [filtered_dataframe srv lib ?x] =>
      pose proof (element_filter_stage elements x (Parser_dataframe p))
        as Hstage;
      destruct (filtered_dataframe srv lib x) as [[e|d] s3 t3]
  end; cbn; [discriminate|].
  intros H; inversion H; subst d.
  destruct (Hstage df' eq_refl eq_refl eq_refl) as [mask ->].
  exists (Parser_dataframe p). split; [reflexivity|].
  apply df_mask_subseq.
Qed.

End CrossTabStage.

Section EmptyElementFilter.

Context (srv : Server) (lib : Library).

Lemma df_drop_rows_nil (labels : list string) (df df' : DataFrame) :
  rows df = [] -> df_drop labels df = Return df' -> rows df' = [].
Proof.
  intros Hr. unfold df_drop. destruct (find _ labels); [discriminate|].
  intros H; inversion H. cbn. now rewrite Hr.
Qed.

Lemma bind_return_inv {S A B} (m : M S A) (f : A -> M S B) (s s' : S)
      (b : B) (t : list Request) :
  bind m f s = mkOut (Return b) s' t ->
  exists a s1 t1 t2,
    m s = mkOut (Return a) s1 t1
    /\ f a s1 = mkOut (Return b) s' t2
    /\ t = t1 ++ t2.
Proof.
  unfold bind. destruct (m s) as [[e|a] s1 t1]; [discriminate|].
  destruct (f a s1) as [r s2 t2] eqn:Hf. intros H; inversion H; subst.
  exists a, s1, t1, t2. auto.
Qed.

Lemma the_dataframe_inv (s s' : Report) (df : DataFrame)
      (t : list Request) :
  the_dataframe s = mkOut (Return df) s' t ->
  s' = s /\ _dataframe s = Some df.
Proof.
  unfold the_dataframe, bind, get. cbn.
  destruct (_dataframe s); cbn; intros H; inversion H; auto.
Qed.

(** The attribute block of the cross-tab stage keeps a table without rows
    without rows. *)
Lemma attributes_block_keeps_empty (selected : list string) (s : Report)
      (table : DataFrame) :
  _dataframe s = Some table ->
  rows table = [] ->
  let block :=
    (attrs <- attributes srv lib ;;
     let attr_names :=
       map obj_name
           (filter (fun x => negb (Py.list_in (obj_id x) selected)) attrs) in
     df <- the_dataframe ;;
     let '(to_be_removed, to_be_added) :=
       attribute_forms (columns df) attr_names in
     let attr_names :=
       fold_left (fun names elem => Py.list_remove elem names)
                 to_be_removed attr_names
       ++ to_be_added in
     df' <- lift (df_drop attr_names df) ;;
     modify (set_dataframe (Some df'))) in
  forall s' t,
    block s = mkOut (Return tt) s' t ->
    exists table', _dataframe s' = Some table' /\ rows table' = [].
Proof.
  intros Hd Hr block s' t H. subst block.
  apply bind_return_inv in H. destruct H as (attrs & s1 & t1 & t2 & Ha & H & _).
  pose proof (attributes_preserves srv lib _dataframe
                ltac:(reflexivity) ltac:(reflexivity) ltac:(reflexivity)
                ltac:(reflexivity) ltac:(reflexivity) ltac:(reflexivity) s)
    as P.
  rewrite Ha in P. cbn in P.
  cbv zeta in H. apply bind_return_inv in H.
  destruct H as (df & s2 & t3 & t4 & Hdf & H & _).
  apply the_dataframe_inv in Hdf. destruct Hdf as [-> Hdf].
  assert (df = table) by congruence. subst df.
  destruct (attribute_forms (columns table) _) as [to_be_removed to_be_added].
  apply bind_return_inv in H.
  destruct H as (table' & s3 & t5 & t6 & Hdrop & H & _).
  unfold lift in Hdrop.
  destruct (df_drop _ table) as [e|d] eqn:Hd'; [discriminate|].
  inversion Hdrop; subst. inversion H; subst.
  exists table'. split; [reflexivity|].
  eapply df_drop_rows_nil; eassumption.
Qed.

Lemma empty_element_filter_stage (ctf : CrossTabFilter) (s : Report)
      (df' : DataFrame) (s' : Report) (t : list Request) :
  _cross_tab_filter s = Some ctf ->
  ctf_attr_elements ctf = Some [] ->
  filtered_dataframe srv lib s = mkOut (Return df') s' t ->
  rows df' = [].
Proof.
  intros Hf He H. destruct ctf as [sel_attributes sel_metrics sel_elements].
  cbn in He. subst sel_elements.
  unfold filtered_dataframe in H.
  apply bind_return_inv in H. destruct H as (self & s0 & ? & ? & Hg & H & _).
  inversion Hg; subst self s0. rewrite Hf in H.
  apply bind_return_inv in H. destruct H as ([] & s3 & ? & ? & Hc & H & _).
  apply the_dataframe_inv in H. destruct H as [_ Hd3].
  unfold cross_tab_filtering in Hc.
  cbn [ctf_metrics ctf_attr_elements ctf_attributes fold_left] in Hc.
  apply bind_return_inv in Hc. destruct Hc as ([] & sa & ? & ? & _ & Hc & _).
  apply bind_return_inv in Hc. destruct Hc as ([] & sb & ? & ? & Hb & Hc & _).
  assert (Hsb : exists table, _dataframe sb = Some table /\ rows table = []).
  { apply bind_return_inv in Hb.
    destruct Hb as (d & s1 & ? & ? & Hd & Hb & _).
    apply the_dataframe_inv in Hd. destruct Hd as [-> Hd].
    cbn [or_each_attribute] in Hb.
    apply bind_return_inv in Hb.
    destruct Hb as (idx & s2 & ? & ? & Hi & Hb & _).
    inversion Hi; subst idx s2.
    apply bind_return_inv in Hb.
    destruct Hb as (d' & s4 & ? & ? & Hd' & Hb & _).
    apply the_dataframe_inv in Hd'. destruct Hd' as [-> Hd'].
    inversion Hb; subst.
    eexists. split; [reflexivity|]. apply df_mask_all_false. }
  destruct Hsb as (table & Hdb & Hrb).
  destruct sel_attributes as [selected|].
  - destruct (attributes_block_keeps_empty selected sb table Hdb Hrb _ _ Hc)
      as (table' & Hd' & Hr').
    congruence.
  - inversion Hc; subst. congruence.
Qed.

(** X10. A stored cross-tab filter whose list of attribute elements is
    empty (what [apply_filters(attr_elements=[])] stores on a cross-tab
    report) leaves no row: whenever [to_dataframe] returns, the table is
    empty, whatever the source holds. *)
Theorem empty_element_filter_returns_no_rows (limit : option Z) (s : Report)
        (ctf : CrossTabFilter) (df' : DataFrame) :
  ctf_attr_elements ctf = Some [] ->
  returned (to_dataframe srv lib limit (set_cross_tab_filter (Some ctf) s))
  = Some df' ->
  rows df' = [].
Proof.
  intros He. unfold returned. rewrite to_dataframe_filter_last.
  destruct (first_page srv lib (with_limit limit s)) as [[e|res] s1 t1];
    [discriminate|].
  cbv zeta.
  destruct (merged srv limit res (Parser_parse (Parser_init res) res)
                   (_id s1) (_initial_limit s1)) as [e|p]; [discriminate|].
  match goal with
  | |- context [filtered_dataframe srv lib ?x] =>
      pose proof (empty_element_filter_stage ctf x) as Hstage;
      destruct (filtered_dataframe srv lib x) as [[e|d] s3 t3]
  end; cbn; [discriminate|].
  intros H; inversion H; subst d.
  exact (Hstage df' s3 t3 eq_refl He eq_refl).
Qed.

End EmptyElementFilter.

(** ** [clear_filters], lines 554-563, and what the filter methods keep *)

Section Filters.

Context (srv : Server) (lib : Library).

(** [self._filter._select(object_id=[...])]: the filter is looked up
    before the argument is evaluated. *)
Definition select_all (ids : M Report (list Obj)) : M Report unit :=
  f <- _filter srv lib ;;
  objects <- ids ;;
  f' <- lift (Filter_select lib (map obj_id objects) f) ;;
  modify (set_filter (Some f')).

Definition clear_filters : M Report unit :=
  on_filter srv lib (fun f => Return (Filter_clear lib None None None f)) ;;;
  self <- get ;;
  (if _cross_tab self then
     select_all (attributes srv lib) ;;;
     select_all (metrics srv lib)
   else ret tt) ;;;
  modify (set_instance_id None).

(** What neither [apply_filters] on a report that is not cross-tab nor
    [clear_filters] assigns. *)
Definition download_state (s : Report)
  : option CrossTabFilter * option DataFrame * Z * bool * string :=
  (_cross_tab_filter s, _dataframe s, _initial_limit s, _parallel s, _id s).

Lemma ensure_definition_download_state :
  preserves download_state (ensure_definition srv lib).
Proof.
  apply ensure_definition_preserves; reflexivity.
Qed.

Lemma attributes_download_state :
  preserves download_state (attributes srv lib).
Proof. apply attributes_preserves; reflexivity. Qed.

Lemma metrics_download_state : preserves download_state (metrics srv lib).
Proof. apply metrics_preserves; reflexivity. Qed.

Lemma _filter_download_state : preserves download_state (_filter srv lib).
Proof.
  pose proof ensure_definition_download_state.
  unfold _filter. repeat preserves_step.
Qed.

Lemma on_filter_download_state (method : Filter -> Res Filter) :
  preserves download_state (on_filter srv lib method).
Proof.
  pose proof _filter_download_state.
  unfold on_filter. repeat preserves_step.
Qed.

Lemma select_all_download_state (ids : M Report (list Obj)) :
  preserves download_state ids ->
  preserves download_state (select_all ids).
Proof.
  intros Hids. pose proof _filter_download_state.
  unfold select_all. repeat preserves_step.
Qed.

Lemma clear_filters_download_state : preserves download_state clear_filters.
Proof.
  pose proof on_filter_download_state.
  pose proof (select_all_download_state _ attributes_download_state).
  pose proof (select_all_download_state _ metrics_download_state).
  unfold clear_filters. repeat preserves_step.
Qed.

(** X11. [clear_filters] does not clear the cross-tab filter: whether it
    returns or raises, [_cross_tab_filter] and the table in [_dataframe] are
    what they were, so a later [to_dataframe] on a cross-tab report still
    applies the filter stored by [apply_filters]. When it returns,
    [instance_id] is [None]. *)
Theorem clear_filters_keeps_cross_tab_filter (s : Report) :
  _cross_tab_filter (post (clear_filters s)) = _cross_tab_filter s
  /\ _dataframe (post (clear_filters s)) = _dataframe s
  /\ _initial_limit (post (clear_filters s)) = _initial_limit s
  /\ forall s' t,
      clear_filters s = mkOut (Return tt) s' t -> instance_id s' = None.
Proof.
  pose proof (clear_filters_download_state s) as P.
  unfold download_state in P. inversion P as [[Hf Hd Hl Hp Hi]].
  repeat split; try assumption.
  intros s' t H. unfold clear_filters in H.
  apply bind_return_inv in H. destruct H as (? & ? & ? & ? & _ & H & _).
  apply bind_return_inv in H. destruct H as (? & ? & ? & ? & _ & H & _).
  apply bind_return_inv in H. destruct H as (? & ? & ? & ? & _ & H & _).
  inversion H. reflexivity.
Qed.

Lemma select_conditionally_download_state
      (attributes_ metrics_ attr_elements : option (list string)) :
  preserves download_state
            (_select_attribute_filter_conditionally srv lib attributes_)
  /\ preserves download_state
               (_select_metric_filter_conditionally srv lib metrics_)
  /\ preserves download_state
               (_select_attr_el_filter_conditionally srv lib attr_elements).
Proof.
  pose proof on_filter_download_state.
  unfold _select_attribute_filter_conditionally,
    _select_metric_filter_conditionally,
    _select_attr_el_filter_conditionally.
  repeat split; repeat preserves_step.
Qed.

(** X12. On a report that is not cross-tab, [apply_filters] never touches
    the downloaded table, the stored cross-tab filter or the initial limit,
    whatever it is given and whether it returns or raises; when it returns
    after a filter was requested, [instance_id] is [None], so the next
    download starts a new instance. *)
Theorem apply_filters_keeps_download_state
        (attributes_ metrics_ attr_elements : option (list string))
        (operator_ : string) (s : Report) :
  _cross_tab s = false ->
  let out := apply_filters srv lib attributes_ metrics_ attr_elements
                           operator_ s in
  _dataframe (post out) = _dataframe s
  /\ _cross_tab_filter (post out) = _cross_tab_filter s
  /\ _initial_limit (post out) = _initial_limit s
  /\ (forallb is_none [attributes_; metrics_; attr_elements] = false ->
      outcome out = Return tt ->
      instance_id (post out) = None).
Proof.
  intros Hc out.
  destruct (select_conditionally_download_state attributes_ metrics_
                                                attr_elements)
    as (Ha & Hm & He).
  pose proof on_filter_download_state as Ho.
  assert (P : preserves download_state
                (on_filter srv lib
                   (fun f => Return (Filter_clear lib attributes_ metrics_
                                                  attr_elements f)) ;;;
                 on_filter srv lib
                   (fun f => Return (set_operator operator_ f)) ;;;
                 _select_attribute_filter_conditionally srv lib attributes_ ;;;
                 _select_metric_filter_conditionally srv lib metrics_ ;;;
                 _select_attr_el_filter_conditionally srv lib attr_elements ;;;
                 modify (set_instance_id None)))
    by repeat preserves_step.
  assert (E : out
              = if negb (forallb is_none
                                 [attributes_; metrics_; attr_elements])
                then
                  match (on_filter srv lib
                           (fun f => Return (Filter_clear lib attributes_
                                               metrics_ attr_elements f)) ;;;
                         on_filter srv lib
                           (fun f => Return (set_operator operator_ f)) ;;;
                         _select_attribute_filter_conditionally srv lib
                           attributes_ ;;;
                         _select_metric_filter_conditionally srv lib
                           metrics_ ;;;
                         _select_attr_el_filter_conditionally srv lib
                           attr_elements ;;;
                         modify (set_instance_id None)) s with
                  | mkOut r s' t => mkOut r s' t
                  end
                else mkOut (Return tt) s []).
  { subst out. unfold apply_filters. unfold bind at 1. cbn [get].
    rewrite Hc. destruct (negb _); [|reflexivity].
    match goal with
    | |- context [match ?m s with _ => _ end] => destruct (m s)
    end; reflexivity. }
  rewrite E. clear E out.
  destruct (negb (forallb is_none [attributes_; metrics_; attr_elements]))
    eqn:Hreq.
  - specialize (P s).
    match goal with
    | |- context [match ?m s with _ => _ end] =>
        destruct (m s) as [r s' t] eqn:Hrun
    end.
    cbn [post outcome] in *. unfold download_state in P.
    inversion P as [[Hf Hd Hl Hp Hi]].
    repeat split; try assumption.
    intros _ Hr. subst r.
    apply bind_return_inv in Hrun.
    destruct Hrun as (? & ? & ? & ? & _ & Hrun & _).
    apply bind_return_inv in Hrun.
    destruct Hrun as (? & ? & ? & ? & _ & Hrun & _).
    apply bind_return_inv in Hrun.
    destruct Hrun as (? & ? & ? & ? & _ & Hrun & _).
    apply bind_return_inv in Hrun.
    destruct Hrun as (? & ? & ? & ? & _ & Hrun & _).
    apply bind_return_inv in Hrun.
    destruct Hrun as (? & ? & ? & ? & _ & Hrun & _).
    inversion Hrun. reflexivity.
  - cbn [post outcome]. repeat split.
    intros Hn. apply negb_false_iff in Hreq. congruence.
Qed.

End Filters.

(** ** Attribute elements: [__get_attr_elements] and its asynchronous
    twin, lines 621-739 *)

(** What the code reads from a response of
    [GET /reports/<id>/attributes/<id>/elements]: [ok], the header
    [x-mstr-total-count] as an integer, and the JSON list. *)
Record ElementsResponse := mkElementsResponse {
  el_ok : bool;
  el_total : Z;
  el_items : list string
}.

(** The dict built for one attribute. *)
Record AttrElements := mkAttrElements {
  attribute_name : string;
  attribute_id : string;
  elements : list string
}.

(** The request for elements of one attribute, in the trace. *)
Definition elements_request (attribute : string) : Request :=
  Other ("elements of " ++ attribute).

(** The error of an elements response that is not [ok]. *)
Definition elements_error : exn := OtherError "HTTPError".

Section AttributeElements.

Context (srv : Server) (lib : Library).

(** The elements endpoint, by report, attribute, offset and limit. *)
Context (srv_elements : string -> string -> Z -> Z -> ElementsResponse).

(** [fallback_on_timeout()] of [mstrio.utils.helper]: runs the decorated
    function and returns a pair whose first component is its result. *)
Context (fallback_on_timeout :
           forall A, (Z -> M Report A) -> Z -> M Report (A * Z)).

Definition report_single_attribute_elements (report_id attribute : string)
           (offset limit : Z) : M Report ElementsResponse :=
  send (elements_request attribute) ;;;
  let r := srv_elements report_id attribute offset limit in
  if el_ok r then ret r else raise elements_error.

Definition report_single_attribute_elements_coroutine
           (report_id attribute : string) (offset limit : Z)
  : M Report ElementsResponse :=
  send (elements_request attribute) ;;;
  ret (srv_elements report_id attribute offset limit).

(** [for _offset in range(limit, total, limit): ... elements.extend(...)] *)
Fixpoint extend_each (report_id attribute : string) (limit : Z)
         (offsets : list Z) (elements_ : list string)
  : M Report (list string) :=
  match offsets with
  | [] => ret elements_
  | _offset :: offsets' =>
      response <- report_single_attribute_elements report_id attribute
                                                    _offset limit ;;
      extend_each report_id attribute limit offsets'
                  (elements_ ++ el_items response)
  end.

(** The inner function of [__get_attr_elements], before decoration. *)
Definition fetch_for_attribute_given_limit (attribute : Obj) (limit : Z)
  : M Report AttrElements :=
  self <- get ;;
  response <- report_single_attribute_elements (_id self) (obj_id attribute)
                                                0 limit ;;
  let total := el_total response in
  offsets <- range limit total limit ;;
  elements_ <- extend_each (_id self) (obj_id attribute) limit offsets
                           (el_items response) ;;
  ret (mkAttrElements (obj_name attribute) (obj_id attribute) elements_).

Definition fetch_for_attribute (limit : Z) (attribute : Obj)
  : M Report AttrElements :=
  r <- fallback_on_timeout _ (fetch_for_attribute_given_limit attribute)
                           limit ;;
  ret (fst r).

(** A list comprehension whose body has effects. *)
Fixpoint for_each {A B} (f : A -> M Report B) (xs : list A)
  : M Report (list B) :=
  match xs with
  | [] => ret []
  | x :: xs' =>
      y <- f x ;;
      ys <- for_each f xs' ;;
      ret (y :: ys)
  end.

Definition __get_attr_elements (limit : Z) : M Report (list AttrElements) :=
  attrs <- attributes srv lib ;;
  match attrs with
  | [] => ret []
  | _ :: _ =>
      attrs <- attributes srv lib ;;
      for_each (fetch_for_attribute limit) attrs
  end.

Definition __fetch_attribute_elements_chunks (limit : Z)
  : M Report (list ElementsResponse) :=
  attrs <- attributes srv lib ;;
  self <- get ;;
  for_each (fun attribute =>
              report_single_attribute_elements_coroutine
                (_id self) (obj_id attribute) 0 limit)
           attrs.

(** [for i, future in enumerate(pbar): ...], lines 696-722. *)
Fixpoint collect_each (limit : Z) (i : nat)
         (futures : list ElementsResponse) (attr_elements : list AttrElements)
  : M Report (list AttrElements) :=
  match futures with
  | [] => ret attr_elements
  | response :: futures' =>
      attrs <- attributes srv lib ;;
      attr <- match nth_error attrs i with
              | Some attr => ret attr
              | None => raise IndexError
              end ;;
      (if el_ok response then ret tt else raise elements_error) ;;;
      self <- get ;;
      offsets <- range limit (el_total response) limit ;;
      elements_ <- extend_each (_id self) (obj_id attr) limit offsets
                               (el_items response) ;;
      collect_each limit (S i) futures'
                   (attr_elements
                    ++ [mkAttrElements (obj_name attr) (obj_id attr)
                                       elements_])
  end.

(** [__get_attr_elements_async]: [return attr_elements] stands inside
    [if self.attributes:], so without attributes the result is [None]. *)
Definition __get_attr_elements_async (limit : Z)
  : M Report (option (list AttrElements)) :=
  attrs <- attributes srv lib ;;
  match attrs with
  | [] => ret None
  | _ :: _ =>
      futures <- __fetch_attribute_elements_chunks limit ;;
      attr_elements <- collect_each limit 0 futures [] ;;
      ret (Some attr_elements)
  end.

End AttributeElements.

(** Elements [offset, offset + limit) of a list. *)
Definition slice {A} (xs : list A) (offset limit : Z) : list A :=
  firstn (Z.to_nat limit) (skipn (Z.to_nat offset) xs).

(** Chunks of [limit] elements from offset 0 cover the list. *)
Lemma slices_cover {A} (xs : list A) (limit : Z) :
  0 < limit ->
  slice xs 0 limit
  ++ List.concat
       (map (fun o => slice xs o limit)
            (Py.range_elems limit (Z.of_nat (List.length xs)) limit))
  = xs.
Proof.
  intros Hl. unfold slice, Py.range_elems. cbn [Z.to_nat skipn].
  rewrite map_map.
  transitivity (firstn (Z.to_nat limit) xs ++ skipn (Z.to_nat limit) xs);
    [|apply firstn_skipn].
  f_equal.
  set (n := Z.of_nat (List.length xs)).
  set (count := Z.to_nat (Py.range_len limit n limit)).
  transitivity
    (List.concat
       (map (fun k => firstn (Z.to_nat limit)
                             (skipn (k * Z.to_nat limit)
                                    (skipn (Z.to_nat limit) xs)))
            (seq 0 count))).
  - f_equal. apply map_ext. intros k. rewrite skipn_skipn. do 2 f_equal. nia.
  - apply windows_cover; [lia|]. rewrite length_skipn. subst count.
    destruct (Z_lt_le_dec limit n) as [Hlt | Hle].
    + pose proof (range_len_bounds limit n limit Hl Hlt). nia.
    + lia.
Qed.

Section AttributeElementsFacts.

Context (srv : Server) (lib : Library).
Context (srv_elements : string -> string -> Z -> Z -> ElementsResponse).

(** The source holds the list [all] for one attribute of one report. *)
Definition holds_elements (report_id attribute : string) (all : list string)
  : Prop :=
  forall offset limit,
    let r := srv_elements report_id attribute offset limit in
    el_ok r = true ->
    el_items r = slice all offset limit
    /\ el_total r = Z.of_nat (List.length all).

(** The chunks of one attribute, merged in offset order. *)
Fixpoint extended (report_id attribute : string) (limit : Z)
         (offsets : list Z) (elements_ : list string) : Res (list string) :=
  match offsets with
  | [] => Return elements_
  | o :: offsets' =>
      let r := srv_elements report_id attribute o limit in
      if el_ok r
      then extended report_id attribute limit offsets'
                    (elements_ ++ el_items r)
      else Raise elements_error
  end.

Lemma extend_each_eq (report_id attribute : string) (limit : Z)
      (offsets : list Z) :
  forall elements_ s,
  exists t,
    extend_each srv_elements report_id attribute limit offsets elements_ s
    = mkOut (extended report_id attribute limit offsets elements_) s t.
Proof.
  induction offsets as [|o os IH]; intros els s; [now eexists|].
  cbn [extend_each extended].
  unfold bind, report_single_attribute_elements, send, ret, raise. cbn.
  destruct (el_ok (srv_elements report_id attribute o limit)); cbn;
    [|now eexists].
  destruct (IH (els ++ el_items (srv_elements report_id attribute o limit)) s)
    as [t ->].
  now eexists.
Qed.

Lemma extended_returns (report_id attribute : string) (limit : Z)
      (offsets : list Z) :
  forall elements_ result,
    extended report_id attribute limit offsets elements_ = Return result ->
    result
    = elements_
      ++ List.concat
           (map (fun o => el_items (srv_elements report_id attribute o limit))
                offsets)
    /\ Forall (fun o => el_ok (srv_elements report_id attribute o limit)
                        = true) offsets.
Proof.
  induction offsets as [|o os IH]; intros els result H; cbn in *.
  - inversion H. rewrite app_nil_r. auto.
  - destruct (el_ok (srv_elements report_id attribute o limit)) eqn:Hok;
      [|discriminate].
    destruct (IH _ _ H) as [-> Hall]. rewrite <- app_assoc. auto.
Qed.

(** What [fetch_for_attribute_given_limit] amounts to. *)
Definition elements_of (report_id : string) (limit : Z) (attribute : Obj)
  : Res AttrElements :=
  let r := srv_elements report_id (obj_id attribute) 0 limit in
  if el_ok r then
    if limit =? 0 then Raise (ValueError "range() arg 3 must not be zero")
    else
      match extended report_id (obj_id attribute) limit
                     (Py.range_elems limit (el_total r) limit)
                     (el_items r) with
      | Raise e => Raise e
      | Return elements_ =>
          Return (mkAttrElements (obj_name attribute) (obj_id attribute)
                                 elements_)
      end
  else Raise elements_error.

Lemma fetch_for_attribute_given_limit_eq (attribute : Obj) (limit : Z)
      (s : Report) :
  exists t,
    fetch_for_attribute_given_limit srv_elements attribute limit s
    = mkOut (elements_of (_id s) limit attribute) s t.
Proof.
  unfold fetch_for_attribute_given_limit, elements_of.
  unfold bind at 1. cbn [get].
  unfold bind at 1.
  unfold report_single_attribute_elements at 1, bind at 1, send.
  destruct (el_ok (srv_elements (_id s) (obj_id attribute) 0 limit)) eqn:Hok;
    cbn [ret raise outcome post sent]; [|now eexists].
  unfold bind at 1, range.
  destruct (limit =? 0); cbn [ret raise]; [now eexists|].
  unfold bind at 1.
  destruct (extend_each_eq (_id s) (obj_id attribute) limit
              (Py.range_elems limit
                 (el_total (srv_elements (_id s) (obj_id attribute) 0 limit))
                 limit)
              (el_items (srv_elements (_id s) (obj_id attribute) 0 limit)) s)
    as [t ->].
  destruct (extended _ _ _ _ _); cbn; now eexists.
Qed.

(** X13. From a source that holds the list [all] for the attribute, and
    with a positive limit, [fetch_for_attribute_given_limit] can only return
    the whole list, in order, each element once, under the attribute's name
    and id, and leaves the report as it was. *)
Theorem attribute_elements_are_complete (attribute : Obj) (limit : Z)
        (all : list string) (s : Report) (result : AttrElements) :
  0 < limit ->
  holds_elements (_id s) (obj_id attribute) all ->
  outcome (fetch_for_attribute_given_limit srv_elements attribute limit s)
  = Return result ->
  result = mkAttrElements (obj_name attribute) (obj_id attribute) all
  /\ post (fetch_for_attribute_given_limit srv_elements attribute limit s)
     = s.
Proof.
  intros Hl Hsrc.
  destruct (fetch_for_attribute_given_limit_eq attribute limit s)
    as [t ->].
  cbn [outcome post]. intros H. split; [|reflexivity].
  unfold elements_of in H.
  destruct (el_ok (srv_elements (_id s) (obj_id attribute) 0 limit)) eqn:Hok;
    [|discriminate].
  destruct (Z.eqb_spec limit 0); [lia|].
  destruct (Hsrc 0 limit Hok) as [Hitems Htotal].
  destruct (extended _ _ _ _ _) as [e|els] eqn:Hex; [discriminate|].
  inversion H. f_equal.
  destruct (extended_returns _ _ _ _ _ _ Hex) as [-> Hall].
  rewrite Hitems, Htotal.
  rewrite <- (slices_cover all limit Hl) at 3.
  do 2 f_equal. apply map_ext_in. intros o Ho.
  rewrite Htotal in Hall. rewrite Forall_forall in Hall.
  now destruct (Hsrc o limit (Hall o Ho)).
Qed.

End AttributeElementsFacts.

Section AsyncElements.

Context (srv : Server) (lib : Library).
Context (srv_elements : string -> string -> Z -> Z -> ElementsResponse).

(** The records of several attributes, fetched one after the other. *)
Fixpoint all_elements_of (report_id : string) (limit : Z)
         (attrs : list Obj) : Res (list AttrElements) :=
  match attrs with
  | [] => Return []
  | a :: attrs' =>
      match elements_of srv_elements report_id limit a with
      | Raise e => Raise e
      | Return r =>
          match all_elements_of report_id limit attrs' with
          | Raise e => Raise e
          | Return rs => Return (r :: rs)
          end
      end
  end.

Lemma for_each_given_limit (limit : Z) (attrs : list Obj) (s : Report) :
  exists t,
    for_each (fun a => fetch_for_attribute_given_limit srv_elements a limit)
             attrs s
    = mkOut (all_elements_of (_id s) limit attrs) s t.
Proof.
  induction attrs as [|a attrs IH]; [now eexists|].
  cbn [for_each all_elements_of]. unfold bind at 1.
  destruct (fetch_for_attribute_given_limit_eq srv_elements a limit s)
    as [t1 ->].
  destruct (elements_of srv_elements (_id s) limit a) as [e|r];
    [now eexists|].
  unfold bind at 1. destruct IH as [t2 ->].
  destruct (all_elements_of (_id s) limit attrs); cbn; now eexists.
Qed.

Lemma for_each_coroutine (report_id : string) (limit : Z) (attrs : list Obj)
      (s : Report) :
  exists t,
    for_each (fun a => report_single_attribute_elements_coroutine
                         srv_elements report_id (obj_id a) 0 limit)
             attrs s
    = mkOut (Return (map (fun a => srv_elements report_id (obj_id a) 0 limit)
                         attrs))
            s t.
Proof.
  induction attrs as [|a attrs IH]; [now eexists|].
  cbn [for_each map]. destruct IH as [t E].
  erewrite bind_returns by reflexivity.
  erewrite bind_returns by exact E.
  cbn. now eexists.
Qed.

Lemma attributes_retrieved (s : Report) :
  _Report__definition_retrieved s = true ->
  attributes srv lib s = mkOut (Return (_attributes s)) s [].
Proof.
  intros H. unfold attributes.
  erewrite bind_returns by (apply ensure_definition_retrieved; exact H).
  reflexivity.
Qed.

Lemma collect_each_eq (limit : Z) (s : Report) (suffix : list Obj) :
  _Report__definition_retrieved s = true ->
  forall (before : list Obj) (acc : list AttrElements),
    _attributes s = before ++ suffix ->
    exists t,
      collect_each srv lib srv_elements limit (List.length before)
                   (map (fun a => srv_elements (_id s) (obj_id a) 0 limit)
                        suffix)
                   acc s
      = mkOut (match all_elements_of (_id s) limit suffix with
               | Raise e => Raise e
               | Return rs => Return (acc ++ rs)
               end) s t.
Proof.
  intros Hr. induction suffix as [|a suffix IH]; intros before acc Hattrs.
  - cbn. rewrite app_nil_r. now eexists.
  - cbn [map collect_each all_elements_of].
    erewrite bind_returns by (apply attributes_retrieved; exact Hr).
    rewrite Hattrs, nth_error_app2, Nat.sub_diag by lia. cbn [nth_error].
    erewrite bind_returns by reflexivity.
    unfold elements_of.
    destruct (el_ok (srv_elements (_id s) (obj_id a) 0 limit)) eqn:Hok.
    + erewrite bind_returns by reflexivity.
      erewrite bind_returns by reflexivity.
      unfold range. destruct (limit =? 0).
      * erewrite bind_raises by reflexivity. now eexists.
      * erewrite bind_returns by reflexivity.
        destruct (extend_each_eq srv_elements (_id s) (obj_id a) limit
                    (Py.range_elems limit
                       (el_total (srv_elements (_id s) (obj_id a) 0 limit))
                       limit)
                    (el_items (srv_elements (_id s) (obj_id a) 0 limit)) s)
          as [t1 E1].
        destruct (extended srv_elements (_id s) (obj_id a) limit _ _)
          as [e|els].
        -- erewrite bind_raises by exact E1. now eexists.
        -- erewrite bind_returns by exact E1.
           destruct (IH (before ++ [a])
                        (acc ++ [mkAttrElements (obj_name a) (obj_id a) els]))
             as [t2 E2].
           { rewrite <- app_assoc. exact Hattrs. }
           rewrite length_app, Nat.add_1_r in E2. rewrite E2.
           cbn [outcome post sent].
           destruct (all_elements_of (_id s) limit suffix);
             [now eexists|].
           rewrite <- app_assoc. now eexists.
    + erewrite bind_raises by reflexivity. now eexists.
Qed.

(** X14. For a report without attributes the two fetchers disagree:
    [__get_attr_elements] returns the empty list, and
    [__get_attr_elements_async], whose [return] stands inside
    [if self.attributes:], returns [None]. Neither requests any element. *)
Theorem no_attributes_empty_or_none
        (fallback_on_timeout :
           forall A, (Z -> M Report A) -> Z -> M Report (A * Z))
        (limit : Z) (s s' : Report) (t : list Request) :
  attributes srv lib s = mkOut (Return []) s' t ->
  __get_attr_elements srv lib srv_elements fallback_on_timeout limit s
  = mkOut (Return []) s' t
  /\ __get_attr_elements_async srv lib srv_elements limit s
     = mkOut (Return None) s' t.
Proof.
  intros H. unfold __get_attr_elements, __get_attr_elements_async.
  split; erewrite bind_returns by exact H; cbn; now rewrite app_nil_r.
Qed.

(** X15. Prefetching the first chunk of every attribute does not change
    the result: on a report whose definition has been retrieved and has
    attributes, [__get_attr_elements_async] returns the records that
    [fetch_for_attribute_given_limit] returns for the attributes taken in
    order, or raises where that would raise first, and leaves the report as
    it was. *)
Theorem async_elements_match_sequential (limit : Z) (s : Report) :
  _Report__definition_retrieved s = true ->
  _attributes s <> [] ->
  outcome (__get_attr_elements_async srv lib srv_elements limit s)
  = match outcome
            (for_each (fun a => fetch_for_attribute_given_limit
                                  srv_elements a limit)
                      (_attributes s) s) with
    | Raise e => Raise e
    | Return rs => Return (Some rs)
    end
  /\ post (__get_attr_elements_async srv lib srv_elements limit s) = s.
Proof.
  intros Hr Hne.
  destruct (for_each_given_limit limit (_attributes s) s) as [t0 ->].
  cbn [outcome].
  assert (E : exists t,
             __get_attr_elements_async srv lib srv_elements limit s
             = mkOut (match all_elements_of (_id s) limit (_attributes s) with
                      | Raise e => Raise e
                      | Return rs => Return (Some rs)
                      end) s t).
  { unfold __get_attr_elements_async.
    erewrite bind_returns by (apply attributes_retrieved; exact Hr).
    destruct (_attributes s) as [|a attrs] eqn:Hattrs; [contradiction|].
    rewrite <- Hattrs.
    unfold __fetch_attribute_elements_chunks.
    destruct (for_each_coroutine (_id s) limit (_attributes s) s) as [t1 E1].
    assert (F : (attrs0 <- attributes srv lib ;;
                 self <- get ;;
                 for_each
                   (fun attribute =>
                      report_single_attribute_elements_coroutine
                        srv_elements (_id self) (obj_id attribute) 0 limit)
                   attrs0) s
                = mkOut (Return (map (fun a => srv_elements (_id s) (obj_id a)
                                                            0 limit)
                                     (_attributes s)))
                        s ([] ++ [] ++ t1)).
    { erewrite bind_returns by (apply attributes_retrieved; exact Hr).
      erewrite bind_returns by reflexivity. rewrite E1. reflexivity. }
    erewrite bind_returns by exact F.
    destruct (collect_each_eq limit s (_attributes s) Hr [] [] eq_refl)
      as [t2 E2].
    cbn [List.length] in E2.
    destruct (all_elements_of (_id s) limit (_attributes s)) as [e|rs].
    - erewrite bind_raises by exact E2. now eexists.
    - erewrite bind_returns by exact E2. now eexists. }
  destruct E as [t ->]. split; reflexivity.
Qed.

End AsyncElements.

(** ** Repeated downloads *)

Section Repeated.

Context (srv : Server) (lib : Library).

Lemma faithful_table (header : list string) (data : list Row)
      (limit : option Z) (s : Report) (df : DataFrame) :
  faithful srv header data ->
  0 < _initial_limit s ->
  (forall l, limit = Some l -> 0 <= l) ->
  _cross_tab_filter s = None ->
  returned (to_dataframe srv lib limit s) = Some df ->
  df = mkDataFrame header data.
Proof.
  intros Hsrv Hi Hl Hf. unfold returned. rewrite to_dataframe_eq.
  pose proof (with_limit_positive limit s Hi Hl) as Hi0.
  destruct (with_limit_keeps limit s) as (_ & _ & _ & _ & Hf0 & _).
  rewrite Hf in Hf0.
  pose proof (first_page_framed srv lib (with_limit limit s)) as K.
  destruct (first_page srv lib (with_limit limit s)) as [[e|res] s1 t1]
    eqn:H1; cbv beta iota zeta; [discriminate|].
  cbn in K. destruct K as (_ & _ & _ & _ & Hil & Hctf & _).
  pose proof (first_page_response srv lib _ _ _ _ H1) as Hres.
  pose proof (first_page_served _ _ _ _ _ Hsrv Hres) as Hserved.
  destruct Hres as [Hok _].
  destruct (merged srv limit res (Parser_parse (Parser_init res) res)
                   (_id s1) (_initial_limit s1)) as [e|p] eqn:Hm;
    cbv beta iota zeta; [discriminate|].
  rewrite Hil in Hm.
  destruct (merged_is_result_set srv header data limit res (_id s1) _ p
                                 Hsrv Hi0 Hl Hok Hserved Hm) as [Hc Hr].
  rewrite (filtered_dataframe_none srv lib _ (Parser_dataframe p));
    [| cbn; congruence | reflexivity].
  cbn. intros H; inversion H. destruct p. cbn in *. now subst.
Qed.

Lemma to_dataframe_cross_tab_filter (limit : option Z) (s : Report) :
  _cross_tab_filter (post (to_dataframe srv lib limit s))
  = _cross_tab_filter s.
Proof.
  rewrite to_dataframe_eq.
  destruct (with_limit_keeps limit s) as (_ & _ & _ & _ & Hf0 & _).
  pose proof (first_page_framed srv lib (with_limit limit s)) as K.
  destruct (first_page srv lib (with_limit limit s)) as [[e|res] s1 t1];
    cbn in K; destruct K as (_ & _ & _ & _ & _ & Hctf & _);
    [cbn; congruence|].
  cbv zeta.
  destruct (merged srv limit res (Parser_parse (Parser_init res) res)
                   (_id s1) (_initial_limit s1)) as [e|p];
    [cbn; congruence|].
  match goal with
  | |- context [filtered_dataframe srv lib ?x] =>
      pose proof (filtered_dataframe_preserves srv lib _cross_tab_filter
                    ltac:(reflexivity) ltac:(reflexivity) ltac:(reflexivity)
                    ltac:(reflexivity) ltac:(reflexivity) ltac:(reflexivity)
                    ltac:(reflexivity) x) as F;
      destruct (filtered_dataframe srv lib x) as [r s3 t3]
  end.
  cbn in *. congruence.
Qed.

(** X16. Downloading twice gives the same table: with a source that
    answers every page from one result set, a positive initial limit, no
    cross-tab filter and limits that are not negative, a second
    [to_dataframe] on the report the first one left returns the table the
    first one returned, whichever limits the two calls were given. *)
Theorem repeated_download_is_identical (header : list string)
        (data : list Row) (limit limit' : option Z) (s : Report)
        (df df' : DataFrame) :
  faithful srv header data ->
  0 < _initial_limit s ->
  (forall l, limit = Some l -> 0 <= l) ->
  (forall l, limit' = Some l -> 0 <= l) ->
  _cross_tab_filter s = None ->
  returned (to_dataframe srv lib limit s) = Some df ->
  returned (to_dataframe srv lib limit'
                         (post (to_dataframe srv lib limit s))) = Some df' ->
  df' = df.
Proof.
  intros Hsrv Hi Hl Hl' Hf H1 H2.
  rewrite (faithful_table header data limit s df Hsrv Hi Hl Hf H1).
  apply (faithful_table header data limit'
                        (post (to_dataframe srv lib limit s)) df' Hsrv);
    try assumption.
  - rewrite explicit_limit_persists.
    destruct limit as [l|]; [|assumption].
    destruct (Z.eqb_spec l 0); [assumption|].
    specialize (Hl l eq_refl). lia.
  - now rewrite to_dataframe_cross_tab_filter.
Qed.

(** X17. Once the first page has been obtained, its instance is kept on
    the report even when a later chunk or the cross-tab stage fails: a retry
    reads the same instance again instead of creating one. *)
Theorem instance_is_kept_on_failure (limit : option Z) (s : Report)
        (res : Response) (s1 : Report) (t1 : list Request) :
  first_page srv lib (with_limit limit s) = mkOut (Return res) s1 t1 ->
  instance_id (post (to_dataframe srv lib limit s)) = Some (instanceId res).
Proof.
  intros H1. rewrite to_dataframe_eq, H1. cbv beta iota zeta.
  destruct (merged srv limit res (Parser_parse (Parser_init res) res)
                   (_id s1) (_initial_limit s1)) as [e|p]; [reflexivity|].
  match goal with
  | |- context [filtered_dataframe srv lib ?x] =>
      pose proof (filtered_dataframe_preserves srv lib instance_id
                    ltac:(reflexivity) ltac:(reflexivity) ltac:(reflexivity)
                    ltac:(reflexivity) ltac:(reflexivity) ltac:(reflexivity)
                    ltac:(reflexivity) x) as F;
      destruct (filtered_dataframe srv lib x) as [r s3 t3]
  end.
  cbn in *. exact F.
Qed.

End Repeated.

(** ** Worked examples for the further properties *)

Definition demo_elements : string -> string -> Z -> Z -> ElementsResponse :=
  fun _ _ offset limit =>
    mkElementsResponse true 5
      (slice ["East"; "West"; "North"; "South"; "Centre"]%string
             offset limit).

(** A decorator that never times out. *)
Definition demo_fallback
  : forall A, (Z -> M Report A) -> Z -> M Report (A * Z) :=
  fun A f limit => r <- f limit ;; ret (r, limit).

(** A server whose report has custom groups. *)
Definition with_custom_groups : Server :=
  mkServer (fun _ => mkDefinitionJson true "Sales" false [] [] [] None
                                      ["Top customers"%string] [])
           (fun _ _ offset limit => respond true demo_data offset limit)
           (fun _ _ offset limit => respond true demo_data offset limit).

(** A server whose report has no attribute. *)
Definition without_attributes : Server :=
  mkServer (fun _ => mkDefinitionJson true "Totals" false [] [] [] None [] [])
           (fun _ _ offset limit => respond true demo_data offset limit)
           (fun _ _ offset limit => respond true demo_data offset limit).

(** The demo report once [report.attributes] has been read. *)
Definition described (srv : Server) : Report :=
  post (attributes srv demo_lib demo_report).

Lemma to_dataframe_stores_result_example :
  _dataframe (post (to_dataframe (serving false demo_data) demo_lib (Some 2)
                                 demo_report))
  = Some (mkDataFrame demo_header demo_data).
Proof.
  exact (proj1 (to_dataframe_stores_result
                  (serving false demo_data) demo_lib (Some 2) demo_report
                  (mkDataFrame demo_header demo_data)
                  ltac:(vm_compute; reflexivity))).
Defined.

Lemma chunk_requests_within_total_example :
  let s := set_initial_limit 2 demo_report in
  let res := respond true demo_data 0 2 in
  exists l o,
    chunk_limit (Some 2) (_initial_limit s) (content_len res) = Return l
    /\ (ReportInstanceIdAsync (_id s) "4E3A" 4 2
        = ReportInstanceId (_id s) (instanceId res) o l
        \/ ReportInstanceIdAsync (_id s) "4E3A" 4 2
           = ReportInstanceIdAsync (_id s) (instanceId res) o l)
    /\ _initial_limit s <= o < paging_total res
    /\ (o - _initial_limit s) mod l = 0.
Proof.
  exact (chunk_requests_within_total
           (serving false demo_data) (Some 2) (respond true demo_data 0 2)
           (Parser_init (respond true demo_data 0 2))
           (set_initial_limit 2 demo_report)
           (ReportInstanceIdAsync (_id demo_report) "4E3A" 4 2)
           ltac:(intros l' E; inversion E; lia)
           ltac:(vm_compute; right; left; reflexivity)).
Defined.

Lemma parallel_needs_two_chunks_example :
  let s := set_initial_limit 2 demo_report in
  let res := respond true demo_data 0 2 in
  Forall (fun rq =>
            is_async rq
            = (_parallel s && (2 <? paging_total res - _initial_limit s))%bool)
         (sent (remaining_chunks (serving false demo_data) (Some 2) res
                                 (Parser_init res) s)).
Proof.
  exact (parallel_needs_two_chunks
           (serving false demo_data) (Some 2) (respond true demo_data 0 2)
           (Parser_init (respond true demo_data 0 2))
           (set_initial_limit 2 demo_report) 2
           ltac:(reflexivity) ltac:(lia) ltac:(vm_compute; reflexivity)).
Defined.

Lemma definition_is_fetched_once_example :
  let srv := serving false demo_data in
  attributes srv demo_lib (described srv)
  = mkOut (Return [mkObj "Region" region_id]) (described srv) [].
Proof.
  exact (proj1 (definition_is_fetched_once
                  (serving false demo_data) demo_lib demo_report
                  (described (serving false demo_data))
                  [mkObj "Region" region_id]
                  [ReportDefinition (_id demo_report)]
                  ltac:(vm_compute; reflexivity))).
Defined.

Lemma unsupported_report_is_refused_example :
  exists msg,
    outcome (to_dataframe with_custom_groups demo_lib None demo_report)
    = Raise (ImportError msg)
    /\ sent (to_dataframe with_custom_groups demo_lib None demo_report)
       = [ReportDefinition (_id demo_report)]
    /\ instance_id (post (to_dataframe with_custom_groups demo_lib None
                                       demo_report)) = None
    /\ _Report__definition_retrieved
         (post (to_dataframe with_custom_groups demo_lib None demo_report))
       = false.
Proof.
  exact (unsupported_report_is_refused
           with_custom_groups demo_lib None demo_report
           ltac:(reflexivity) ltac:(reflexivity) ltac:(reflexivity)
           ltac:(left; discriminate)).
Defined.

Lemma reused_instance_skips_definition_example :
  let s := set_instance_id (Some "4E3A"%string) demo_report in
  Forall (fun rq =>
            match rq with
            | ReportInstanceId _ _ _ _ | ReportInstanceIdAsync _ _ _ _ => True
            | _ => False
            end)
         (sent (to_dataframe with_custom_groups demo_lib (Some 2) s))
  /\ _Report__definition_retrieved
       (post (to_dataframe with_custom_groups demo_lib (Some 2) s))
     = _Report__definition_retrieved s.
Proof.
  exact (reused_instance_skips_definition
           with_custom_groups demo_lib (Some 2)
           (set_instance_id (Some "4E3A"%string) demo_report) "4E3A"
           ltac:(reflexivity) ltac:(reflexivity) ltac:(reflexivity)).
Defined.

Lemma element_filter_only_removes_rows_example :
  let srv := serving true demo_data in
  exists df,
    returned (to_dataframe srv demo_lib None
                           (set_cross_tab_filter None (described srv)))
    = Some df
    /\ columns (mkDataFrame demo_header [["West"; "20"]; ["South"; "40"]]%string)
       = columns df
    /\ subseq [["West"; "20"]; ["South"; "40"]]%string (rows df).
Proof.
  exact (element_filter_only_removes_rows
           (serving true demo_data) demo_lib None
           (described (serving true demo_data))
           [region_id ++ ":West"; region_id ++ ":South"]%string
           (mkDataFrame demo_header [["West"; "20"]; ["South"; "40"]]%string)
           ltac:(vm_compute; reflexivity)).
Defined.

Lemma empty_element_filter_returns_no_rows_example :
  let srv := serving true demo_data in
  let s := set_cross_tab_filter (Some (mkCrossTabFilter None None (Some [])))
                                (described srv) in
  exists df,
    returned (to_dataframe srv demo_lib None s) = Some df
    /\ columns df = demo_header
    /\ rows df = [].
Proof.
  cbv zeta. exists (mkDataFrame demo_header []).
  split; [vm_compute; reflexivity|]. split; [reflexivity|].
  exact (empty_element_filter_returns_no_rows
           (serving true demo_data) demo_lib None
           (described (serving true demo_data))
           (mkCrossTabFilter None None (Some []))
           (mkDataFrame demo_header [])
           ltac:(reflexivity) ltac:(vm_compute; reflexivity)).
Defined.

Lemma clear_filters_keeps_cross_tab_filter_example :
  let srv := serving true demo_data in
  let s := after_apply_filters srv (region_id ++ ":East") in
  _cross_tab_filter (post (clear_filters srv demo_lib s))
  = Some (mkCrossTabFilter None None (Some [region_id ++ ":East"]%string))
  /\ instance_id (post (clear_filters srv demo_lib s)) = None.
Proof.
  cbv zeta.
  set (srv := serving true demo_data).
  set (s := after_apply_filters srv (region_id ++ ":East")).
  destruct (clear_filters_keeps_cross_tab_filter srv demo_lib s)
    as (Hf & _ & _ & Hi).
  split.
  - rewrite Hf. vm_compute. reflexivity.
  - apply (Hi (post (clear_filters srv demo_lib s))
              (sent (clear_filters srv demo_lib s))).
    vm_compute. reflexivity.
Defined.

Lemma apply_filters_keeps_download_state_example :
  let srv := serving false demo_data in
  let s := post (to_dataframe srv demo_lib None demo_report) in
  let out := apply_filters srv demo_lib (Some [region_id]) None None "In" s in
  _dataframe (post out) = Some (mkDataFrame demo_header demo_data)
  /\ instance_id (post out) = None.
Proof.
  cbv zeta.
  set (srv := serving false demo_data).
  set (s := post (to_dataframe srv demo_lib None demo_report)).
  destruct (apply_filters_keeps_download_state
              srv demo_lib (Some [region_id]) None None "In" s
              ltac:(vm_compute; reflexivity)) as (Hd & _ & _ & Hi).
  split.
  - rewrite Hd. vm_compute. reflexivity.
  - apply Hi; vm_compute; reflexivity.
Defined.

Lemma demo_elements_hold (report_id attribute : string) :
  holds_elements demo_elements report_id attribute
                 ["East"; "West"; "North"; "South"; "Centre"]%string.
Proof. intros offset limit r _. split; reflexivity. Qed.

Lemma attribute_elements_are_complete_example :
  Return (mkAttrElements "Region" region_id
            ["East"; "West"; "North"; "South"; "Centre"]%string)
  = Return (mkAttrElements (obj_name (mkObj "Region" region_id))
              (obj_id (mkObj "Region" region_id))
              ["East"; "West"; "North"; "South"; "Centre"]%string)
  /\ post (fetch_for_attribute_given_limit
             demo_elements (mkObj "Region" region_id) 2 demo_report)
     = demo_report.
Proof.
  destruct (attribute_elements_are_complete
              demo_elements (mkObj "Region" region_id) 2
              ["East"; "West"; "North"; "South"; "Centre"]%string
              demo_report
              (mkAttrElements "Region" region_id
                 ["East"; "West"; "North"; "South"; "Centre"]%string)
              ltac:(lia)
              (demo_elements_hold _ _)
              ltac:(vm_compute; reflexivity)) as [Hr Hp].
  split; [exact (f_equal Return Hr) | exact Hp].
Defined.

Lemma no_attributes_empty_or_none_example :
  __get_attr_elements without_attributes demo_lib demo_elements demo_fallback
                      50000 demo_report
  = mkOut (Return []) (described without_attributes)
          [ReportDefinition (_id demo_report)]
  /\ __get_attr_elements_async without_attributes demo_lib demo_elements
                               50000 demo_report
     = mkOut (Return None) (described without_attributes)
             [ReportDefinition (_id demo_report)].
Proof.
  exact (no_attributes_empty_or_none
           without_attributes demo_lib demo_elements demo_fallback 50000
           demo_report (described without_attributes)
           [ReportDefinition (_id demo_report)]
           ltac:(vm_compute; reflexivity)).
Defined.

Lemma async_elements_match_sequential_example :
  let srv := serving false demo_data in
  outcome (__get_attr_elements_async srv demo_lib demo_elements 2
                                     (described srv))
  = Return (Some [mkAttrElements "Region" region_id
                    ["East"; "West"; "North"; "South"; "Centre"]%string]).
Proof.
  cbv zeta.
  rewrite (proj1 (async_elements_match_sequential
                    (serving false demo_data) demo_lib demo_elements 2
                    (described (serving false demo_data))
                    ltac:(vm_compute; reflexivity)
                    ltac:(vm_compute; discriminate))).
  vm_compute. reflexivity.
Defined.

Lemma repeated_download_is_identical_example :
  let srv := serving false demo_data in
  returned (to_dataframe srv demo_lib None
                         (post (to_dataframe srv demo_lib (Some 2)
                                             demo_report)))
  = returned (to_dataframe srv demo_lib (Some 2) demo_report).
Proof.
  cbv zeta.
  set (srv := serving false demo_data).
  assert (H1 : returned (to_dataframe srv demo_lib (Some 2) demo_report)
               = Some (mkDataFrame demo_header demo_data))
    by (vm_compute; reflexivity).
  assert (H2 : returned (to_dataframe srv demo_lib None
                           (post (to_dataframe srv demo_lib (Some 2)
                                               demo_report)))
               = Some (mkDataFrame demo_header demo_data))
    by (vm_compute; reflexivity).
  pose proof (repeated_download_is_identical
                srv demo_lib demo_header demo_data (Some 2) None
                demo_report
                (mkDataFrame demo_header demo_data)
                (mkDataFrame demo_header demo_data)
                (serving_faithful false demo_data)
                ltac:(cbn; lia)
                ltac:(intros l E; inversion E; lia)
                ltac:(intros l E; discriminate E)
                eq_refl H1 H2) as E.
  rewrite H2, H1. exact (f_equal Some E).
Defined.

Lemma instance_is_kept_on_failure_example :
  let srv := failing_at 3 demo_data in
  outcome (to_dataframe srv demo_lib (Some 1) demo_report)
  = Raise (HTTPError (respond false demo_data 3 1))
  /\ instance_id (post (to_dataframe srv demo_lib (Some 1) demo_report))
     = Some "4E3A"%string.
Proof.
  cbv zeta. split; [vm_compute; reflexivity|].
  set (srv := failing_at 3 demo_data).
  set (o1 := first_page srv demo_lib (with_limit (Some 1) demo_report)).
  exact (instance_is_kept_on_failure
           srv demo_lib (Some 1) demo_report (respond true demo_data 0 1)
           (post o1) (sent o1) ltac:(vm_compute; reflexivity)).
Defined.
